(** * Autoprocessing for the P09 beamline: dispatch engine

    A shallow embedding of the Python sources under [autoprocessing/]
    ([autoprocessing.py] and [utils/*.py]) and the properties of the
    design document that can be checked against them.

    Conventions of the embedding.
    - Python [str] is [string]; a character is a code point below 256.
    - A Python function that can raise is a function into [result]:
      [Ok v] is a normal return, [Raise e] an exception leaving the function.
    - What the code asks of the outside world (the scheduler commands, the
      clock, the tools it shells out to) is read from an explicit record of
      answers, so that every definition stays executable. *)

From Stdlib Require Import String Ascii List ZArith Lia Bool DecimalString.
Import ListNotations.
Local Open Scope string_scope.
Local Open Scope Z_scope.

(** ** Exceptions and results *)

Inductive exn : Type :=
| CalledProcessError
| FileNotFoundError
| PermissionError
| IsADirectoryError
| UnicodeDecodeError
| ValueError
| KeyError (key : string)
| TypeError
| AttributeError
| OverflowError
| ZeroDivisionError
| TimeoutError
| JSONDecodeError
| StopIteration
| SystemExit.

Inductive result (A : Type) : Type :=
| Ok (a : A)
| Raise (e : exn).
Arguments Ok {A} a.
Arguments Raise {A} e.

Definition bind {A B : Type} (r : result A) (f : A -> result B) : result B :=
  match r with
  | Ok a => f a
  | Raise e => Raise e
  end.

Declare Scope result_scope.
Delimit Scope result_scope with result.
Notation "x <- c ;; k" := (bind c (fun x => k))
  (at level 61, c at next level, right associativity) : result_scope.

(** [except Exception] catches every exception of the model but
    [SystemExit], which derives from [BaseException] only. *)
Definition is_Exception (e : exn) : bool :=
  match e with SystemExit => false | _ => true end.

(** ** Python string methods used by the code *)

Module PyStr.

Definition LF : ascii := "010"%char.

Definition code (c : ascii) : Z := Z.of_nat (nat_of_ascii c).

Definition in_range (lo hi : Z) (c : ascii) : bool :=
  (lo <=? code c) && (code c <=? hi).

(** [str.isspace] on code points below 256. *)
Definition is_space (c : ascii) : bool :=
  in_range 9 13 c || in_range 28 32 c || (code c =? 133) || (code c =? 160).

Definition is_digit (c : ascii) : bool := in_range 48 57 c.

Definition is_empty (s : string) : bool :=
  match s with EmptyString => true | String _ _ => false end.

(** [needle in hay] *)
Fixpoint contains (needle hay : string) : bool :=
  String.prefix needle hay ||
  match hay with
  | EmptyString => false
  | String _ t => contains needle t
  end.

Fixpoint lstrip (s : string) : string :=
  match s with
  | EmptyString => EmptyString
  | String c t => if is_space c then lstrip t else s
  end.

Fixpoint rstrip (s : string) : string :=
  match s with
  | EmptyString => EmptyString
  | String c t =>
      let t' := rstrip t in
      if is_space c && is_empty t' then EmptyString else String c t'
  end.

(** [s.strip()] *)
Definition strip (s : string) : string := lstrip (rstrip s).

(** [s.lstrip(c)] for a single character [c]. *)
Fixpoint lstrip_char (sep : ascii) (s : string) : string :=
  match s with
  | EmptyString => EmptyString
  | String c t => if Ascii.eqb c sep then lstrip_char sep t else s
  end.

Definition lower_char (c : ascii) : ascii :=
  if in_range 65 90 c || (in_range 192 222 c && negb (code c =? 215))
  then ascii_of_nat (nat_of_ascii c + 32) else c.

(** [s.lower()] *)
Fixpoint lower (s : string) : string :=
  match s with
  | EmptyString => EmptyString
  | String c t => String (lower_char c) (lower t)
  end.

(** [s.split(sep)] for a single character [sep]: never empty. *)
Fixpoint split (sep : ascii) (s : string) : list string :=
  match s with
  | EmptyString => [EmptyString]
  | String c t =>
      if Ascii.eqb c sep then EmptyString :: split sep t
      else match split sep t with
           | h :: r => String c h :: r
           | [] => [String c EmptyString]
           end
  end.

(** [s.split(sep)[-1]] *)
Definition split_last (sep : ascii) (s : string) : string :=
  last (split sep s) EmptyString.

Fixpoint after_first (sep : ascii) (s : string) : option string :=
  match s with
  | EmptyString => None
  | String c t => if Ascii.eqb c sep then Some t else after_first sep t
  end.

(** [s.split(sep, 1)[-1]] *)
Definition split1_last (sep : ascii) (s : string) : string :=
  match after_first sep s with
  | Some t => t
  | None => s
  end.

(** [f.readlines()] on the text of a file: every line keeps its newline. *)
Fixpoint readlines (s : string) : list string :=
  match s with
  | EmptyString => []
  | String c t =>
      if Ascii.eqb c LF then String c EmptyString :: readlines t
      else match readlines t with
           | h :: r => String c h :: r
           | [] => [String c EmptyString]
           end
  end.

Definition is_linebreak (c : ascii) : bool :=
  in_range 10 13 c || in_range 28 30 c || (code c =? 133).

(** [s.splitlines()]: the line boundaries are dropped, and a carriage
    return followed by a line feed is one boundary. *)
Fixpoint splitlines_from (cur : option string) (after_cr : bool)
    (s : string) : list string :=
  let line := match cur with Some l => l | None => EmptyString end in
  match s with
  | EmptyString =>
      match cur with Some l => [l] | None => [] end
  | String c t =>
      if after_cr && (code c =? 10) then splitlines_from None false t
      else if is_linebreak c
           then line :: splitlines_from None (code c =? 13) t
           else splitlines_from (Some (line ++ String c EmptyString)) false t
  end.

Definition splitlines (s : string) : list string :=
  splitlines_from None false s.

End PyStr.


(** ** Python numbers: [float(text)] and [int(x)] *)

Module PyNum.
Import PyStr.

(** A binary64 value: [m * 2^e] with [m] odd or zero, or an infinity. *)
Inductive pyfloat : Type :=
| Finite (neg : bool) (m : Z) (e : Z)
| Infinite (neg : bool).

Definition digit_value (c : ascii) : Z := code c - 48.

Fixpoint digits_acc (acc : Z) (s : string) : Z :=
  match s with
  | EmptyString => acc
  | String c t => digits_acc (10 * acc + digit_value c) t
  end.

(** The value of a string of decimal digits. *)
Definition digits_value (s : string) : Z := digits_acc 0 s.

(** [n / d >= 2^e] for positive [n], [d]. *)
Definition ge_pow2 (n d e : Z) : bool :=
  if 0 <=? e then d * 2 ^ e <=? n else d <=? n * 2 ^ (- e).

Fixpoint strip_zero_bits (p : positive) (e : Z) : Z * Z :=
  match p with
  | xO p' => strip_zero_bits p' (e + 1)
  | _ => (Zpos p, e)
  end.

Definition normal_form (m e : Z) : Z * Z :=
  match m with
  | Zpos p => strip_zero_bits p e
  | _ => (0, 0)
  end.

(** Round the positive rational [n / d] to binary64, to nearest with ties
    to even: [Some (m, e)] is the value [m * 2^e], [None] is overflow. *)
Definition round_binary64 (n d : Z) : option (Z * Z) :=
  let e0 := Z.log2 n - Z.log2 d in
  let e := if ge_pow2 n d e0 then e0 else e0 - 1 in
  let p := Z.max (e - 52) (-1074) in
  let N := n * 2 ^ (Z.max (- p) 0) in
  let D := d * 2 ^ (Z.max p 0) in
  let q := N / D in
  let r := N mod D in
  let q' := if (D <? 2 * r) || ((D =? 2 * r) && Z.odd q) then q + 1 else q in
  if 2 ^ 1024 <=? q' * 2 ^ (Z.max p 0) then None
  else Some (normal_form q' p).

(** The binary64 value nearest to [(-1)^neg * mant * 10^exp10]. *)
Definition float_of_decimal (neg : bool) (mant exp10 : Z) : pyfloat :=
  if mant <=? 0 then Finite neg 0 0
  else
    let n := if 0 <=? exp10 then mant * 10 ^ exp10 else mant in
    let d := if 0 <=? exp10 then 1 else 10 ^ (- exp10) in
    match round_binary64 n d with
    | Some (m, e) => Finite neg m e
    | None => Infinite neg
    end.

(** [int(x)] for a float [x]: truncation, [OverflowError] on infinity. *)
Definition int_of_float (x : pyfloat) : result Z :=
  match x with
  | Infinite _ => Raise OverflowError
  | Finite neg m e =>
      let a := if 0 <=? e then m * 2 ^ e else m / 2 ^ (- e) in
      Ok (if neg then - a else a)
  end.

Definition is_sign (c : ascii) : bool :=
  Ascii.eqb c "+" || Ascii.eqb c "-".

(** [int(text)] for a stripped text: an optional sign and decimal digits,
    single underscores allowed between digits; [ValueError] otherwise. *)
Fixpoint int_digits (prev_digit : bool) (acc : Z) (s : string) : option Z :=
  match s with
  | EmptyString => if prev_digit then Some acc else None
  | String c t =>
      if is_digit c then int_digits true (10 * acc + digit_value c) t
      else if Ascii.eqb c "_" && prev_digit then int_digits false acc t
      else None
  end.

Definition int_of_str (s : string) : result Z :=
  let body (neg : bool) (t : string) :=
    match int_digits false 0 t with
    | Some z => Ok (if neg then - z else z)
    | None => Raise ValueError
    end in
  match strip s with
  | String c t =>
      if Ascii.eqb c "-" then body true t
      else if Ascii.eqb c "+" then body false t
      else body false (String c t)
  | EmptyString => Raise ValueError
  end.

End PyNum.

(** ** utils/extract.py *)

Module Extract.
Import PyStr PyNum.

(** A match of the pattern
    [[-+]?[0-9]*\.?[0-9]+(?:[eE][-+]?[0-9]+)?]: the sign, the digits before
    the point, the point with the digits after it, and the exponent with
    its letter, sign and digits. *)
Record number_match : Type := {
  nm_sign : string;
  nm_int : string;
  nm_frac : option string;
  nm_exp : option (ascii * string * string)
}.

(** [match.group()] *)
Definition group (m : number_match) : string :=
  nm_sign m ++ nm_int m ++
  match nm_frac m with Some f => "." ++ f | None => EmptyString end ++
  match nm_exp m with
  | Some (e, sg, d) => String e EmptyString ++ sg ++ d
  | None => EmptyString
  end.

Fixpoint span_digits (s : string) : string * string :=
  match s with
  | EmptyString => (EmptyString, EmptyString)
  | String c t =>
      if is_digit c
      then let (d, r) := span_digits t in (String c d, r)
      else (EmptyString, s)
  end.

(** [[0-9]*\.?[0-9]+] at the head of [s], with the text left after it.
    The greedy [[0-9]*] gives digits back when no digit follows the point. *)
Definition match_mantissa (s : string) : option (string * option string * string) :=
  let (d1, r1) := span_digits s in
  let integer_only := if is_empty d1 then None else Some (d1, None, r1) in
  match r1 with
  | String c r2 =>
      if Ascii.eqb c "." then
        let (d2, r3) := span_digits r2 in
        if is_empty d2 then integer_only else Some (d1, Some d2, r3)
      else integer_only
  | EmptyString => integer_only
  end.

(** [(?:[eE][-+]?[0-9]+)?] at the head of [s]. *)
Definition match_exponent (s : string) : option (ascii * string * string) :=
  match s with
  | String c r1 =>
      if Ascii.eqb c "e" || Ascii.eqb c "E" then
        let (sg, r2) :=
          match r1 with
          | String c' r' =>
              if is_sign c' then (String c' EmptyString, r') else (EmptyString, r1)
          | EmptyString => (EmptyString, r1)
          end in
        let (d, _) := span_digits r2 in
        if is_empty d then None else Some (c, sg, d)
      else None
  | EmptyString => None
  end.

(** The pattern anchored at the head of [s]. *)
Definition match_here (s : string) : option number_match :=
  let (sg, r0) :=
    match s with
    | String c t => if is_sign c then (String c EmptyString, t) else (EmptyString, s)
    | EmptyString => (EmptyString, s)
    end in
  match match_mantissa r0 with
  | Some (d1, fr, r1) =>
      Some {| nm_sign := sg; nm_int := d1; nm_frac := fr;
              nm_exp := match_exponent r1 |}
  | None => None
  end.

(** [re.search(pattern, line)]: the leftmost match. *)
Fixpoint re_search (line : string) : option number_match :=
  match match_here line with
  | Some m => Some m
  | None =>
      match line with
      | EmptyString => None
      | String _ t => re_search t
      end
  end.

(** [float(match.group())] *)
Definition float_of_match (m : number_match) : pyfloat :=
  let frac := match nm_frac m with Some f => f | None => EmptyString end in
  let e := match nm_exp m with
           | Some (_, sg, d) =>
               if String.eqb sg "-" then - digits_value d else digits_value d
           | None => 0
           end in
  float_of_decimal (String.eqb (nm_sign m) "-")
    (digits_value (nm_int m ++ frac))
    (e - Z.of_nat (String.length frac)).

(** The values the function returns. *)
Inductive pyvalue : Type :=
| VStr (s : string)
| VInt (z : Z)
| VFloat (x : pyfloat).

(** Why a file that is there cannot be read as text. *)
Inductive read_error : Type := Denied | IsDirectory | Undecodable.

Definition exn_of_read_error (why : read_error) : exn :=
  match why with
  | Denied => PermissionError
  | IsDirectory => IsADirectoryError
  | Undecodable => UnicodeDecodeError
  end.

(** The descriptor file as [open] finds it. *)
Inductive info_file : Type :=
| Missing
| Unreadable (why : read_error)
| Text (content : string).

(** [with open(info_path) as f: lines = f.readlines()] *)
Definition open_readlines (f : info_file) : result (list string) :=
  match f with
  | Missing => Raise FileNotFoundError
  | Unreadable why => Raise (exn_of_read_error why)
  | Text content => Ok (readlines content)
  end.

(** [float(match.group()) if is_float else int(float(match.group()))] *)
Definition number_of_match (is_float : bool) (m : number_match) : result pyvalue :=
  if is_float then Ok (VFloat (float_of_match m))
  else match int_of_float (float_of_match m) with
       | Ok z => Ok (VInt z)
       | Raise e => Raise e
       end.

(** The [for line in lines] loop: [Ok (Some v)] is [return v] from inside
    the loop, [Ok None] is the loop running to its end. *)
Fixpoint scan_lines (key : string) (is_float is_string : bool)
    (lines : list string) : result (option pyvalue) :=
  match lines with
  | [] => Ok None
  | line :: rest =>
      if contains key line then
        if is_string then Ok (Some (VStr (strip (split1_last ":" line))))
        else
          match re_search line with
          | Some m =>
              match number_of_match is_float m with
              | Ok v => Ok (Some v)
              | Raise e => Raise e
              end
          | None => scan_lines key is_float is_string rest
          end
      else scan_lines key is_float is_string rest
  end.

Definition default_fallback (fallback : option pyvalue) (is_string : bool) : pyvalue :=
  match fallback with
  | Some v => v
  | None => if is_string then VStr EmptyString else VInt 0
  end.

(** The [try] block of the function. *)
Definition try_block (info : info_file) (key : string)
    (is_float is_string : bool) : result (option pyvalue) :=
  match open_readlines info with
  | Ok lines => scan_lines key is_float is_string lines
  | Raise e => Raise e
  end.

Definition extract_value_from_info (info : info_file) (key : string)
    (fallback : option pyvalue) (is_float is_string : bool) : result pyvalue :=
  let fallback := default_fallback fallback is_string in
  match try_block info key is_float is_string with
  | Ok (Some v) => Ok v
  | Ok None => Ok fallback
  | Raise e => if is_Exception e then Ok fallback else Raise e
  end.

End Extract.

(** ** Paths *)

Module PyPath.
Import PyStr.

Fixpoint ends_with_slash (s : string) : bool :=
  match s with
  | EmptyString => false
  | String c EmptyString => Ascii.eqb c "/"
  | String _ t => ends_with_slash t
  end.

(** [os.path.join(a, b)] for a relative [b]. *)
Definition join (a b : string) : string :=
  if is_empty a || ends_with_slash a then a ++ b else a ++ "/" ++ b.

(** [Path(p).name]: the last component of the path. *)
Definition name (p : string) : string :=
  last (filter (fun c => negb (is_empty c)) (split "/" p)) EmptyString.

Fixpoint drop (n : nat) (s : string) : string :=
  match n, s with
  | S k, String _ t => drop k t
  | _, _ => s
  end.

Fixpoint ends_with (suffix s : string) : bool :=
  String.eqb suffix s ||
  match s with
  | EmptyString => false
  | String _ t => ends_with suffix t
  end.

End PyPath.

(** ** string.Template *)

Module PyTemplate.
Import PyStr.

(** The pieces the pattern of [string.Template] cuts a text into. *)
Inductive token : Type :=
| Literal (c : ascii)
| Escaped
| Named (name : string)
| Braced (name : string)
| Invalid.

(** The text a token was read from. *)
Definition source (t : token) : string :=
  match t with
  | Literal c => String c EmptyString
  | Escaped => "$$"
  | Named n => "$" ++ n
  | Braced n => "${" ++ n ++ "}"
  | Invalid => "$"
  end.

Definition is_id_start (c : ascii) : bool :=
  Ascii.eqb c "_" || in_range 97 122 c || in_range 65 90 c.

Definition is_id_char (c : ascii) : bool := is_id_start c || is_digit c.

Fixpoint span_id_chars (s : string) : string :=
  match s with
  | EmptyString => EmptyString
  | String c t => if is_id_char c then String c (span_id_chars t) else EmptyString
  end.

(** The longest identifier [[_a-z][_a-z0-9]*] (case ignored) at the head. *)
Definition span_identifier (s : string) : string :=
  match s with
  | String c t => if is_id_start c then String c (span_id_chars t) else EmptyString
  | EmptyString => EmptyString
  end.

(** [{identifier}] at the head. *)
Definition span_braced (s : string) : option string :=
  match s with
  | String c t =>
      if Ascii.eqb c "{" then
        let id := span_identifier t in
        if is_empty id then None
        else if String.prefix "}" (PyPath.drop (String.length id) t)
             then Some id else None
      else None
  | EmptyString => None
  end.

(** The token that starts at a delimiter, given the text after it. *)
Definition token_after_delimiter (t : string) : token :=
  if String.prefix "$" t then Escaped
  else
    let id := span_identifier t in
    if negb (is_empty id) then Named id
    else match span_braced t with
         | Some b => Braced b
         | None => Invalid
         end.

(** The scan of [pattern.sub]: the matches from left to right, the text
    between them character by character.  [skip] counts the characters of
    the current match still to pass over. *)
Fixpoint tokenize_from (skip : nat) (s : string) : list token :=
  match s with
  | EmptyString => []
  | String c t =>
      match skip with
      | S k => tokenize_from k t
      | O =>
          if Ascii.eqb c "$" then
            let tok := token_after_delimiter t in
            tok :: tokenize_from (String.length (source tok) - 1) t
          else Literal c :: tokenize_from 0 t
      end
  end.

Definition tokenize (s : string) : list token := tokenize_from 0 s.

(** The mapping handed to the template: the items of the dict, each value
    as [str] prints it. *)
Definition mapping : Type := list (string * string).

Fixpoint lookup (m : mapping) (k : string) : option string :=
  match m with
  | [] => None
  | (k', v) :: r => if String.eqb k' k then Some v else lookup r k
  end.

(** [convert(mo)] of [Template.substitute] *)
Definition convert (m : mapping) (t : token) : result string :=
  match t with
  | Literal c => Ok (String c EmptyString)
  | Escaped => Ok "$"
  | Named n | Braced n =>
      match lookup m n with
      | Some v => Ok v
      | None => Raise (KeyError n)
      end
  | Invalid => Raise ValueError
  end.

(** [convert(mo)] of [Template.safe_substitute] *)
Definition safe_convert (m : mapping) (t : token) : string :=
  match t with
  | Literal c => String c EmptyString
  | Escaped => "$"
  | Named n | Braced n =>
      match lookup m n with
      | Some v => v
      | None => source t
      end
  | Invalid => source t
  end.

Fixpoint substitute_tokens (m : mapping) (ts : list token) : result string :=
  match ts with
  | [] => Ok EmptyString
  | t :: r =>
      match convert m t with
      | Raise e => Raise e
      | Ok a =>
          match substitute_tokens m r with
          | Raise e => Raise e
          | Ok b => Ok (a ++ b)
          end
      end
  end.

(** [Template(text).substitute(m)] *)
Definition substitute (m : mapping) (text : string) : result string :=
  substitute_tokens m (tokenize text).

(** The pieces put together again. *)
Definition join_all (pieces : list string) : string :=
  fold_right append EmptyString pieces.

(** [Template(text).safe_substitute(m)] *)
Definition safe_substitute (m : mapping) (text : string) : string :=
  join_all (map (safe_convert m) (tokenize text)).

End PyTemplate.

(** ** External commands *)

(** A finished child process: its return code and what it printed. *)
Record completed : Type := {
  returncode : Z;
  stdout : string
}.

(** [subprocess.check_output(...).decode()] *)
Definition check_output (p : completed) : result string :=
  if returncode p =? 0 then Ok (stdout p) else Raise CalledProcessError.

(** ** utils/nodes.py *)

Module Nodes.
Import PyStr.

Definition LIMIT_FOR_RESERVED_NODES : Z := 25.

(** [squeue] answers the command line it is given. *)
Definition are_the_reserved_nodes_overloaded (squeue : string -> completed)
    (node_list : string) : result bool :=
  let jobs_cmd := "squeue -w " ++ node_list in
  let all_jobs :=
    match check_output (squeue jobs_cmd) with
    | Ok out => Ok (splitlines out)
    | Raise CalledProcessError => Ok []
    | Raise e => Raise e
    end in
  match all_jobs with
  | Ok all_jobs => Ok (LIMIT_FOR_RESERVED_NODES <? Z.of_nat (length all_jobs))
  | Raise e => Raise e
  end.

End Nodes.

(** ** autoprocessing.py: the metadata record *)

Module Metadata.
Import PyStr PyNum.
Local Open Scope result_scope.

(** What [json.load] returns. An object holds the items of the dict. *)
#[local] Unset Elimination Schemes.
Inductive json : Type :=
| JNull
| JBool (b : bool)
| JInt (z : Z)
| JFloat (x : pyfloat)
| JString (s : string)
| JArray (items : list json)
| JObject (items : list (string * json)).
#[local] Set Elimination Schemes.

(** A candidate file, as [open] and [json.load] find it. *)
Inductive candidate : Type :=
| Vanished
| Malformed
| Loaded (data : json).

Fixpoint get (items : list (string * json)) (k : string) : option json :=
  match items with
  | [] => None
  | (k', v) :: r => if String.eqb k' k then Some v else get r k
  end.

Definition is_string (k : string) (v : json) : bool :=
  match v with JString s => String.eqb s k | _ => false end.

(** [k in data] *)
Definition py_in (k : string) (data : json) : result bool :=
  match data with
  | JObject items => Ok (match get items k with Some _ => true | None => false end)
  | JArray items => Ok (existsb (is_string k) items)
  | JString s => Ok (contains k s)
  | _ => Raise TypeError
  end.

(** [data[k]] for a string [k] *)
Definition subscript (data : json) (k : string) : result json :=
  match data with
  | JObject items =>
      match get items k with
      | Some v => Ok v
      | None => Raise (KeyError k)
      end
  | _ => Raise TypeError
  end.

(** [online.get(k)] *)
Definition dict_get (online : json) (k : string) : result json :=
  match online with
  | JObject items => Ok (match get items k with Some v => v | None => JNull end)
  | _ => Raise AttributeError
  end.

Definition truthy (v : json) : bool :=
  match v with
  | JNull => false
  | JBool b => b
  | JInt z => negb (z =? 0)
  | JFloat (Finite _ m _) => negb (m =? 0)
  | JFloat (Infinite _) => true
  | JString s => negb (is_empty s)
  | JArray items => match items with [] => false | _ => true end
  | JObject items => match items with [] => false | _ => true end
  end.

Fixpoint chars (s : string) : list string :=
  match s with
  | EmptyString => []
  | String c t => String c EmptyString :: chars t
  end.

Fixpoint all_strings (items : list json) : result (list string) :=
  match items with
  | [] => Ok []
  | JString s :: r =>
      match all_strings r with
      | Ok l => Ok (s :: l)
      | Raise e => Raise e
      end
  | _ :: _ => Raise TypeError
  end.

(** [",".join(v)] *)
Definition comma_join (v : json) : result string :=
  match v with
  | JArray items =>
      match all_strings items with
      | Ok l => Ok (String.concat "," l)
      | Raise e => Raise e
      end
  | JString s => Ok (String.concat "," (chars s))
  | JObject items => Ok (String.concat "," (map fst items))
  | _ => Raise TypeError
  end.

Record metadata : Type := {
  beamtimeId : json;
  corePath : json;
  reservedNodes : string;
  sshPrivateKeyPath : json;
  sshPublicKeyPath : json;
  userAccount : json;
  file : string;
  slurmPartition : json
}.

(** [all(k in data for k in ["beamtimeId", "onlineAnalysis"])] *)
Definition has_required_keys (data : json) : result bool :=
  a <- py_in "beamtimeId" data ;;
  if a then py_in "onlineAnalysis" data else Ok false.

(** The dict built for a file that passed the test of the required keys. *)
Definition build_result (json_file : string) (data : json) : result metadata :=
  online <- subscript data "onlineAnalysis" ;;
  id <- subscript data "beamtimeId" ;;
  core <- subscript data "corePath" ;;
  nodes <- dict_get online "reservedNodes" ;;
  joined <- (if truthy nodes then comma_join nodes else Ok EmptyString) ;;
  priv <- dict_get online "sshPrivateKeyPath" ;;
  pub <- dict_get online "sshPublicKeyPath" ;;
  account <- dict_get online "userAccount" ;;
  partition <- dict_get online "slurmPartition" ;;
  Ok {| beamtimeId := id; corePath := core; reservedNodes := joined;
        sshPrivateKeyPath := priv; sshPublicKeyPath := pub;
        userAccount := account; file := json_file;
        slurmPartition := partition |}.

(** The body of the [try] for one file: [Ok (Some r)] is [return r],
    [Ok None] falls through to the next file. *)
Definition try_file (json_file : string) (c : candidate) : result (option metadata) :=
  data <- match c with
          | Vanished => Raise FileNotFoundError
          | Malformed => Raise JSONDecodeError
          | Loaded d => Ok d
          end ;;
  ok <- has_required_keys data ;;
  if ok then (r <- build_result json_file data ;; Ok (Some r))
  else Ok None.

(** [except (json.JSONDecodeError, FileNotFoundError)] *)
Definition is_skipped (e : exn) : bool :=
  match e with
  | JSONDecodeError | FileNotFoundError => true
  | _ => false
  end.

(** The [for json_file in json_files] loop and the [raise] after it. *)
Fixpoint scan_candidates (json_files : list (string * candidate)) : result metadata :=
  match json_files with
  | [] => Raise FileNotFoundError
  | (json_file, c) :: rest =>
      match try_file json_file c with
      | Ok (Some r) => Ok r
      | Ok None => scan_candidates rest
      | Raise e => if is_skipped e then scan_candidates rest else Raise e
      end
  end.

(** [base_exists] says whether the base path exists, [json_files] is what
    [glob.glob] finds under it, each file with what loading it gives. *)
Definition find_and_parse_metadata (base_exists : bool)
    (json_files : list (string * candidate)) : result metadata :=
  if negb base_exists then Raise FileNotFoundError
  else scan_candidates json_files.

End Metadata.

(** ** The output directory and the outside world *)

Module Shell.
Import PyStr.

(** What an entry of a directory is: the forced cleanup tells regular
    files, symbolic links and directories apart. *)
Inductive kind : Type := RegularFile | SymLink | Directory.

(** An entry of the output directory of a folder. [deletable] says
    whether removing it succeeds. *)
Record entry : Type := {
  ename : string;
  ekind : kind;
  deletable : bool
}.

(** The output directory mirrored from a raw folder: [None] while it does
    not exist, otherwise its listing. An entry that is listed exists: no
    symbolic link dangles. *)
Definition outdir : Type := option (list entry).

(** What a run leaves behind, in order: the lines of the log, the entries
    removed from the output directory and the jobs handed to the scheduler,
    each with the command line that submits it and its script. *)
Inductive event : Type :=
| Info (msg : string)
| Warning (msg : string) (e : exn)
| Error (msg : string)
| Removed (path : string)
| Submitted (command : string) (script : list string).

(** The answers of the outside world during a run.
    - [squeue line] is the finished query of the scheduler for the command
      line [line], and [sbatch line] the return code of the submission
      command line [line];
    - [strftime] is the time stamp the clock prints;
    - [read_text file] is the text of a template file, if it is there;
    - [cbf_readable file] says whether the frame can be opened in the time
      allowed, and [list_events list] is the number of lines the tool
      of that name writes for a list of HDF5 files;
    - [detector_distance] to [high_resolution] are the values of the
      geometry as [str] prints them, computed from the descriptor, the
      configuration and the header of a frame;
    - [space_group] and [unit_cell] are the space group number and the
      cell constants as printed, when a cell file of the raw folder gives
      them, and [cell_file_found] is that file. *)
Record world : Type := {
  squeue : string -> completed;
  sbatch : string -> Z;
  strftime : string;
  read_text : string -> option string;
  cbf_readable : string -> bool;
  list_events : string -> nat;
  detector_distance : string;
  orgx : string;
  orgy : string;
  starting_angle : string;
  oscillation_range : string;
  wavelength : string;
  photon_energy : string;
  high_resolution : string;
  space_group : option string;
  unit_cell : option string;
  cell_file_found : option string
}.

(** A statement of the program: it reads and changes the output
    directory, leaves events, and returns or raises. *)
Definition M (A : Type) : Type := outdir -> result A * outdir * list event.

Definition ret {A : Type} (a : A) : M A := fun s => (Ok a, s, []).

Definition bindM {A B : Type} (c : M A) (f : A -> M B) : M B :=
  fun s =>
    match c s with
    | (Ok a, s', ev) =>
        match f a s' with
        | (r, s'', ev') => (r, s'', (ev ++ ev')%list)
        end
    | (Raise e, s', ev) => (Raise e, s', ev)
    end.

Definition raise {A : Type} (e : exn) : M A := fun s => (Raise e, s, []).

Definition lift {A : Type} (r : result A) : M A := fun s => (r, s, []).

Definition emit (e : event) : M unit := fun s => (Ok tt, s, [e]).

Definition info (msg : string) : M unit := emit (Info msg).

(** [try: c  except <caught>: h] *)
Definition try_except {A : Type} (c : M A) (caught : exn -> bool)
    (h : exn -> M A) : M A :=
  fun s =>
    match c s with
    | (Raise e, s', ev) =>
        if caught e then
          match h e s' with
          | (r, s'', ev') => (r, s'', (ev ++ ev')%list)
          end
        else (Raise e, s', ev)
    | done => done
    end.

Declare Scope shell_scope.
Delimit Scope shell_scope with shell.
Notation "x <- c ;; k" := (bindM c (fun x => k))
  (at level 61, c at next level, right associativity) : shell_scope.
Notation "c ;; k" := (bindM c (fun _ => k))
  (at level 61, right associativity) : shell_scope.
Local Open Scope shell_scope.

Fixpoint for_each {A : Type} (l : list A) (body : A -> M unit) : M unit :=
  match l with
  | [] => ret tt
  | a :: r => body a ;; for_each r body
  end.

Definition has_entry (name : string) (entries : list entry) : bool :=
  existsb (fun e => String.eqb (ename e) name) entries.

Definition without (name : string) (entries : list entry) : list entry :=
  filter (fun e => negb (String.eqb (ename e) name)) entries.

(** [os.path.exists(os.path.join(proc_subpath, name))] *)
Definition exists_ (name : string) : M bool :=
  fun s =>
    (Ok match s with Some entries => has_entry name entries | None => false end,
     s, []).

(** [os.listdir(proc_subpath)] *)
Definition listdir : M (list entry) :=
  fun s =>
    match s with
    | Some entries => (Ok entries, s, [])
    | None => (Raise FileNotFoundError, s, [])
    end.

(** [os.makedirs(proc_subpath, exist_ok=True)] *)
Definition makedirs : M unit :=
  fun s =>
    (Ok tt, match s with Some entries => Some entries | None => Some [] end, []).

(** [os.chdir(proc_subpath)] *)
Definition chdir : M unit :=
  fun s =>
    match s with
    | Some _ => (Ok tt, s, [])
    | None => (Raise FileNotFoundError, s, [])
    end.

(** Create [name] in the output directory unless it is there already:
    [os.makedirs(.., exist_ok=True)], [Path.touch()], [open(.., 'w')]. *)
Definition create (k : kind) (name : string) : M unit :=
  fun s =>
    match s with
    | Some entries =>
        (Ok tt,
         Some (if has_entry name entries then entries
               else (entries ++
                     [{| ename := name; ekind := k; deletable := true |}])%list),
         [])
    | None => (Raise FileNotFoundError, s, [])
    end.

(** [os.unlink(path)] and [shutil.rmtree(path)] on an entry of the output
    directory whose full path is [path]. *)
Definition remove_entry (path : string) (e : entry) : M unit :=
  fun s =>
    match s with
    | Some entries =>
        if has_entry (ename e) entries then
          if deletable e
          then (Ok tt, Some (without (ename e) entries), [Removed path])
          else (Raise PermissionError, s, [])
        else (Raise FileNotFoundError, s, [])
    | None => (Raise FileNotFoundError, s, [])
    end.

Definition unlink := remove_entry.
Definition rmtree := remove_entry.

(** [subprocess.run(command, shell=True, check=True)] for a submission;
    [script] is the job script the command submits. *)
Definition run_check (w : world) (command : string) (script : list string) : M unit :=
  emit (Submitted command script) ;;
  if sbatch w command =? 0 then ret tt else raise CalledProcessError.

Definition NL : string := String LF EmptyString.
Definition DQUOTE : string := String "034"%char EmptyString.

(** A raw-data folder: its path and the regular files in it, in the order
    of the listing, each with its text. Sub-directories play no part in the
    processing of a folder, and none has the name of a descriptor or of a
    frame. *)
Record raw_folder : Type := {
  root : string;
  files : list (string * string)
}.

Fixpoint file_text (name : string) (fs : list (string * string)) : option string :=
  match fs with
  | [] => None
  | (n, t) :: r => if String.eqb n name then Some t else file_text name r
  end.

End Shell.

(** ** utils/templates.py *)

Module Templates.
Import PyStr PyNum PyPath PyTemplate Extract Shell.
Local Open Scope shell_scope.

(** [str(z)] for an int *)
Definition str_of_Z (z : Z) : string := NilZero.string_of_int (Z.to_int z).

(** [str(v)] for what the extractor returns in its integer mode with an
    integer for fallback, which is an int. *)
Definition str_of_int_value (v : pyvalue) : string :=
  match v with
  | VInt z => str_of_Z z
  | VStr s => s
  | VFloat _ => EmptyString
  end.

Definition info_of (folder : raw_folder) : info_file :=
  match file_text "info.txt" (files folder) with
  | Some t => Text t
  | None => Missing
  end.

(** [info_path.exists() and info_path.stat().st_size != 0] *)
Definition info_usable (folder : raw_folder) : bool :=
  match file_text "info.txt" (files folder) with
  | Some t => negb (is_empty t)
  | None => false
  end.

(** [shutil.copy(template, current / 'xds/template.INP')] and the reading of
    the copy: the text of the template. [xds_there] says whether the
    directory copied into exists. *)
Definition copy_template (w : world) (template : string) (xds_there : bool)
    : M string :=
  match read_text w template with
  | Some text => if xds_there then ret text else raise FileNotFoundError
  | None => raise FileNotFoundError
  end.

Definition space_group_line (w : world) : string :=
  match space_group w with
  | Some n => "SPACE_GROUP_NUMBER = " ++ n
  | None => "!SPACE_GROUP_NUMBER"
  end.

Definition unit_cell_line (w : world) : string :=
  match unit_cell w with
  | Some c => "UNIT_CELL_CONSTANTS = " ++ c
  | None => "!UNIT_CELL_CONSTANTS"
  end.

(** [template_data] of [filling_template_rotational] *)
Definition rotational_template_data (w : world) (NFRAMES : pyvalue)
    (NAME_TEMPLATE_OF_DATA_FRAMES : string) : mapping :=
  [ ("DETECTOR_DISTANCE", detector_distance w);
    ("ORGX", orgx w);
    ("ORGY", orgy w);
    ("NFRAMES", str_of_int_value NFRAMES);
    ("NAME_TEMPLATE_OF_DATA_FRAMES", NAME_TEMPLATE_OF_DATA_FRAMES);
    ("STARTING_ANGLE", starting_angle w);
    ("OSCILLATION_RANGE", oscillation_range w);
    ("WAVELENGTH", wavelength w);
    ("SPACE_GROUP_NUMBER", space_group_line w);
    ("UNIT_CELL_CONSTANTS", unit_cell_line w) ].

(** The output directory is the folder the pipeline works in; [xds] is
    its sub-directory, whose files are not listed in the model. *)
Definition filling_template_rotational (w : world) (folder : raw_folder)
    (NAME_TEMPLATE_OF_DATA_FRAMES XDS_INP_template : string) : M unit :=
  xds_there <- exists_ "xds" ;;
  template <- copy_template w XDS_INP_template xds_there ;;
  if negb (info_usable folder) then ret tt
  else
    NFRAMES <- lift (extract_value_from_info (info_of folder) "frames"
                       (Some (VInt 1)) false false) ;;
    _ <- lift (substitute
                 (rotational_template_data w NFRAMES NAME_TEMPLATE_OF_DATA_FRAMES)
                 template) ;;
    ret tt.

(** [s.replace(old, new)] *)
Fixpoint replace_from (skip : nat) (old new s : string) : string :=
  match s with
  | EmptyString => EmptyString
  | String c t =>
      match skip with
      | S k => replace_from k old new t
      | O =>
          if negb (is_empty old) && String.prefix old s
          then new ++ replace_from (String.length old - 1) old new t
          else String c (replace_from 0 old new t)
      end
  end.

Definition replace (old new s : string) : string := replace_from 0 old new s.

(** [template_data] of [filling_template_wedges] *)
Definition wedges_template_data (w : world) (position : Z)
    (first_image_index last_image_index : Z)
    (REFERENCE_DATA_SET NAME_TEMPLATE_OF_DATA_FRAMES : string) : mapping :=
  [ ("DETECTOR_DISTANCE", detector_distance w);
    ("ORGX", orgx w);
    ("ORGY", orgy w);
    ("NAME_TEMPLATE_OF_DATA_FRAMES", NAME_TEMPLATE_OF_DATA_FRAMES);
    ("OSCILLATION_RANGE", oscillation_range w);
    ("WAVELENGTH", wavelength w);
    ("first_image_index", str_of_Z first_image_index);
    ("last_image_index", str_of_Z last_image_index);
    ("REFERENCE_DATA_SET", REFERENCE_DATA_SET);
    ("SPACE_GROUP_NUMBER", space_group_line w);
    ("UNIT_CELL_CONSTANTS", unit_cell_line w);
    ("INCLUDE_RESOLUTION_RANGE", "50.0 " ++ high_resolution w);
    ("ROTATION_AXIS",
     if Z.even position then "1.0 0.0 0.0" else "-1.0 0.0 0.0") ].

(** The folder of one position and its [xds] sub-directory lie below the
    output directory and have just been created by the caller. *)
Definition filling_template_wedges (w : world) (folder : raw_folder)
    (position : string) (first_image_index last_image_index : Z)
    (REFERENCE_DATA_SET NAME_TEMPLATE_OF_DATA_FRAMES XDS_INP_template : string)
    : M unit :=
  template <- copy_template w XDS_INP_template true ;;
  if negb (info_usable folder) then ret tt
  else
    let REFERENCE_DATA_SET :=
      if String.eqb REFERENCE_DATA_SET "!REFERENCE_DATA_SET"
         || String.eqb REFERENCE_DATA_SET "None"
      then match file_text "XDS_ASCII.HKL" (files folder) with
           | Some _ => join (root folder) "XDS_ASCII.HKL"
           | None => "!REFERENCE_DATA_SET"
           end
      else REFERENCE_DATA_SET in
    let cbf_to_open := replace "?????" "00001" NAME_TEMPLATE_OF_DATA_FRAMES in
    if negb (cbf_readable w cbf_to_open) then raise TimeoutError
    else
      pos <- lift (int_of_str position) ;;
      _ <- lift (substitute
                   (wedges_template_data w pos first_image_index last_image_index
                      REFERENCE_DATA_SET NAME_TEMPLATE_OF_DATA_FRAMES)
                   template) ;;
      ret tt.

Definition is_zero (v : pyvalue) : bool :=
  match v with
  | VInt z => z =? 0
  | VFloat (Finite _ m _) => m =? 0
  | VFloat (Infinite _) => false
  | VStr _ => false
  end.

(** [template_data] of [filling_template_serial] *)
Definition serial_template_data (w : world) (data_h5path : string) : mapping :=
  [ ("DETECTOR_DISTANCE", detector_distance w);
    ("ORGX", orgx w);
    ("ORGY", orgy w);
    ("PHOTON_ENERGY", photon_energy w);
    ("data_h5path", data_h5path) ].

(** [None] is the bare [return] taken when the descriptor is missing. *)
Definition filling_template_serial (w : world) (folder : raw_folder)
    (geometry_filename_template data_h5path : string) (cell_file : option string)
    : M (option (pyvalue * option string * pyvalue)) :=
  chdir ;;
  template <- match read_text w geometry_filename_template with
              | Some text => create RegularFile "template.geom" ;; ret text
              | None => raise FileNotFoundError
              end ;;
  if negb (info_usable folder) then ret None
  else
    NFRAMES <- lift (extract_value_from_info (info_of folder) "frames"
                       (Some (VInt 1)) false false) ;;
    WAVELENGTH <- lift (extract_value_from_info (info_of folder) "wavelength"
                          None true false) ;;
    if is_zero WAVELENGTH then raise ZeroDivisionError
    else
      let cell_file :=
        match cell_file with
        | Some c => if is_empty c then cell_file_found w else Some c
        | None => cell_file_found w
        end in
      indexing_method <- lift (extract_value_from_info (info_of folder)
                                 "indexing_method"
                                 (Some (VStr "mosflm-latt-nocell")) true true) ;;
      create RegularFile "geometry.geom" ;;
      _ <- lift (substitute (serial_template_data w data_h5path) template) ;;
      e <- listdir ;;
      match find (fun e => String.eqb (ename e) "template.geom") e with
      | Some t => unlink "template.geom" t
      | None => raise FileNotFoundError
      end ;;
      ret (Some (indexing_method, cell_file, NFRAMES)).

End Templates.

(** ** utils/rotational.py *)

Module Rotational.
Import PyStr PyPath PyTemplate Extract Shell Templates.
Local Open Scope shell_scope.

Definition build_ssh_command (user sshPrivateKeyPath login_node : string) : string :=
  "/usr/bin/ssh -o BatchMode=yes -o CheckHostIP=no -o StrictHostKeyChecking=no "
  ++ "-o GSSAPIAuthentication=no -o GSSAPIDelegateCredentials=no -o PasswordAuthentication=no "
  ++ "-o PubkeyAuthentication=yes -o PreferredAuthentications=publickey -o ConnectTimeout=10 "
  ++ "-l " ++ user ++ " -i " ++ sshPrivateKeyPath ++ " " ++ login_node.

(** [if value: lines.append(f"#SBATCH --{flag}={value}\n")] *)
Definition directive (flag : string) (value : option string) : list string :=
  match value with
  | Some v => if is_empty v then [] else ["#SBATCH --" ++ flag ++ "=" ++ v ++ NL]
  | None => []
  end.

Definition build_sbatch_script (job_name command_for_data_processing
    out_file err_file partition : string)
    (reservation time mem nice : option string) : list string :=
  List.concat
    [ [ "#!/bin/sh" ++ NL;
        "#SBATCH --job-name=" ++ job_name ++ NL;
        "#SBATCH --partition=" ++ partition ++ NL;
        "#SBATCH --nodes=1" ++ NL;
        "#SBATCH --output=" ++ out_file ++ NL;
        "#SBATCH --error=" ++ err_file ++ NL ];
      directive "reservation" reservation;
      directive "time" time;
      directive "mem" mem;
      directive "nice" nice;
      [ "source /etc/profile.d/modules.sh" ++ NL;
        "module load xray autoproc" ++ NL;
        command_for_data_processing ++ NL ] ].

(** [f'{ssh_command} "sbatch {slurmfile}"' if ssh_command else f'sbatch {slurmfile}'] *)
Definition submit_command (ssh_command slurmfile : string) : string :=
  if is_empty ssh_command then "sbatch " ++ slurmfile
  else ssh_command ++ " " ++ DQUOTE ++ "sbatch " ++ slurmfile ++ DQUOTE.

(** Prepare and submit one job from the folder [current_data_processing_folder],
    a sub-directory of the output directory. *)
Definition xds_start (w : world) (current_data_processing_folder
    command_for_data_processing user reserved_nodes slurm_partition
    sshPrivateKeyPath sshPublicKeyPath : string) (login_node : option string)
    : M unit :=
  let folder := current_data_processing_folder in
  let job_name := name folder in
  let slurmfile := join folder (job_name ++ "_XDS.sh") in
  let out_file := join folder (job_name ++ "_XDS.out") in
  let err_file := join folder (job_name ++ "_XDS.err") in
  let is_maxwell := contains "maxwell" reserved_nodes in
  let ssh_command :=
    match login_node with
    | Some n => if is_empty n then EmptyString
                else build_ssh_command user sshPrivateKeyPath n
    | None => EmptyString
    end in
  sbatch_script <-
    (if negb is_maxwell then
       overloaded <- lift (Nodes.are_the_reserved_nodes_overloaded (squeue w)
                             reserved_nodes) ;;
       if negb overloaded
       then ret (build_sbatch_script job_name command_for_data_processing
                   out_file err_file slurm_partition
                   (Some reserved_nodes) None None None)
       else ret (build_sbatch_script job_name command_for_data_processing
                   out_file err_file "allcpu,upex,short" None None None None)
     else ret (build_sbatch_script job_name command_for_data_processing
                 out_file err_file "allcpu,upex,short" None
                 (Some "8:00:00") (Some "500000") (Some "100"))) ;;
  run_check w (submit_command ssh_command slurmfile) sbatch_script.

Fixpoint insert_sorted (x : string) (l : list string) : list string :=
  match l with
  | [] => [x]
  | y :: r => if String.leb x y then x :: l else y :: insert_sorted x r
  end.

(** [sorted(l)] for a list of strings *)
Definition sorted (l : list string) : list string :=
  fold_right insert_sorted [] l.

Fixpoint question_marks (n : nat) : string :=
  match n with
  | O => EmptyString
  | S k => "?" ++ question_marks k
  end.

(** [re.sub(r'\d+\.', lambda m: '?' * (len(m.group()) - 1) + '.', s)] *)
Fixpoint mask_frame_numbers (skip : nat) (s : string) : string :=
  match s with
  | EmptyString => EmptyString
  | String c t =>
      match skip with
      | S k => mask_frame_numbers k t
      | O =>
          let (d, r) := span_digits s in
          if negb (is_empty d) && String.prefix "." r
          then question_marks (String.length d) ++ "."
               ++ mask_frame_numbers (String.length d) t
          else String c (mask_frame_numbers 0 t)
      end
  end.

(** The test on the file names of the raw folder:
    [(.h5 or .cxi) and 'master' in file or .cbf]. *)
Definition is_data_file (file : string) : bool :=
  ((ends_with ".h5" file || ends_with ".cxi" file) && contains "master" file)
  || ends_with ".cbf" file.

Definition name_template (first : string) : string :=
  if contains "master" first then replace "_master." "_??????." first
  else mask_frame_numbers 0 first.

(** [reserved_nodes.split(",")[0] if "," in reserved_nodes else reserved_nodes],
    [None] on the shared cluster *)
Definition login_node_of (reserved_nodes : string) : option string :=
  if contains "maxwell" reserved_nodes then None
  else Some (hd EmptyString (split "," reserved_nodes)).

Definition rotational_processing (w : world) (folder : raw_folder)
    (current_data_processing_folder ORGX ORGY distance_offset
     command_for_data_processing XDS_INP_template user reserved_nodes
     slurm_partition sshPrivateKeyPath sshPublicKeyPath : string) : M unit :=
  let folder_with_raw_data := root folder in
  info "Starting rotational data processing..." ;;
  info ("Processing folder: " ++ folder_with_raw_data) ;;
  info ("Current data processing folder: " ++ current_data_processing_folder) ;;
  info ("Geometry template: " ++ XDS_INP_template) ;;
  makedirs ;;
  create Directory "xds" ;;
  let unique_name := "autoPROC_" ++ strftime w in
  let unique_dir := join current_data_processing_folder unique_name in
  create Directory unique_name ;;
  let res := sorted (map (join folder_with_raw_data)
                       (filter is_data_file (map fst (files folder)))) in
  match res with
  | [] => ret tt
  | first :: _ =>
      let NAME_TEMPLATE_OF_DATA_FRAMES := name_template first in
      info ("Template for data frames: " ++ NAME_TEMPLATE_OF_DATA_FRAMES) ;;
      filling_template_rotational w folder NAME_TEMPLATE_OF_DATA_FRAMES
        XDS_INP_template ;;
      let login_node := login_node_of reserved_nodes in
      info ("Login node for processing: "
            ++ match login_node with Some n => n | None => "None" end) ;;
      info ("Running XDS in " ++ current_data_processing_folder ++ "/xds") ;;
      xds_start w (join current_data_processing_folder "xds") "xds_par"
        user reserved_nodes slurm_partition sshPrivateKeyPath sshPublicKeyPath
        login_node ;;
      info ("Running autoPROC in " ++ unique_dir) ;;
      let command_for_data_processing :=
        "process -d " ++ unique_dir ++ "/autoPROC -I " ++ folder_with_raw_data in
      xds_start w unique_dir command_for_data_processing
        user "maxwell" slurm_partition sshPrivateKeyPath sshPublicKeyPath
        login_node ;;
      create RegularFile "flag.txt"
  end.

End Rotational.

(** ** utils/wedges.py *)

Module Wedges.
Import PyStr PyNum PyPath PyTemplate Extract Shell Templates.
Local Open Scope shell_scope.

Definition SLEEP_TIME : Z := 10.

Definition get_slurm_header (job_name out_file err_file partition : string)
    (reservation : option string) (extras : list string) : list string :=
  List.concat
    [ [ "#!/bin/sh" ++ NL;
        "#SBATCH --job-name=" ++ job_name ++ NL;
        "#SBATCH --partition=" ++ partition ++ NL;
        "#SBATCH --nodes=1" ++ NL;
        "#SBATCH --output=" ++ out_file ++ NL;
        "#SBATCH --error=" ++ err_file ++ NL ];
      Rotational.directive "reservation" reservation;
      extras ].

Definition get_common_xds_commands (current_data_processing_folder
    command_for_data_processing : string) : list string :=
  [ "source /etc/profile.d/modules.sh" ++ NL;
    "module load xray" ++ NL;
    command_for_data_processing ++ NL;
    "sleep " ++ str_of_Z SLEEP_TIME ++ NL;
    "cd " ++ current_data_processing_folder ++ NL;
    "cp GXPARM.XDS XPARM.XDS" ++ NL;
    "cp XDS_ASCII.HKL XDS_ASCII.HKL_1" ++ NL;
    "mv CORRECT.LP CORRECT.LP_1" ++ NL;
    "sed -i 's/ JOB= XYCORR INIT/!JOB= XYCORR INIT/g' XDS.INP" ++ NL;
    "sed -i 's/!JOB= CORRECT/ JOB= DEFPIX INTEGRATE CORRECT/g' XDS.INP" ++ NL;
    command_for_data_processing ++ NL ].

Definition ssh_command_for (user ssh_private_key_path login_node : string) : string :=
  "/usr/bin/ssh -o BatchMode=yes -o CheckHostIP=no "
  ++ "-o StrictHostKeyChecking=no -o GSSAPIAuthentication=no "
  ++ "-o GSSAPIDelegateCredentials=no -o PasswordAuthentication=no "
  ++ "-o PubkeyAuthentication=yes -o PreferredAuthentications=publickey "
  ++ "-o ConnectTimeout=10 -l " ++ user ++ " -i " ++ ssh_private_key_path
  ++ " " ++ login_node.

Definition xds_start (w : world) (current_data_processing_folder
    command_for_data_processing user reserved_nodes slurm_partition
    ssh_private_key_path ssh_public_key_path : string)
    (login_node : option string) : M unit :=
  let job_name := name current_data_processing_folder in
  let slurmfile := join current_data_processing_folder (job_name ++ "_XDS.sh") in
  let err_file := join current_data_processing_folder (job_name ++ "_XDS.err") in
  let out_file := join current_data_processing_folder (job_name ++ "_XDS.out") in
  let common := get_common_xds_commands current_data_processing_folder
                  command_for_data_processing in
  let is_maxwell := contains "maxwell" reserved_nodes in
  if is_maxwell then
    let slurm_extras := [ "#SBATCH --time=12:00:00" ++ NL;
                          "#SBATCH --nice=100" ++ NL;
                          "#SBATCH --mem=500000" ++ NL ] in
    run_check w (Rotational.submit_command EmptyString slurmfile)
      (get_slurm_header job_name out_file err_file "allcpu,upex" None slurm_extras
       ++ common)%list
  else
    reserved_nodes_overloaded <-
      lift (Nodes.are_the_reserved_nodes_overloaded (squeue w) reserved_nodes) ;;
    let partition := if negb reserved_nodes_overloaded then slurm_partition
                     else "allcpu,upex,short" in
    let reservation := if negb reserved_nodes_overloaded then Some reserved_nodes
                       else None in
    let ssh_command :=
      match login_node with
      | Some n => if is_empty n then EmptyString
                  else ssh_command_for user ssh_private_key_path n
      | None => EmptyString
      end in
    run_check w (Rotational.submit_command ssh_command slurmfile)
      (get_slurm_header job_name out_file err_file partition reservation []
       ++ common)%list.

Fixpoint all_digits (s : string) : bool :=
  match s with
  | EmptyString => true
  | String c t => is_digit c && all_digits t
  end.

(** The pattern of [group_cbf_by_position] over a whole file name: any
    prefix, an underscore, six digits of position, an underscore, five
    digits of frame and the extension. *)
Definition match_frame_name (filename : string) : option (string * string * string) :=
  let n := String.length filename in
  if (n <? 17)%nat then None
  else
    let prefix := substring 0 (n - 17) filename in
    let tail := substring (n - 17) 17 filename in
    let position_str := substring 1 6 tail in
    let frame_str := substring 8 5 tail in
    if String.eqb (substring 0 1 tail) "_" && all_digits position_str
       && String.eqb (substring 7 1 tail) "_" && all_digits frame_str
       && String.eqb (substring 13 4 tail) ".cbf"
       && negb (contains NL prefix)
    then Some (prefix, position_str, frame_str)
    else None.

(** One key of [position_frames], with its entry in [templates]. *)
Record position_group : Type := {
  position : Z;
  frames : list Z;
  template : string
}.

Fixpoint add_frame (pos frame : Z) (tmpl : string) (groups : list position_group)
    : list position_group :=
  match groups with
  | [] => [{| position := pos; frames := [frame]; template := tmpl |}]
  | g :: r =>
      if position g =? pos
      then {| position := pos; frames := (frames g ++ [frame])%list;
              template := template g |} :: r
      else g :: add_frame pos frame tmpl r
  end.

Fixpoint collect_frames (folder : string) (filenames : list string)
    (groups : list position_group) : list position_group :=
  match filenames with
  | [] => groups
  | filename :: rest =>
      if negb (ends_with ".cbf" filename) then collect_frames folder rest groups
      else
        match match_frame_name filename with
        | None => collect_frames folder rest groups
        | Some (prefix, position_str, frame_str) =>
            match int_of_str position_str, int_of_str frame_str with
            | Ok pos, Ok frame =>
                collect_frames folder rest
                  (add_frame pos frame
                     (join folder (prefix ++ "_" ++ position_str ++ "_?????.cbf"))
                     groups)
            | _, _ => collect_frames folder rest groups
            end
        end
  end.

Fixpoint zeros (n : nat) : string :=
  match n with
  | O => EmptyString
  | S k => "0" ++ zeros k
  end.

(** [f"{z:0{width}d}"] for a non-negative [z] *)
Definition zero_padded (width : nat) (z : Z) : string :=
  let s := str_of_Z z in
  zeros (width - String.length s) ++ s.

(** An item of the dict returned by [group_cbf_by_position]. *)
Record wedge : Type := {
  pos_str : string;
  start : Z;
  end_ : Z;
  frame_template : string
}.

Definition minimum (l : list Z) : Z :=
  match l with
  | [] => 0
  | x :: r => fold_left Z.min r x
  end.

Definition maximum (l : list Z) : Z :=
  match l with
  | [] => 0
  | x :: r => fold_left Z.max r x
  end.

Definition group_cbf_by_position (folder : raw_folder) : list wedge :=
  map (fun g => {| pos_str := zero_padded 6 (position g);
                   start := minimum (frames g);
                   end_ := maximum (frames g);
                   frame_template := template g |})
      (collect_frames (root folder) (map fst (files folder)) []).

Definition wedges_processing (w : world) (folder : raw_folder)
    (current_data_processing_folder ORGX ORGY distance_offset
     command_for_data_processing XDS_INP_template REFERENCE_DATA_SET
     user reserved_nodes slurm_partition sshPrivateKeyPath sshPublicKeyPath : string)
    : M unit :=
  let folder_with_raw_data := root folder in
  info "Starting wedges data processing..." ;;
  info ("Processing folder: " ++ folder_with_raw_data) ;;
  info ("Current data processing folder: " ++ current_data_processing_folder) ;;
  info ("Geometry template: " ++ XDS_INP_template) ;;
  makedirs ;;
  let REFERENCE_DATA_SET :=
    if String.eqb REFERENCE_DATA_SET "None" then "!REFERENCE_DATA_SET"
    else REFERENCE_DATA_SET in
  info ("Reference data set: " ++ REFERENCE_DATA_SET) ;;
  info "Grouping CBF files by position and frame numbers..." ;;
  let grouped_cbf := group_cbf_by_position folder in
  match grouped_cbf with
  | [] => ret tt
  | _ :: _ =>
      info ("Found " ++ str_of_Z (Z.of_nat (length grouped_cbf))
            ++ " positions with CBF files.") ;;
      for_each grouped_cbf (fun data =>
        let position := pos_str data in
        let processing_folder := join current_data_processing_folder position in
        create Directory position ;;
        info ("Processing position " ++ position ++ " with frames from "
              ++ str_of_Z (start data) ++ " to " ++ str_of_Z (end_ data) ++ ".") ;;
        filling_template_wedges w folder position (start data) (end_ data)
          REFERENCE_DATA_SET (frame_template data) XDS_INP_template ;;
        let login_node := Rotational.login_node_of reserved_nodes in
        info ("Login node for processing: "
              ++ match login_node with Some n => n | None => "None" end) ;;
        info ("Running XDS in " ++ processing_folder ++ "/xds") ;;
        xds_start w (join processing_folder "xds") "xds_par" user reserved_nodes
          slurm_partition sshPrivateKeyPath sshPublicKeyPath login_node)
  end.

End Wedges.

(** ** utils/serial.py *)

Module Serial.
Import PyStr PyNum PyPath PyTemplate Extract Shell Templates.
Local Open Scope shell_scope.

Definition split_lines : Z := 250.
Definition chunk_size : Z := 1000.

(** [glob.glob(f"{raw}/*{ext}")] *)
Definition glob_ext (folder : raw_folder) (ext : string) : list string :=
  map (fun n => root folder ++ "/" ++ n)
      (filter (fun n => ends_with ext n && negb (String.prefix "." n))
              (map fst (files folder))).

(** [[file for file in files
      if int(file.split(".")[0].split("_")[-1]) in range(start, stop)]] *)
Fixpoint select_frames (start stop : Z) (files : list string) : result (list string) :=
  match files with
  | [] => Ok []
  | file :: rest =>
      match int_of_str (split_last "_" (hd EmptyString (split "." file))) with
      | Raise e => Raise e
      | Ok n =>
          match select_frames start stop rest with
          | Raise e => Raise e
          | Ok l => Ok (if (start <=? n) && (n <? stop) then file :: l else l)
          end
      end
  end.

(** The names [split -a 3 -d -l 250 list prefix] gives its output files
    for a list of [lines] lines. *)
Definition chunk_names (prefix : string) (lines : nat) : list string :=
  map (fun i => prefix ++ Wedges.zero_padded 3 (Z.of_nat i))
      (seq 0 (Nat.min 1000 ((lines + 249) / 250))).

(** The job script written for one chunk, as the two writes of the code. *)
Definition chunk_script (w : world) (name split_file stream out_file err_file
    indexing_method pdb reserved_nodes slurm_partition : string)
    (reserved_nodes_overloaded : bool) : list string :=
  let header :=
    "#!/bin/sh" ++ NL
    ++ "#SBATCH --job-name=" ++ name ++ NL
    ++ "#SBATCH --output=" ++ out_file ++ NL
    ++ "#SBATCH --error=" ++ err_file ++ NL in
  let routing :=
    if negb (contains "maxwell" reserved_nodes) then
      if negb reserved_nodes_overloaded
      then "#SBATCH --partition=" ++ slurm_partition ++ NL
           ++ "#SBATCH --reservation=" ++ reserved_nodes ++ NL
      else "#SBATCH --partition=allcpu,upex,short" ++ NL
    else "#SBATCH --partition=allcpu,upex,short" ++ NL
         ++ "#SBATCH --time=4:00:00" ++ NL
         ++ "#SBATCH --nodes=1" ++ NL
         ++ "#SBATCH --nice=100" ++ NL
         ++ "#SBATCH --mem=500000" ++ NL in
  let indexing_command :=
    "indexamajig -i " ++ split_file ++ " -o streams/" ++ stream
    ++ " -j 80 -g geometry.geom --int-radius=3,6,8"
    ++ " --peaks=peakfinder8 --min-snr=8 --min-res=10 --max-res=1200 --threshold=5"
    ++ " --min-pix-count=1 --max-pix-count=10 --min-peaks=15 --local-bg-radius=3"
    ++ " --indexing=" ++ indexing_method ++ " --no-check-cell --multi"
    ++ (if is_empty pdb then EmptyString else " -p " ++ pdb) in
  [ header ++ routing ++ "module load maxwell xray crystfel" ++ NL
    ++ NL ++ indexing_command ++ NL;
    "touch " ++ name ++ ".done" ++ NL ].

Definition str_of_value (v : pyvalue) : string :=
  match v with
  | VStr s => s
  | VInt z => str_of_Z z
  | VFloat _ => EmptyString
  end.

(** The caller passes [data_range = list(range(start, stop))] with
    [start < stop]; the branch of the code for an absent range is not
    reached from it. The output directory is the working directory. *)
Definition serial_data_processing (w : world) (folder : raw_folder)
    (current_data_processing_folder : string) (cell_file : option string)
    (indexing_method : pyvalue)
    (user reserved_nodes slurm_partition sshPrivateKeyPath sshPublicKeyPath : string)
    (start stop : Z) (iteration : nat) : M unit :=
  let job_name := name current_data_processing_folder in
  info ("Starting serial data processing for job: " ++ job_name) ;;
  let pdb := match cell_file with Some c => c | None => EmptyString end in
  chdir ;;
  create Directory "streams" ;;
  create Directory "error" ;;
  create Directory "j_stream" ;;
  let name1 := job_name in
  let list_h5 := "list_h5_" ++ str_of_Z (Z.of_nat iteration) ++ ".lst" in
  let list_cbf := "list_cbf_" ++ str_of_Z (Z.of_nat iteration) ++ ".lst" in
  cbf_selected <- lift (select_frames start stop (glob_ext folder ".cbf")) ;;
  h5_selected <- lift (select_frames start stop (glob_ext folder ".h5")) ;;
  let cbf_files_to_process := Rotational.sorted cbf_selected in
  let h5_files_to_process := Rotational.sorted h5_selected in
  create RegularFile list_cbf ;;
  create RegularFile list_h5 ;;
  let has_h5 := match h5_files_to_process with [] => false | _ => true end in
  let has_cbf := match cbf_files_to_process with [] => false | _ => true end in
  (if has_h5 then info "Found h5 files" else ret tt) ;;
  (if has_cbf then info "Found cbf files" else ret tt) ;;
  if negb has_h5 && negb has_cbf then
    info "No .h5 or .cbf files found in the raw folder. Exiting." ;;
    raise SystemExit
  else
    let lines := if has_cbf then length cbf_files_to_process
                 else list_events w list_h5 in
    let split_prefix := "events-" ++ name1 ++ ".lst" in
    for_each (chunk_names split_prefix lines) (create RegularFile) ;;
    info ("Split input file into chunks with prefix: " ++ split_prefix) ;;
    listing <- listdir ;;
    let split_files :=
      Rotational.sorted
        (filter (String.prefix split_prefix) (map ename listing)) in
    for_each split_files (fun split_file =>
      let suffix := replace split_prefix EmptyString split_file in
      let name := name1 ++ suffix in
      let stream := name1 ++ ".stream" ++ suffix in
      let slurmfile := name ++ ".sh" in
      let err_file := join current_data_processing_folder
                        ("error/" ++ name ++ "_serial.err") in
      let out_file := join current_data_processing_folder
                        ("error/" ++ name ++ "_serial.out") in
      info ("Processing " ++ split_file ++ " -> " ++ stream) ;;
      create RegularFile slurmfile ;;
      reserved_nodes_overloaded <-
        (if negb (contains "maxwell" reserved_nodes)
         then lift (Nodes.are_the_reserved_nodes_overloaded (squeue w) reserved_nodes)
         else ret false) ;;
      let ssh_command :=
        if negb (contains "maxwell" reserved_nodes)
        then Wedges.ssh_command_for user sshPrivateKeyPath
               (hd EmptyString (split "," reserved_nodes))
        else EmptyString in
      run_check w (Rotational.submit_command ssh_command slurmfile)
        (chunk_script w name split_file stream out_file err_file
           (str_of_value indexing_method) pdb reserved_nodes slurm_partition
           reserved_nodes_overloaded)).

(** [str(list(range(start, stop)))] *)
Definition str_of_range (start stop : Z) : string :=
  "[" ++ String.concat ", "
           (map (fun i => str_of_Z (start + Z.of_nat i))
                (seq 0 (Z.to_nat (stop - start))))
  ++ "]".

(** The iterations of [for start_index in range(0, NFRAMES, chunk_size)]
    from iteration number [iteration] on; [todo] counts them. *)
Fixpoint chunk_loop (todo : nat) (iteration : nat) (NFRAMES : Z)
    (body : Z -> Z -> nat -> M unit) : M unit :=
  match todo with
  | O => ret tt
  | S k =>
      let start_index := chunk_size * Z.of_nat iteration in
      let end_index := Z.min (start_index + chunk_size) NFRAMES in
      info ("Processing frames from " ++ str_of_Z start_index ++ " to "
            ++ str_of_Z end_index ++ " (data range: "
            ++ str_of_range start_index end_index ++ ")") ;;
      body start_index end_index iteration ;;
      chunk_loop k (S iteration) NFRAMES body
  end.

Definition serial_processing (w : world) (folder : raw_folder)
    (current_data_processing_folder ORGX ORGY distance_offset
     geometry_filename_template cell_file data_h5path user reserved_nodes
     slurm_partition sshPrivateKeyPath sshPublicKeyPath : string) : M unit :=
  let folder_with_raw_data := root folder in
  info "Starting serial data processing..." ;;
  info ("Processing folder: " ++ folder_with_raw_data) ;;
  info ("Current data processing folder: " ++ current_data_processing_folder) ;;
  info ("Geometry template: " ++ geometry_filename_template) ;;
  let cell_file := if String.eqb cell_file "None" then None else Some cell_file in
  filled <- filling_template_serial w folder geometry_filename_template
              data_h5path cell_file ;;
  match filled with
  | None => raise TypeError
  | Some (indexing_method, cell_file, NFRAMES) =>
      info ("Indexing method: " ++ str_of_value indexing_method
            ++ ", Cell file: "
            ++ match cell_file with Some c => c | None => "None" end
            ++ ", NFRAMES: " ++ str_of_value NFRAMES) ;;
      (if is_empty (str_of_value indexing_method)
       then info "Indexing method could not be determined. Pure hitfinding."
       else ret tt) ;;
      let n := match NFRAMES with VInt z => z | _ => 0 end in
      chunk_loop (Z.to_nat ((n + chunk_size - 1) / chunk_size)) 0 n
        (serial_data_processing w folder current_data_processing_folder
           cell_file indexing_method user reserved_nodes slurm_partition
           sshPrivateKeyPath sshPublicKeyPath) ;;
      create RegularFile "flag.txt"
  end.

End Serial.

(** ** autoprocessing.py: the dispatcher and the scan loop *)

Module Autoprocessing.
Import PyStr PyNum PyPath Shell Templates.
Local Open Scope shell_scope.

Definition MAX_PENDING_JOBS : Z := 200.

(** [configuration['crystallography']]. The values of the geometry are
    carried as the text of the file; what the pipelines compute from them
    reaches only the text of the rendered templates. *)
Record crystallography : Type := {
  raw_directory : string;
  processed_directory : string;
  ORGX : string;
  ORGY : string;
  distance_offset : string;
  cell_file : string;
  geometry_for_processing : string;
  data_h5path : string;
  command_for_processing_rotational : string;
  XDS_INP_template : string;
  XDS_INP_wedges_template : string
}.

(** The configuration after [main] has put the fields of the metadata
    record into it. *)
Record configuration : Type := {
  user : string;
  reserved_nodes : string;
  slurmPartition : string;
  sshPrivateKeyPath : string;
  sshPublicKeyPath : string;
  cryst : crystallography
}.

Definition nodes_for (c : configuration) (is_maxwell : bool) : string :=
  if negb is_maxwell then reserved_nodes c else "maxwell".

Definition serial_start (w : world) (folder_with_raw_data : raw_folder)
    (current_data_processing_folder : string) (c : configuration)
    (is_force is_maxwell : bool) : M unit :=
  info "INFO: Running serial_processing" ;;
  Serial.serial_processing w folder_with_raw_data current_data_processing_folder
    (ORGX (cryst c)) (ORGY (cryst c)) (distance_offset (cryst c))
    (geometry_for_processing (cryst c)) (cell_file (cryst c))
    (data_h5path (cryst c)) (user c) (nodes_for c is_maxwell)
    (slurmPartition c) (sshPrivateKeyPath c) (sshPublicKeyPath c).

Definition xds_start (w : world) (folder_with_raw_data : raw_folder)
    (current_data_processing_folder : string) (c : configuration)
    (is_force is_maxwell : bool) : M unit :=
  info "INFO: Running rotational_processing" ;;
  Rotational.rotational_processing w folder_with_raw_data
    current_data_processing_folder
    (ORGX (cryst c)) (ORGY (cryst c)) (distance_offset (cryst c))
    (command_for_processing_rotational (cryst c)) (XDS_INP_template (cryst c))
    (user c) (nodes_for c is_maxwell)
    (slurmPartition c) (sshPrivateKeyPath c) (sshPublicKeyPath c).

Definition wedges_xds_start (w : world) (folder_with_raw_data : raw_folder)
    (current_data_processing_folder : string) (c : configuration)
    (is_force is_maxwell : bool) (reference_dataset : string) : M unit :=
  info "INFO: Running wedges_processing" ;;
  Wedges.wedges_processing w folder_with_raw_data current_data_processing_folder
    (ORGX (cryst c)) (ORGY (cryst c)) (distance_offset (cryst c))
    (command_for_processing_rotational (cryst c))
    (XDS_INP_wedges_template (cryst c)) reference_dataset
    (user c) (nodes_for c is_maxwell)
    (slurmPartition c) (sshPrivateKeyPath c) (sshPublicKeyPath c).

(** The test on the folder at the head of [run]. *)
Definition usable (folder : raw_folder) : bool :=
  info_usable folder && (1 <? Z.of_nat (length (files folder))).

(** The [for line in f] loop over the lines after the first. *)
Fixpoint frames_per_position_of (lines : list string) : result Z :=
  match lines with
  | [] => Ok 1
  | line :: rest =>
      if contains "frames/position:" (lower line)
      then int_of_str (strip (split_last ":" line))
      else frames_per_position_of rest
  end.

(** The [with open(info_path, 'r') as f] block: the method and the frames
    per position. *)
Definition read_descriptor (folder : raw_folder) : result (string * Z) :=
  match file_text "info.txt" (files folder) with
  | None => Raise FileNotFoundError
  | Some text =>
      match readlines text with
      | [] => Raise StopIteration
      | first :: rest =>
          match frames_per_position_of rest with
          | Ok frames_per_position =>
              Ok (strip (split_last ":" first), frames_per_position)
          | Raise e => Raise e
          end
      end
  end.

(** [os.path.join(proc_dir, root[len(raw_dir):].lstrip(os.sep))] *)
Definition proc_subpath_of (c : configuration) (root : string) : string :=
  join (processed_directory (cryst c))
       (lstrip_char "/" (drop (String.length (raw_directory (cryst c))) root)).

(** The lines of [squeue -u user -t pending]. *)
Definition pending_jobs_of (w : world) (c : configuration) : result (list string) :=
  match check_output (squeue w ("squeue -u " ++ user c ++ " -t pending")) with
  | Ok out => Ok (splitlines out)
  | Raise CalledProcessError => Ok []
  | Raise e => Raise e
  end.

(** One turn of the loop over [os.listdir(proc_subpath)]. *)
Definition delete_entry (proc_subpath : string) (f : entry) : M unit :=
  let f_path := join proc_subpath (ename f) in
  try_except
    (match ekind f with
     | RegularFile | SymLink => unlink f_path f
     | Directory => rmtree f_path f
     end)
    is_Exception
    (fun e => emit (Warning ("Failed to delete " ++ f_path) e)).

(** The block under [if is_force and os.path.exists(flag_file)]. *)
Definition clear_old_results (proc_subpath : string) : M unit :=
  listing <- listdir ;;
  for_each listing (delete_entry proc_subpath) ;;
  info ("Cleared old results in " ++ proc_subpath).

(** The [if method == ... elif ... else] at the end of [run]. *)
Definition start_pipeline (w : world) (folder : raw_folder) (proc_subpath : string)
    (c : configuration) (is_force is_maxwell : bool)
    (method : string) (frames_per_position : Z) : M unit :=
  if String.eqb method "rotational" then
    info ("XDS: " ++ root folder) ;;
    xds_start w folder proc_subpath c is_force is_maxwell
  else if String.eqb method "grid step" && (1 <? frames_per_position) then
    info ("WEDGES: " ++ root folder) ;;
    wedges_xds_start w folder proc_subpath c is_force is_maxwell
      "!reference_dataset"
  else
    info ("SERIAL: " ++ root folder) ;;
    serial_start w folder proc_subpath c is_force is_maxwell.

(** Everything [run] does for a usable folder before it starts a pipeline:
    it returns the output path, the method and the frames per position. *)
Definition prepare (w : world) (folder : raw_folder) (c : configuration)
    (is_force : bool) : M (string * string * Z) :=
  d <- lift (read_descriptor folder) ;;
  let (method, frames_per_position) := d in
  let proc_subpath := proc_subpath_of c (root folder) in
  info ("Processing " ++ proc_subpath ++ " with method: " ++ method) ;;
  makedirs ;;
  pending_jobs <- lift (pending_jobs_of w c) ;;
  flagged <- exists_ "flag.txt" ;;
  (if is_force && flagged then clear_old_results proc_subpath else ret tt) ;;
  flagged <- exists_ "flag.txt" ;;
  correct <- exists_ "CORRECT.LP" ;;
  xycorr <- exists_ "XYCORR.LP" ;;
  (if flagged || (MAX_PENDING_JOBS <? Z.of_nat (length pending_jobs))
      || correct || xycorr
   then info (proc_subpath ++ " is skipped") else ret tt) ;;
  ret (proc_subpath, method, frames_per_position).

(** Main processing entry point for one dataset folder. *)
Definition run (w : world) (folder : raw_folder) (c : configuration)
    (is_force is_maxwell : bool) : M unit :=
  info ("We are here: " ++ root folder) ;;
  if negb (usable folder) then
    info ("In " ++ root folder ++ " there is no usable info.txt file.")
  else
    p <- prepare w folder c is_force ;;
    let '(proc_subpath, method, frames_per_position) := p in
    start_pipeline w folder proc_subpath c is_force is_maxwell
      method frames_per_position.



(** The raw-data tree as [os.walk] goes through it: every folder with its
    mirrored output directory. *)
Definition tree : Type := list (raw_folder * outdir).

(** [run] called [times] times in a row on one folder, each call followed
    by the log line of the scan loop. *)
Fixpoint run_times (w : world) (c : configuration) (is_force is_maxwell : bool)
    (times : nat) (folder : raw_folder) : M unit :=
  match times with
  | O => ret tt
  | S k =>
      run w folder c is_force is_maxwell ;;
      info ("INFO: Processed " ++ root folder) ;;
      run_times w c is_force is_maxwell k folder
  end.

(** One [for root, dirs, files in os.walk(raw_directory)] loop; [times]
    gives how often the body calls [run] on a folder. An exception ends
    the loop where it is raised. *)
Fixpoint walk (w : world) (c : configuration) (is_force is_maxwell : bool)
    (times : raw_folder -> nat) (t : tree) : result unit * tree * list event :=
  match t with
  | [] => (Ok tt, [], [])
  | (folder, out) :: rest =>
      match run_times w c is_force is_maxwell (times folder) folder out with
      | (Ok _, out', ev) =>
          match walk w c is_force is_maxwell times rest with
          | (r, rest', ev') => (r, (folder, out') :: rest', (ev ++ ev')%list)
          end
      | (Raise e, out', ev) => (Raise e, (folder, out') :: rest, ev)
      end
  end.

(** The [while True] loop of the full sweep, cut after [passes] passes:
    [Ok tt] says that the loop is still going. *)
Fixpoint sweeps (w : world) (c : configuration) (is_force is_maxwell : bool)
    (passes : nat) (t : tree) : result unit * tree * list event :=
  match passes with
  | O => (Ok tt, t, [])
  | S k =>
      match walk w c is_force is_maxwell (fun _ => 1%nat) t with
      | (Ok _, t', ev) =>
          match sweeps w c is_force is_maxwell k t' with
          | (r, t'', ev') => (r, t'', (ev ++ ev')%list)
          end
      | (Raise e, t', ev) => (Raise e, t', ev)
      end
  end.

(** The command line. *)
Record arguments : Type := {
  offline : bool;
  path : option string;
  blocks : option (list string);
  maxwell : bool;
  force : bool
}.

(** The lines of the worklist: stripped, the empty ones and the repeated
    ones dropped. *)
Fixpoint worklist (lines seen : list string) : list string :=
  match lines with
  | [] => seen
  | line :: rest =>
      let line := strip line in
      if negb (is_empty line) && negb (existsb (String.eqb line) seen)
      then worklist rest (seen ++ [line])%list
      else worklist rest seen
  end.

(** How many patterns of the worklist occur in the path of the folder
    below the raw directory. *)
Definition matches (c : configuration) (to_process : list string)
    (folder : raw_folder) : nat :=
  length (filter (fun pattern =>
                    contains pattern
                      (drop (String.length (raw_directory (cryst c))) (root folder)))
                 to_process).

(** The single-folder mode: [run] on the folder of the tree whose path is
    [path]; [os.listdir] fails when there is none. *)
Fixpoint run_single (w : world) (c : configuration) (is_force is_maxwell : bool)
    (path : string) (t : tree) : result unit * tree * list event :=
  match t with
  | [] => (Raise FileNotFoundError, [], [Info ("We are here: " ++ path)])
  | (folder, out) :: rest =>
      if String.eqb (root folder) path then
        match run_times w c is_force is_maxwell 1 folder out with
        | (r, out', ev) => (r, (folder, out') :: rest, ev)
        end
      else
        match run_single w c is_force is_maxwell path rest with
        | (r, rest', ev) => (r, (folder, out) :: rest', ev)
        end
  end.

(** [main] from the search of the metadata record on. [startup] is what
    [find_and_parse_metadata] gives, [c] the configuration filled from it,
    [t] the raw-data tree with the output directories. *)
Definition main (w : world) (a : arguments) (startup : result Metadata.metadata)
    (c : configuration) (passes : nat) (t : tree)
    : result unit * tree * list event :=
  match startup with
  | Raise e => (Raise e, t, [])
  | Ok _ =>
      if offline a then
        match blocks a with
        | Some lines =>
            walk w c (force a) (maxwell a) (matches c (worklist lines [])) t
        | None => sweeps w c (force a) (maxwell a) passes t
        end
      else
        match path a with
        | None =>
            (Ok tt, t,
             [Error ("ERROR: YOU HAVE TO GIVE THE ABSOLUTE PATH TO THE RAW FOLDER "
                     ++ "YOU ARE GOING TO PROCESS IF YOU ARE IN THIS MODE!")])
        | Some p => run_single w c (force a) (maxwell a) p t
        end
  end.

End Autoprocessing.

(** * Vocabulary of the properties *)

Section ExtractVocabulary.
Import PyStr PyNum Extract.



End ExtractVocabulary.

Section GuardVocabulary.
Import PyStr.


End GuardVocabulary.

Section MetadataVocabulary.
Import Metadata.

Definition online_analysis : json :=
  JObject [ ("reservedNodes", JArray [JString "max-p3a020"]);
            ("sshPrivateKeyPath", JString "shared/id_rsa");
            ("sshPublicKeyPath", JString "shared/id_rsa.pub");
            ("userAccount", JString "bttest04");
            ("slurmPartition", JString "ponline_p09") ].

(** A metadata record with the two required keys and no core path. *)
Definition record_without_core_path : json :=
  JObject [ ("beamtimeId", JString "11016750");
            ("onlineAnalysis", online_analysis) ].

(** The same record with its core path. *)
Definition record_with_core_path : json :=
  JObject [ ("beamtimeId", JString "11016750");
            ("corePath", JString "/asap3/petra3/gpfs/p09/2022/data/11016750");
            ("onlineAnalysis", online_analysis) ].

(** A candidate the scan passes over: it is gone, it is not JSON, or it
    lacks one of the two keys the code tests. *)
Definition passed_over (c : candidate) : Prop :=
  match c with
  | Vanished | Malformed => True
  | Loaded data => has_required_keys data = Ok false
  end.

End MetadataVocabulary.

Section TemplateVocabulary.
Import PyTemplate.


(** A placeholder of the template for which the mapping has no entry. *)
Definition unresolved (m : mapping) (t : token) : bool :=
  match t with
  | Named n | Braced n =>
      match lookup m n with Some _ => false | None => true end
  | _ => false
  end.


End TemplateVocabulary.

Section DispatchVocabulary.
Import PyStr Shell Autoprocessing.

(** A template of the rotational pipeline and one of the wedge pipeline. *)
Definition xds_inp : string :=
  "JOB= XYCORR INIT COLSPOT IDXREF DEFPIX INTEGRATE CORRECT" ++ NL
  ++ "DETECTOR_DISTANCE= $DETECTOR_DISTANCE" ++ NL
  ++ "ORGX= $ORGX ORGY= $ORGY" ++ NL
  ++ "NAME_TEMPLATE_OF_DATA_FRAMES= $NAME_TEMPLATE_OF_DATA_FRAMES" ++ NL
  ++ "DATA_RANGE= 1 $NFRAMES" ++ NL
  ++ "STARTING_ANGLE= $STARTING_ANGLE" ++ NL
  ++ "OSCILLATION_RANGE= $OSCILLATION_RANGE" ++ NL
  ++ "X-RAY_WAVELENGTH= $WAVELENGTH" ++ NL
  ++ "$SPACE_GROUP_NUMBER" ++ NL
  ++ "$UNIT_CELL_CONSTANTS" ++ NL.

Definition xds_wedges_inp : string :=
  "JOB= XYCORR INIT COLSPOT IDXREF" ++ NL
  ++ "DETECTOR_DISTANCE= $DETECTOR_DISTANCE" ++ NL
  ++ "REFERENCE_DATA_SET= $REFERENCE_DATA_SET" ++ NL
  ++ "DATA_RANGE= $first_image_index $last_image_index" ++ NL
  ++ "ROTATION_AXIS= $ROTATION_AXIS" ++ NL.

(** A beamtime with an idle scheduler that accepts every job. *)
Definition beamtime : world := {|
  squeue := fun _ =>
    {| returncode := 0;
       stdout := "JOBID PARTITION NAME USER ST TIME NODES NODELIST(REASON)" ++ NL |};
  sbatch := fun _ => 0;
  strftime := "20250612-101500";
  read_text := fun file =>
    if String.eqb file "/opt/autoprocessing/templates/XDS.INP" then Some xds_inp
    else if String.eqb file "/opt/autoprocessing/templates/XDS_WEDGES.INP"
         then Some xds_wedges_inp
         else None;
  cbf_readable := fun _ => true;
  list_events := fun _ => 0%nat;
  detector_distance := "200.0";
  orgx := "1231.5";
  orgy := "1263.5";
  starting_angle := "0.0";
  oscillation_range := "0.1";
  wavelength := "0.9879";
  photon_energy := "12551.9";
  high_resolution := "1.45";
  space_group := None;
  unit_cell := None;
  cell_file_found := None
|}.

(** The same beamtime with a scheduler that refuses every job: the
    submission command exits with return code 1. *)
Definition refusing (w : world) : world := {|
  squeue := squeue w;
  sbatch := fun _ => 1;
  strftime := strftime w;
  read_text := read_text w;
  cbf_readable := cbf_readable w;
  list_events := list_events w;
  detector_distance := detector_distance w;
  orgx := orgx w;
  orgy := orgy w;
  starting_angle := starting_angle w;
  oscillation_range := oscillation_range w;
  wavelength := wavelength w;
  photon_energy := photon_energy w;
  high_resolution := high_resolution w;
  space_group := space_group w;
  unit_cell := unit_cell w;
  cell_file_found := cell_file_found w
|}.

Definition p09 : configuration := {|
  user := "bttest04";
  reserved_nodes := "max-p3a020";
  slurmPartition := "ponline_p09";
  sshPrivateKeyPath := "/beamtime/shared/id_rsa";
  sshPublicKeyPath := "shared/id_rsa.pub";
  cryst := {|
    raw_directory := "/beamtime/raw";
    processed_directory := "/beamtime/processed";
    ORGX := "None";
    ORGY := "None";
    distance_offset := "0";
    cell_file := "None";
    geometry_for_processing := "/opt/autoprocessing/templates/pilatus6M.geom";
    data_h5path := "/entry/data/data";
    command_for_processing_rotational := "xds_par";
    XDS_INP_template := "/opt/autoprocessing/templates/XDS.INP";
    XDS_INP_wedges_template := "/opt/autoprocessing/templates/XDS_WEDGES.INP"
  |}
|}.

(** Two rotational datasets of one frame file each. *)
Definition rotational_descriptor : string :=
  "method: rotational" ++ NL ++ "frames: 100" ++ NL ++ "distance: 200" ++ NL.

Definition lyso_1 : raw_folder := {|
  root := "/beamtime/raw/lyso/rotational_001";
  files := [ ("info.txt", rotational_descriptor); ("lyso_1_00001.cbf", EmptyString) ]
|}.

Definition lyso_2 : raw_folder := {|
  root := "/beamtime/raw/lyso/rotational_002";
  files := [ ("info.txt", rotational_descriptor); ("lyso_2_00001.cbf", EmptyString) ]
|}.

(** The raw-data tree of the beamtime as [os.walk] goes through it: the raw
    directory, the directory of the sample and the two datasets, nothing
    processed yet. *)
Definition fresh_tree : tree :=
  [ ({| root := "/beamtime/raw"; files := [] |}, None);
    ({| root := "/beamtime/raw/lyso"; files := [] |}, None);
    (lyso_1, None);
    (lyso_2, None) ].

(** The output directory of a dataset that has been dispatched before. *)
Definition dispatched_before : outdir :=
  Some [ {| ename := "xds"; ekind := Directory; deletable := true |};
         {| ename := "autoPROC_20250611-230000"; ekind := Directory;
            deletable := true |};
         {| ename := "flag.txt"; ekind := RegularFile; deletable := true |} ].

Definition is_submission (e : event) : bool :=
  match e with Submitted _ _ => true | _ => false end.

(** The jobs handed to the scheduler in a trace. *)
Definition submissions (events : list event) : list event :=
  filter is_submission events.

(** The three pipelines. *)
Inductive pipeline : Type := RotationalPipeline | WedgePipeline | SerialPipeline.



(** The listing of the output directory once [run] has made sure that it
    exists. *)
Definition listing_of (out : outdir) : list entry :=
  match out with Some entries => entries | None => [] end.


(** The log line with which the wrapper of a pipeline announces its call. *)
Definition announced (p : pipeline) : event :=
  match p with
  | RotationalPipeline => Info "INFO: Running rotational_processing"
  | WedgePipeline => Info "INFO: Running wedges_processing"
  | SerialPipeline => Info "INFO: Running serial_processing"
  end.





(** The log line written when [run] finds a reason to skip. *)
Definition skip_notice (w : world) (c : configuration) (proc_subpath : string)
    (entries : list entry) : list event :=
  if has_entry "flag.txt" entries
     || (MAX_PENDING_JOBS
         <? Z.of_nat (length match pending_jobs_of w c with
                             | Ok jobs => jobs
                             | Raise _ => []
                             end))
     || has_entry "CORRECT.LP" entries
     || has_entry "XYCORR.LP" entries
  then [Info (proc_subpath ++ " is skipped")]
  else [].

(** A statement of the program on which a refused submission is fatal: if
    the trace holds a submission whose command exits with a return code
    other than 0, the statement raised [CalledProcessError]. *)
Definition stops_on_refusal {A : Type} (w : world) (c : M A) : Prop :=
  forall s command script,
    In (Submitted command script) (snd (c s)) ->
    sbatch w command <> 0 ->
    fst (fst (c s)) = Raise CalledProcessError.

End DispatchVocabulary.


(** * Vocabulary of the further properties *)

Section ExtractVocabularyMore.
Import PyStr PyNum Extract.


(** The text of the fractional part of a match, with its point. *)
Definition fraction_text (fr : option string) : string :=
  match fr with Some f => "." ++ f | None => EmptyString end.


End ExtractVocabularyMore.

Section MetadataVocabularyMore.
Import Metadata.

(** The exceptions that leave the building of the result for a record
    that has the two tested keys. *)
Definition escapes (e : exn) : Prop :=
  e = KeyError "corePath" \/ e = TypeError \/ e = AttributeError.

(** The fields of the result are read from the record [data]: the
    beamtime and the core path from the record itself, the others from its
    [onlineAnalysis], the reserved nodes joined by commas when there are
    any. *)
Definition read_from (data : json) (r : metadata) : Prop :=
  exists online nodes,
    subscript data "onlineAnalysis" = Ok online
    /\ subscript data "beamtimeId" = Ok (beamtimeId r)
    /\ subscript data "corePath" = Ok (corePath r)
    /\ dict_get online "reservedNodes" = Ok nodes
    /\ (if truthy nodes then comma_join nodes else Ok EmptyString)
       = Ok (reservedNodes r)
    /\ dict_get online "sshPrivateKeyPath" = Ok (sshPrivateKeyPath r)
    /\ dict_get online "sshPublicKeyPath" = Ok (sshPublicKeyPath r)
    /\ dict_get online "userAccount" = Ok (userAccount r)
    /\ dict_get online "slurmPartition" = Ok (slurmPartition r).

(** A file that holds the JSON list of the two key names. *)
Definition list_of_key_names : json :=
  JArray [JString "beamtimeId"; JString "onlineAnalysis"].

End MetadataVocabularyMore.

Section FlagVocabulary.
Import PyStr Shell.

(** The completion flag that [run] tests is in the output directory. *)
Definition flagged (out : outdir) : bool :=
  has_entry "flag.txt" (listing_of out).

(** The statement returned normally. *)
Definition returned {A : Type} (r : result A) : bool :=
  match r with Ok _ => true | Raise _ => false end.

(** A statement of the program after which the flag is in the output
    directory exactly when it was there before or the statement returned
    normally and [sets] holds. With [sets] false, the statement neither
    creates nor removes the flag. *)
Definition flags_when {A : Type} (sets : bool) (c : M A) : Prop :=
  forall s,
    flagged (snd (fst (c s)))
    = flagged s || (returned (fst (fst (c s))) && sets).

(** The raw folder holds a file that the rotational pipeline takes for
    data. *)
Definition has_data_file (folder : raw_folder) : bool :=
  existsb Rotational.is_data_file (map fst (files folder)).

End FlagVocabulary.

Section SerialVocabulary.
Import PyStr PyNum Shell.

(** [int(file.split(".")[0].split("_")[-1])]: the frame number the serial
    pipeline reads in the path of a file. *)
Definition frame_number (file : string) : result Z :=
  int_of_str (split_last "_" (hd EmptyString (split "." file))).

(** The frame number of the file can be read and lies in
    [range(start, stop)]. *)
Definition in_data_range (start stop : Z) (file : string) : bool :=
  match frame_number file with
  | Ok n => (start <=? n) && (n <? stop)
  | Raise _ => false
  end.

(** The frame number of the file cannot be read. *)
Definition without_frame_number (file : string) : bool :=
  match frame_number file with Ok _ => false | Raise _ => true end.




End SerialVocabulary.

Section ChunkVocabulary.
Import Shell.
Local Open Scope shell_scope.

(** A chunk of frames: the first frame, the frame after the last, and the
    number of the iteration that processes it. *)
Record chunk : Type := {
  first_frame : Z;
  frame_after : Z;
  number : nat
}.

(** The chunks of [for start_index in range(0, NFRAMES, chunk_size)],
    each up to [min(start_index + chunk_size, NFRAMES)]. *)
Definition chunks (NFRAMES : Z) : list chunk :=
  map (fun i =>
         {| first_frame := Serial.chunk_size * Z.of_nat i;
            frame_after :=
              Z.min (Serial.chunk_size * Z.of_nat i + Serial.chunk_size) NFRAMES;
            number := i |})
      (seq 0 (Z.to_nat ((NFRAMES + Serial.chunk_size - 1) / Serial.chunk_size))).

(** The log line and the call of one iteration. *)
Definition process_chunk (body : Z -> Z -> nat -> M unit) (c : chunk) : M unit :=
  info ("Processing frames from " ++ Templates.str_of_Z (first_frame c) ++ " to "
        ++ Templates.str_of_Z (frame_after c) ++ " (data range: "
        ++ Serial.str_of_range (first_frame c) (frame_after c) ++ ")") ;;
  body (first_frame c) (frame_after c) (number c).

End ChunkVocabulary.

Section DispatchVocabularyMore.
Import PyStr Shell Autoprocessing.

(** The world [w] with another answer of the scheduler to the query of the
    pending jobs of the user. *)
Definition with_pending_jobs (w : world) (c : configuration) (answer : completed)
    : world := {|
  squeue := fun line =>
    if String.eqb line ("squeue -u " ++ user c ++ " -t pending") then answer
    else squeue w line;
  sbatch := sbatch w;
  strftime := strftime w;
  read_text := read_text w;
  cbf_readable := cbf_readable w;
  list_events := list_events w;
  detector_distance := detector_distance w;
  orgx := orgx w;
  orgy := orgy w;
  starting_angle := starting_angle w;
  oscillation_range := oscillation_range w;
  wavelength := wavelength w;
  photon_energy := photon_energy w;
  high_resolution := high_resolution w;
  space_group := space_group w;
  unit_cell := unit_cell w;
  cell_file_found := cell_file_found w
|}.

(** The answer of a scheduler that holds [n] pending jobs of the user: the
    header and one line for each job. *)
Fixpoint job_lines (n : nat) : string :=
  match n with
  | O => EmptyString
  | S k => "4242 ponline xds bttest04 PD 0:00 1 (Priority)" ++ NL ++ job_lines k
  end.

Definition pending (n : nat) : completed :=
  {| returncode := 0;
     stdout := "JOBID PARTITION NAME USER ST TIME NODES NODELIST(REASON)" ++ NL
               ++ job_lines n |}.

End DispatchVocabularyMore.

Section JobsVocabulary.
Import PyStr Shell.

(** A statement of the program that submits [n] jobs when it returns
    normally, and no more than [n] when it raises. *)
Definition submits {A : Type} (n : nat) (c : M A) : Prop :=
  forall s,
    (length (submissions (snd (c s))) <= n)%nat
    /\ (returned (fst (fst (c s))) = true ->
        length (submissions (snd (c s))) = n).

End JobsVocabulary.

Section TemplateVocabularyMore.
Import PyTemplate.

(** A token that the strict substitution cannot convert: a placeholder
    without an entry in the mapping, or a delimiter that starts neither a
    placeholder nor an escape. *)
Definition refused (m : mapping) (t : token) : bool :=
  match t with
  | Invalid => true
  | _ => unresolved m t
  end.

End TemplateVocabularyMore.

Section WedgeVocabulary.
Import PyStr PyNum PyPath.





End WedgeVocabulary.

Section SubmissionVocabulary.
Import PyStr Shell.

(** A statement of the program all of whose submissions satisfy [P], a
    property of the command line and of the job script. *)
Definition every_submission {A : Type} (P : string -> list string -> Prop)
    (c : M A) : Prop :=
  forall s command script,
    In (Submitted command script) (snd (c s)) -> P command script.

(** The command line hands the script to [sbatch] on the machine where the
    program runs, not through [ssh]. *)
Definition local_submission (command : string) (script : list string) : Prop :=
  String.prefix "sbatch " command = true.

End SubmissionVocabulary.
(** * Properties *)

(** ** The Info Extractor *)

Section ExtractProperties.
Import PyStr PyNum Extract.










(** The leftmost match: [re_search] returns the match anchored at the
    first position of the line where the pattern matches. *)
Lemma re_search_leftmost line m :
  re_search line = Some m ->
  exists before rest,
    line = before ++ rest /\ match_here rest = Some m
    /\ forall i, (i < String.length before)%nat ->
                 match_here (PyPath.drop i line) = None.
Proof.
  induction line as [| c t IH]; simpl.
  - discriminate.
  - destruct (match_here (String c t)) eqn:E.
    + intros H. exists EmptyString, (String c t). repeat split; auto.
      * rewrite E. assumption.
      * simpl. intros i Hi. inversion Hi.
    + intros H. destruct (IH H) as (before & rest & Hl & Hm & Hn).
      exists (String c before), rest. repeat split.
      * simpl. rewrite Hl. reflexivity.
      * assumption.
      * intros [| i] Hi; simpl in *; [assumption |].
        apply Hn. apply Nat.succ_lt_mono. assumption.
Qed.



End ExtractProperties.

(** ** The Capacity Guard *)

Section GuardProperties.
Import PyStr Nodes.




End GuardProperties.

(** ** The Metadata Resolver *)

Section MetadataProperties.
Import Metadata.

(** A candidate that cannot be loaded or lacks a tested key is skipped. *)
Lemma scan_candidates_skips json_file c rest :
  passed_over c ->
  scan_candidates ((json_file, c) :: rest) = scan_candidates rest.
Proof.
  destruct c as [| | data]; simpl; try reflexivity.
  intros H. unfold try_file. simpl. rewrite H. reflexivity.
Qed.

(** The error raised after the loop is raised only when every candidate
    was passed over. *)
Lemma scan_candidates_all_passed_over json_files :
  Forall (fun jc => passed_over (snd jc)) json_files ->
  scan_candidates json_files = Raise FileNotFoundError.
Proof.
  induction 1 as [| [json_file c] rest Hc _ IH]; [reflexivity |].
  rewrite scan_candidates_skips; assumption.
Qed.

(** C8, on the code. A record that has the two tested keys, [beamtimeId]
    and [onlineAnalysis], and no [corePath] is neither returned nor skipped:
    the lookup of [corePath] raises [KeyError], which the loop does not
    catch, although a later candidate is complete. Alone, the complete
    record is returned. *)
Theorem find_and_parse_metadata_core_path :
  Metadata.has_required_keys record_without_core_path = Ok true
  /\ find_and_parse_metadata true
       [ ("beamtime-metadata-11016750.json", Loaded record_without_core_path);
         ("beamtime-metadata-copy.json", Loaded record_with_core_path) ]
     = Raise (KeyError "corePath")
  /\ find_and_parse_metadata true
       [ ("beamtime-metadata-copy.json", Loaded record_with_core_path) ]
     = Ok {| beamtimeId := JString "11016750";
             corePath := JString "/asap3/petra3/gpfs/p09/2022/data/11016750";
             reservedNodes := "max-p3a020";
             sshPrivateKeyPath := JString "shared/id_rsa";
             sshPublicKeyPath := JString "shared/id_rsa.pub";
             userAccount := JString "bttest04";
             file := "beamtime-metadata-copy.json";
             slurmPartition := JString "ponline_p09" |}.
Proof. repeat split. Qed.

End MetadataProperties.

(** ** The Template Filler *)

Section TemplateProperties.
Import PyStr PyPath PyTemplate.

Lemma drop_length_append (x t : string) :
  drop (String.length x) (x ++ t) = t.
Proof. induction x as [| c x IH]; simpl; [destruct t |]; auto. Qed.

Lemma length_append (x y : string) :
  String.length (x ++ y) = (String.length x + String.length y)%nat.
Proof. induction x as [| c x IH]; simpl; [| rewrite IH]; reflexivity. Qed.








Lemma append_associative (x y z : string) : (x ++ y) ++ z = x ++ (y ++ z).
Proof. induction x as [| c x IH]; simpl; [| rewrite IH]; reflexivity. Qed.







Lemma prefix_empty t : String.prefix EmptyString t = true.
Proof. destruct t; reflexivity. Qed.







End TemplateProperties.

(** ** The Dispatcher *)

Section DispatcherProperties.
Import PyStr PyPath Shell Templates Autoprocessing.
Local Open Scope shell_scope.

Lemma bindM_ok {A B : Type} (c : M A) (f : A -> M B) s a s' ev :
  c s = (Ok a, s', ev) ->
  bindM c f s = (let '(r, s'', ev') := f a s' in (r, s'', (ev ++ ev')%list)).
Proof. unfold bindM. intros ->. destruct (f a s') as [[r s''] ev']. reflexivity. Qed.

Lemma bindM_raise {A B : Type} (c : M A) (f : A -> M B) s e s' ev :
  c s = (Raise e, s', ev) -> bindM c f s = (Raise e, s', ev).
Proof. unfold bindM. intros ->. reflexivity. Qed.

(** C4. A folder without a non-empty descriptor, or with at most one file,
    is left alone: [run] returns, the output directory is as it was (no
    flag is created), nothing is submitted, and the trace holds the two log
    lines of the refusal and no line of a pipeline. *)
Theorem run_on_unusable_folder :
  forall (w : world) (folder : raw_folder) (c : configuration)
         (is_force is_maxwell : bool) (out : outdir),
    info_usable folder = false \/ (length (files folder) <= 1)%nat ->
    run w folder c is_force is_maxwell out
    = (Ok tt, out,
       [ Info ("We are here: " ++ root folder);
         Info ("In " ++ root folder ++ " there is no usable info.txt file.") ])
    /\ submissions (snd (run w folder c is_force is_maxwell out)) = []
    /\ forall p, ~ In (announced p) (snd (run w folder c is_force is_maxwell out)).
Proof.
  intros w folder c is_force is_maxwell out H.
  assert (U : usable folder = false).
  { unfold usable. destruct H as [-> | H]; [reflexivity |].
    apply andb_false_iff. right. apply Z.ltb_ge. lia. }
  assert (E : run w folder c is_force is_maxwell out
              = (Ok tt, out,
                 [ Info ("We are here: " ++ root folder);
                   Info ("In " ++ root folder
                         ++ " there is no usable info.txt file.") ])).
  { unfold run. rewrite U. reflexivity. }
  split; [exact E |]. rewrite E. split; [reflexivity |].
  intros p [H0 | [H0 | []]]; destruct p; discriminate H0.
Qed.

(** A folder that holds nothing but an empty descriptor. *)
Lemma run_on_unusable_folder_witness :
  run beamtime {| root := "/beamtime/raw/empty"; files := [("info.txt", EmptyString)] |}
    p09 true false dispatched_before
  = (Ok tt, dispatched_before,
     [ Info "We are here: /beamtime/raw/empty";
       Info "In /beamtime/raw/empty there is no usable info.txt file." ]).
Proof.
  apply (proj1 (run_on_unusable_folder beamtime
                  {| root := "/beamtime/raw/empty";
                     files := [("info.txt", EmptyString)] |}
                  p09 true false dispatched_before
                  (or_introl eq_refl))).
Defined.

(** *** Before a pipeline starts *)

Lemma pending_jobs_of_ok w c :
  pending_jobs_of w c
  = Ok match pending_jobs_of w c with Ok jobs => jobs | Raise _ => [] end.
Proof.
  unfold pending_jobs_of, check_output.
  destruct (returncode _ =? 0); reflexivity.
Qed.

(** [prepare] on a readable descriptor, given what the forced cleanup does
    when it is due. *)
Lemma prepare_run w folder c is_force out m fpp cleaned trace :
  read_descriptor folder = Ok (m, fpp) ->
  (if is_force && has_entry "flag.txt" (listing_of out)
   then clear_old_results (proc_subpath_of c (root folder)) (Some (listing_of out))
   else (Ok tt, Some (listing_of out), []))
  = (Ok tt, Some cleaned, trace) ->
  prepare w folder c is_force out
  = (Ok (proc_subpath_of c (root folder), m, fpp), Some cleaned,
     (Info ("Processing " ++ proc_subpath_of c (root folder)
            ++ " with method: " ++ m)
      :: trace ++ skip_notice w c (proc_subpath_of c (root folder)) cleaned)%list).
Proof.
  intros Hread Hclear. unfold prepare.
  erewrite bindM_ok by (unfold lift; rewrite Hread; reflexivity).
  cbv beta iota.
  erewrite bindM_ok by reflexivity.
  erewrite bindM_ok by reflexivity.
  erewrite bindM_ok by (unfold lift; rewrite pending_jobs_of_ok; reflexivity).
  erewrite bindM_ok by reflexivity.
  replace (match out with Some entries => Some entries | None => Some [] end)
    with (Some (listing_of out)) by (destruct out; reflexivity).
  erewrite bindM_ok;
    [| destruct (is_force && has_entry "flag.txt" (listing_of out)); exact Hclear].
  erewrite bindM_ok by reflexivity.
  erewrite bindM_ok by reflexivity.
  erewrite bindM_ok by reflexivity.
  unfold skip_notice.
  destruct (has_entry "flag.txt" cleaned || _ || _ || _); reflexivity.
Qed.

Lemma delete_entry_total proc f s :
  exists s' ev,
    delete_entry proc f s = (Ok tt, s', ev) /\ submissions ev = []
    /\ (s <> None -> s' <> None).
Proof.
  unfold delete_entry, try_except, unlink, rmtree, remove_entry.
  destruct s as [entries |]; destruct (ekind f);
    try destruct (has_entry (ename f) entries); try destruct (deletable f);
    simpl; eexists; eexists; (split; [reflexivity | split; [reflexivity |]]);
    auto; discriminate.
Qed.

Lemma for_each_delete_entry_total proc todo :
  forall s, s <> None ->
  exists s' ev,
    for_each todo (delete_entry proc) s = (Ok tt, s', ev)
    /\ submissions ev = [] /\ s' <> None.
Proof.
  induction todo as [| f todo IH]; intros s Hs; simpl.
  - exists s, []. repeat split; assumption.
  - destruct (delete_entry_total proc f s) as (s1 & ev1 & E1 & Q1 & N1).
    destruct (IH s1 (N1 Hs)) as (s2 & ev2 & E2 & Q2 & N2).
    exists s2, (ev1 ++ ev2)%list. erewrite bindM_ok by exact E1. rewrite E2.
    repeat split; [| assumption].
    unfold submissions in *. rewrite filter_app, Q1, Q2. reflexivity.
Qed.

Lemma clear_old_results_total proc entries :
  exists cleaned trace,
    clear_old_results proc (Some entries) = (Ok tt, Some cleaned, trace)
    /\ submissions trace = [].
Proof.
  destruct (for_each_delete_entry_total proc entries (Some entries))
    as (s' & ev & E & Q & N); [discriminate |].
  destruct s' as [cleaned |]; [| contradiction].
  exists cleaned, (ev ++ [Info ("Cleared old results in " ++ proc)])%list.
  unfold clear_old_results.
  erewrite bindM_ok by reflexivity. erewrite bindM_ok by exact E.
  split; [reflexivity |].
  unfold submissions in *. rewrite filter_app, Q. reflexivity.
Qed.

Lemma submissions_skip_notice w c proc entries :
  submissions (skip_notice w c proc entries) = [].
Proof. unfold skip_notice. destruct (_ || _ || _ || _); reflexivity. Qed.



(** [run] on a usable folder, after [prepare] has returned. *)
Lemma run_after_prepare w folder c is_force is_maxwell out proc m fpp out1 before :
  usable folder = true ->
  prepare w folder c is_force out = (Ok (proc, m, fpp), out1, before) ->
  run w folder c is_force is_maxwell out
  = (let '(r, out2, ev) :=
       start_pipeline w folder proc c is_force is_maxwell m fpp out1 in
     (r, out2, (Info ("We are here: " ++ root folder) :: before ++ ev)%list)).
Proof.
  intros U E. unfold run.
  erewrite bindM_ok by reflexivity. cbv beta. rewrite U.
  change (negb true) with false. cbv iota.
  erewrite bindM_ok by exact E. cbv beta iota.
  destruct (start_pipeline w folder proc c is_force is_maxwell m fpp out1)
    as [[r out2] ev].
  reflexivity.
Qed.




Lemma int_of_str_raises s e : PyNum.int_of_str s = Raise e -> e = ValueError.
Proof.
  unfold PyNum.int_of_str. destruct (strip s) as [| c t].
  - intros H; inversion H; reflexivity.
  - destruct (Ascii.eqb c "-"); [| destruct (Ascii.eqb c "+")];
      match goal with
      | |- context [PyNum.int_digits ?a ?b ?x] => destruct (PyNum.int_digits a b x)
      end; intros H; inversion H; reflexivity.
Qed.






(** *** The forced cleanup *)

Lemma has_entry_app name (a b : list entry) :
  has_entry name (a ++ b)%list = has_entry name a || has_entry name b.
Proof. unfold has_entry. apply existsb_app. Qed.









(** C1, on the code. The dataset [lyso_1] has been dispatched before: its
    output directory holds the completion flag, and the force mode is off.
    [run] logs that the folder is skipped and goes on: it enters the
    rotational pipeline, submits two jobs and adds a directory to the output
    directory. *)
Theorem run_on_dispatched_folder :
  has_entry "flag.txt" (listing_of dispatched_before) = true
  /\ fst (fst (run beamtime lyso_1 p09 false false dispatched_before)) = Ok tt
  /\ In (Info "/beamtime/processed/lyso/rotational_001 is skipped")
        (snd (run beamtime lyso_1 p09 false false dispatched_before))
  /\ length (submissions
               (snd (run beamtime lyso_1 p09 false false dispatched_before)))
     = 2%nat
  /\ snd (fst (run beamtime lyso_1 p09 false false dispatched_before))
     = Some (listing_of dispatched_before
             ++ [ {| ename := "autoPROC_20250612-101500"; ekind := Directory;
                     deletable := true |} ])%list.
Proof.
  split; [reflexivity |]. split; [vm_compute; reflexivity |].
  split; [vm_compute; auto 20 |]. split; vm_compute; reflexivity.
Qed.

(** *** A refused submission *)

Lemma stops_bind {A B : Type} w (c : M A) (f : A -> M B) :
  stops_on_refusal w c -> (forall a, stops_on_refusal w (f a)) ->
  stops_on_refusal w (bindM c f).
Proof.
  intros Hc Hf s command script. specialize (Hc s command script).
  unfold bindM. destruct (c s) as [[[a | e] s'] ev] eqn:E; simpl in *.
  - specialize (Hf a s' command script).
    destruct (f a s') as [[r s''] ev']; simpl in *.
    intros Hin Hcode. apply in_app_or in Hin. destruct Hin as [Hin | Hin].
    + specialize (Hc Hin Hcode). discriminate.
    + exact (Hf Hin Hcode).
  - intros Hin Hcode. specialize (Hc Hin Hcode). inversion Hc. reflexivity.
Qed.

Lemma stops_silent {A : Type} w (c : M A) :
  (forall s, submissions (snd (c s)) = []) -> stops_on_refusal w c.
Proof.
  intros H s command script Hin _. exfalso.
  assert (I : In (Submitted command script) (submissions (snd (c s)))).
  { apply filter_In. split; [assumption | reflexivity]. }
  rewrite H in I. exact I.
Qed.

Lemma stops_ret {A : Type} w (a : A) : stops_on_refusal w (ret a).
Proof. apply stops_silent. reflexivity. Qed.

Lemma stops_raise {A : Type} w e : stops_on_refusal w (@raise A e).
Proof. apply stops_silent. reflexivity. Qed.

Lemma stops_lift {A : Type} w (r : result A) : stops_on_refusal w (lift r).
Proof. apply stops_silent. reflexivity. Qed.

Lemma stops_info w msg : stops_on_refusal w (info msg).
Proof. apply stops_silent. reflexivity. Qed.

Lemma stops_exists w name : stops_on_refusal w (exists_ name).
Proof. apply stops_silent. reflexivity. Qed.

Lemma stops_listdir w : stops_on_refusal w listdir.
Proof. apply stops_silent. intros [entries |]; reflexivity. Qed.

Lemma stops_makedirs w : stops_on_refusal w makedirs.
Proof. apply stops_silent. reflexivity. Qed.

Lemma stops_chdir w : stops_on_refusal w chdir.
Proof. apply stops_silent. intros [entries |]; reflexivity. Qed.

Lemma stops_create w k name : stops_on_refusal w (create k name).
Proof. apply stops_silent. intros [entries |]; reflexivity. Qed.

Lemma stops_remove_entry w path e : stops_on_refusal w (remove_entry path e).
Proof.
  apply stops_silent. intros [entries |]; unfold remove_entry; [| reflexivity].
  destruct (has_entry (ename e) entries); [| reflexivity].
  destruct (deletable e); reflexivity.
Qed.

Lemma stops_delete_entry w proc f : stops_on_refusal w (delete_entry proc f).
Proof.
  apply stops_silent. intros s.
  destruct (delete_entry_total proc f s) as (s' & ev & E & Q & _).
  rewrite E. exact Q.
Qed.

Lemma stops_run_check w command script :
  stops_on_refusal w (run_check w command script).
Proof.
  intros s command' script'. unfold run_check, bindM, emit.
  destruct (sbatch w command =? 0) eqn:E; simpl.
  - intros [H | []]. inversion H; subst. intros Hcode.
    apply Z.eqb_eq in E. contradiction.
  - reflexivity.
Qed.

Lemma stops_for_each {A : Type} w (l : list A) (body : A -> M unit) :
  (forall a, stops_on_refusal w (body a)) -> stops_on_refusal w (for_each l body).
Proof.
  intros H. induction l as [| a l IH]; simpl; [apply stops_ret |].
  apply stops_bind; [apply H | intros _; exact IH].
Qed.

Create HintDb refusal.
#[local] Hint Resolve stops_ret stops_raise stops_lift stops_info stops_exists
  stops_listdir stops_makedirs stops_chdir stops_create stops_remove_entry
  stops_delete_entry stops_run_check : refusal.

(** The steps of the proofs that a statement stops on a refusal. *)
Ltac stops_step :=
  first
    [ solve [auto 1 with refusal nocore]
    | apply stops_for_each; intros ?
    | apply stops_bind; [| intros ?]
    | match goal with
      | |- stops_on_refusal _ (if ?b then _ else _) => destruct b
      | |- stops_on_refusal _ (match ?x with _ => _ end) => destruct x
      end ].

Ltac stops := cbv zeta; repeat (stops_step; cbv zeta).

Lemma stops_rotational_xds_start w a b c d e f g h :
  stops_on_refusal w (Rotational.xds_start w a b c d e f g h).
Proof. unfold Rotational.xds_start. stops. Qed.

Lemma stops_copy_template w template there :
  stops_on_refusal w (copy_template w template there).
Proof. unfold copy_template. stops. Qed.

#[local] Hint Resolve stops_rotational_xds_start stops_copy_template : refusal.

Lemma stops_filling_template_rotational w folder a b :
  stops_on_refusal w (filling_template_rotational w folder a b).
Proof. unfold filling_template_rotational. stops. Qed.

#[local] Hint Resolve stops_filling_template_rotational : refusal.

Lemma stops_rotational_processing w folder a b c d e f g h i j k :
  stops_on_refusal w
    (Rotational.rotational_processing w folder a b c d e f g h i j k).
Proof. unfold Rotational.rotational_processing. stops. Qed.

Lemma stops_wedges_xds_start w a b c d e f g h :
  stops_on_refusal w (Wedges.xds_start w a b c d e f g h).
Proof. unfold Wedges.xds_start. stops. Qed.

Lemma stops_filling_template_wedges w folder a b c d e f :
  stops_on_refusal w (filling_template_wedges w folder a b c d e f).
Proof. unfold filling_template_wedges. stops. Qed.

#[local] Hint Resolve stops_rotational_processing stops_wedges_xds_start
  stops_filling_template_wedges : refusal.

Lemma stops_wedges_processing w folder a b c d e f g h i j k l :
  stops_on_refusal w (Wedges.wedges_processing w folder a b c d e f g h i j k l).
Proof. unfold Wedges.wedges_processing. stops. Qed.

Lemma stops_filling_template_serial w folder a b c :
  stops_on_refusal w (filling_template_serial w folder a b c).
Proof. unfold filling_template_serial, unlink. stops. Qed.

Lemma stops_serial_data_processing w folder a b c d e f g h i j k :
  stops_on_refusal w
    (Serial.serial_data_processing w folder a b c d e f g h i j k).
Proof. unfold Serial.serial_data_processing. stops. Qed.

#[local] Hint Resolve stops_wedges_processing stops_filling_template_serial
  stops_serial_data_processing : refusal.

Lemma stops_chunk_loop w todo :
  forall iteration NFRAMES body,
    (forall a b i, stops_on_refusal w (body a b i)) ->
    stops_on_refusal w (Serial.chunk_loop todo iteration NFRAMES body).
Proof.
  induction todo as [| todo IH]; intros iteration NFRAMES body H; simpl.
  - apply stops_ret.
  - stops; first [apply H | apply IH, H].
Qed.

Lemma stops_serial_processing w folder a b c d e f g h i j k l :
  stops_on_refusal w (Serial.serial_processing w folder a b c d e f g h i j k l).
Proof.
  unfold Serial.serial_processing. stops.
  apply stops_chunk_loop. intros. apply stops_serial_data_processing.
Qed.

#[local] Hint Resolve stops_serial_processing : refusal.

Lemma stops_clear_old_results w proc :
  stops_on_refusal w (clear_old_results proc).
Proof. unfold clear_old_results. stops. Qed.

#[local] Hint Resolve stops_clear_old_results : refusal.

Lemma stops_prepare w folder c is_force :
  stops_on_refusal w (prepare w folder c is_force).
Proof. unfold prepare. stops. Qed.

Lemma stops_start_pipeline w folder proc c is_force is_maxwell method fpp :
  stops_on_refusal w
    (start_pipeline w folder proc c is_force is_maxwell method fpp).
Proof.
  unfold start_pipeline, xds_start, wedges_xds_start, serial_start. stops.
Qed.

#[local] Hint Resolve stops_prepare stops_start_pipeline : refusal.

(** A refused submission is fatal for the run of the folder. *)
Lemma stops_run w folder c is_force is_maxwell :
  stops_on_refusal w (run w folder c is_force is_maxwell).
Proof. unfold run. stops. Qed.

(** *** The scan loop *)

Lemma run_times_raises w c is_force is_maxwell folder out e out' ev k :
  run w folder c is_force is_maxwell out = (Raise e, out', ev) ->
  run_times w c is_force is_maxwell (S k) folder out = (Raise e, out', ev).
Proof. intros H. simpl. erewrite bindM_raise by exact H. reflexivity. Qed.

(** A pass ends at the folder whose run raises: the folders after it are
    not visited. *)
Lemma walk_raises w c is_force is_maxwell times folder out e out' ev t2 :
  run_times w c is_force is_maxwell (times folder) folder out = (Raise e, out', ev) ->
  forall t1 t1' ev1,
    walk w c is_force is_maxwell times t1 = (Ok tt, t1', ev1) ->
    walk w c is_force is_maxwell times (t1 ++ (folder, out) :: t2)%list
    = (Raise e, (t1' ++ (folder, out') :: t2)%list, (ev1 ++ ev)%list).
Proof.
  intros Hrun. induction t1 as [| [f0 o0] t1 IH]; intros t1' ev1; simpl.
  - intros H. inversion H; subst. rewrite Hrun. reflexivity.
  - destruct (run_times w c is_force is_maxwell (times f0) f0 o0)
      as [[[[] | e0] o0'] ev0]; [| discriminate].
    destruct (walk w c is_force is_maxwell times t1) as [[r rest'] ev'] eqn:W.
    intros H. inversion H; subst.
    rewrite (IH _ _ eq_refl). rewrite <- app_assoc. reflexivity.
Qed.

(** The loop of the full sweep ends with the pass that raises, however
    many passes were still to come. *)
Lemma sweeps_raises w c is_force is_maxwell e t'' ev1 k :
  forall n t t' ev0,
    sweeps w c is_force is_maxwell n t = (Ok tt, t', ev0) ->
    walk w c is_force is_maxwell (fun _ => 1%nat) t' = (Raise e, t'', ev1) ->
    sweeps w c is_force is_maxwell (n + S k) t
    = (Raise e, t'', (ev0 ++ ev1)%list).
Proof.
  induction n as [| n IH]; intros t t' ev0; simpl.
  - intros H W. inversion H; subst. rewrite W. reflexivity.
  - destruct (walk w c is_force is_maxwell (fun _ => 1%nat) t)
      as [[[[] | e0] t0] ev] eqn:W0; [| discriminate].
    destruct (sweeps w c is_force is_maxwell n t0) as [[r t1] ev'] eqn:S0.
    intros H W. inversion H; subst.
    rewrite (IH _ _ _ S0 W). rewrite <- app_assoc. reflexivity.
Qed.

(** C2, as the code has it. When the submission command exits with a
    return code other than 0 during the run of a folder, the run raises
    [CalledProcessError]. Nothing catches what a run raises: the pass ends at
    that folder, the folders after it are neither visited nor changed, and
    the loop of the full sweep ends with that pass, whatever the number of
    passes still to come; [main] in the full-sweep mode is that loop. *)
Theorem refused_submission_ends_the_scan :
  (forall w folder c is_force is_maxwell out command script,
      In (Submitted command script)
         (snd (run w folder c is_force is_maxwell out)) ->
      sbatch w command <> 0 ->
      fst (fst (run w folder c is_force is_maxwell out)) = Raise CalledProcessError)
  /\ (forall w c is_force is_maxwell t1 t1' ev1 folder out e out' ev t2,
         walk w c is_force is_maxwell (fun _ => 1%nat) t1 = (Ok tt, t1', ev1) ->
         run w folder c is_force is_maxwell out = (Raise e, out', ev) ->
         walk w c is_force is_maxwell (fun _ => 1%nat)
           (t1 ++ (folder, out) :: t2)%list
         = (Raise e, (t1' ++ (folder, out') :: t2)%list, (ev1 ++ ev)%list))
  /\ (forall w c is_force is_maxwell n k t t' ev0 e t'' ev1,
         sweeps w c is_force is_maxwell n t = (Ok tt, t', ev0) ->
         walk w c is_force is_maxwell (fun _ => 1%nat) t' = (Raise e, t'', ev1) ->
         sweeps w c is_force is_maxwell (n + S k) t
         = (Raise e, t'', (ev0 ++ ev1)%list))
  /\ (forall w a md c passes t,
         offline a = true -> blocks a = None ->
         main w a (Ok md) c passes t = sweeps w c (force a) (maxwell a) passes t).
Proof.
  split; [| split; [| split]].
  - intros w folder c is_force is_maxwell out command script.
    apply (stops_run w folder c is_force is_maxwell out command script).
  - intros w c is_force is_maxwell t1 t1' ev1 folder out e out' ev t2 W R.
    apply walk_raises; [| assumption].
    apply run_times_raises. assumption.
  - intros w c is_force is_maxwell n k t t' ev0 e t'' ev1.
    apply sweeps_raises.
  - intros w a md c passes t Ho Hb. unfold main. rewrite Ho, Hb. reflexivity.
Qed.

(** The scheduler refuses the first job of [lyso_1]. *)
Lemma refused_submission_ends_the_scan_witness :
  fst (fst (run (refusing beamtime) lyso_1 p09 false false None))
  = Raise CalledProcessError.
Proof.
  eapply (proj1 refused_submission_ends_the_scan
            (refusing beamtime) lyso_1 p09 false false None).
  - vm_compute. repeat (first [left; reflexivity | right]).
  - vm_compute. discriminate.
Defined.

(** C2, as stated, fails on a tree of two datasets when the scheduler
    refuses the jobs: the first submission for the first dataset exits with
    return code 1, the loop that was to make three passes ends there with
    [CalledProcessError], and the second dataset is never visited, in that
    pass or later. *)
Lemma scan_ends_on_refused_submission :
  sbatch (refusing beamtime) = (fun _ => 1)
  /\ main (refusing beamtime)
       {| offline := true; path := None; blocks := None;
          maxwell := false; force := false |}
       (Metadata.find_and_parse_metadata true
          [ ("beamtime-metadata-copy.json", Metadata.Loaded record_with_core_path) ])
       p09 3 fresh_tree
     = sweeps (refusing beamtime) p09 false false 3 fresh_tree
  /\ fst (fst (sweeps (refusing beamtime) p09 false false 3 fresh_tree))
     = Raise CalledProcessError
  /\ snd (fst (sweeps (refusing beamtime) p09 false false 3 fresh_tree))
     = [ ({| root := "/beamtime/raw"; files := [] |}, None);
         ({| root := "/beamtime/raw/lyso"; files := [] |}, None);
         (lyso_1,
          Some [ {| ename := "xds"; ekind := Directory; deletable := true |};
                 {| ename := "autoPROC_20250612-101500"; ekind := Directory;
                    deletable := true |} ]);
         (lyso_2, None) ]
  /\ length (submissions
               (snd (sweeps (refusing beamtime) p09 false false 3 fresh_tree)))
     = 1%nat
  /\ existsb (fun e => match e with
                       | Info msg => contains (root lyso_2) msg
                       | _ => false
                       end)
       (snd (sweeps (refusing beamtime) p09 false false 3 fresh_tree)) = false.
Proof.
  split; [reflexivity |]. split; [reflexivity |].
  repeat split; vm_compute; reflexivity.
Qed.

End DispatcherProperties.

(** * Further properties of the code *)

Section ExtractMore.
Import PyStr PyNum Extract.



End ExtractMore.

Section ExtractMore2.
Import PyStr PyNum Extract.


Lemma span_digits_append s d r : span_digits s = (d, r) -> s = d ++ r.
Proof.
  revert d r. induction s as [| c t IH]; intros d r; simpl.
  - intros H; inversion H; reflexivity.
  - destruct (is_digit c).
    + destruct (span_digits t) as [d' r'] eqn:E. intros H; inversion H; subst.
      simpl. rewrite (IH _ _ eq_refl). reflexivity.
    + intros H; inversion H; reflexivity.
Qed.

Lemma span_digits_all_digits s d r :
  span_digits s = (d, r) -> Wedges.all_digits d = true.
Proof.
  revert d r. induction s as [| c t IH]; intros d r; simpl.
  - intros H; inversion H; reflexivity.
  - destruct (is_digit c) eqn:Hc.
    + destruct (span_digits t) as [d' r'] eqn:E. intros H; inversion H; subst.
      simpl. rewrite Hc. exact (IH _ _ eq_refl).
    + intros H; inversion H; reflexivity.
Qed.


Lemma match_mantissa_int s d1 fr r :
  match_mantissa s = Some (d1, fr, r) ->
  s = d1 ++ fraction_text fr ++ r /\ d1 = fst (span_digits s)
  /\ (0 < String.length (d1 ++ fraction_text fr))%nat.
Proof.
  unfold match_mantissa.
  destruct (span_digits s) as [a r1] eqn:E1.
  pose proof (span_digits_append _ _ _ E1) as Hs.
  assert (I : (if is_empty a then None else Some (a, @None string, r1))
              = Some (d1, fr, r) ->
              s = d1 ++ fraction_text fr ++ r /\ d1 = fst (a, r1)
              /\ (0 < String.length (d1 ++ fraction_text fr))%nat).
  { destruct a as [| c a]; simpl; [discriminate |].
    intros H; injection H as <- <- <-.
    split; [exact Hs | split; [reflexivity | simpl; lia]]. }
  destruct r1 as [| c r2]; [exact I |].
  destruct (Ascii.eqb c ".") eqn:Hc; [| exact I].
  apply Ascii.eqb_eq in Hc. subst c.
  destruct (span_digits r2) as [d2 r3] eqn:E2.
  destruct (is_empty d2) eqn:Hd2; [exact I |].
  intros H; injection H as <- <- <-. simpl.
  rewrite (span_digits_append _ _ _ E2) in Hs.
  split; [exact Hs | split; [reflexivity |]].
  rewrite length_append. simpl. lia.
Qed.

Lemma match_exponent_text s c sg d :
  match_exponent s = Some (c, sg, d) ->
  exists rest, s = String c EmptyString ++ sg ++ d ++ rest.
Proof.
  unfold match_exponent. destruct s as [| c0 r1]; [discriminate |].
  destruct (Ascii.eqb c0 "e" || Ascii.eqb c0 "E"); [| discriminate].
  destruct r1 as [| c' r'].
  - simpl. discriminate.
  - destruct (is_sign c').
    + destruct (span_digits r') as [d' rest] eqn:E.
      destruct (is_empty d'); [discriminate |].
      intros H; inversion H; subst. exists rest. simpl.
      rewrite (span_digits_append _ _ _ E). reflexivity.
    + destruct (span_digits (String c' r')) as [d' rest] eqn:E.
      destruct (is_empty d'); [discriminate |].
      intros H; inversion H; subst. exists rest. simpl.
      rewrite <- (span_digits_append _ _ _ E). reflexivity.
Qed.

Lemma match_here_text s m :
  match_here s = Some m ->
  (exists rest, s = group m ++ rest)
  /\ (0 < String.length (group m))%nat
  /\ Wedges.all_digits (nm_int m) = true.
Proof.
  unfold match_here.
  set (sr := match s with
             | String c t =>
                 if is_sign c then (String c EmptyString, t) else (EmptyString, s)
             | EmptyString => (EmptyString, s)
             end).
  assert (Hsr : s = fst sr ++ snd sr).
  { unfold sr. destruct s as [| c t]; [reflexivity |].
    destruct (is_sign c); reflexivity. }
  destruct sr as [sg r0]. simpl in Hsr.
  destruct (match_mantissa r0) as [[[d1 fr] r1] |] eqn:E; [| discriminate].
  intros H; inversion H; subst m. clear H.
  destruct (match_mantissa_int _ _ _ _ E) as (Hr0 & Hd1 & Hlen).
  unfold group. cbn [nm_sign nm_int nm_frac nm_exp].
  fold (fraction_text fr).
  split; [| split].
  - destruct (match_exponent r1) as [[[c sg'] d] |] eqn:Ee.
    + destruct (match_exponent_text _ _ _ _ Ee) as [rest Hrest].
      exists rest. rewrite Hsr, Hr0, Hrest.
      rewrite !append_associative. reflexivity.
    + exists r1. rewrite Hsr, Hr0. rewrite !append_associative. reflexivity.
  - rewrite !length_append in *. lia.
  - rewrite Hd1. destruct (span_digits r0) as [a b] eqn:Es. simpl.
    eapply span_digits_all_digits; eassumption.
Qed.

(** X1. The number the extractor reads in a line is a piece of the line, the
    leftmost one that the pattern of a number matches. *)
Theorem re_search_leftmost_number_of_line :
  forall (line : string) (m : number_match),
    re_search line = Some m ->
    exists before after,
      line = before ++ group m ++ after
      /\ (0 < String.length (group m))%nat
      /\ forall i, (i < String.length before)%nat ->
                   match_here (PyPath.drop i line) = None.
Proof.
  intros line m H.
  destruct (re_search_leftmost _ _ H) as (before & rest & Hl & Hm & Hn).
  destruct (match_here_text _ _ Hm) as ([after Hrest] & Hlen & _).
  exists before, after.
  split; [rewrite Hl, Hrest; reflexivity | split; [exact Hlen | exact Hn]].
Qed.

Lemma re_search_leftmost_number_of_line_witness :
  exists before after,
    "frames/position: 5" = before ++ "5" ++ after
    /\ (0 < String.length "5")%nat
    /\ forall i, (i < String.length before)%nat ->
                 match_here (PyPath.drop i "frames/position: 5") = None.
Proof.
  exact (re_search_leftmost_number_of_line "frames/position: 5"
           {| nm_sign := EmptyString; nm_int := "5"; nm_frac := None;
              nm_exp := None |} eq_refl).
Defined.








End ExtractMore2.

Section MetadataMore.
Import Metadata.
Local Open Scope result_scope.

Lemma py_in_raises k data e : py_in k data = Raise e -> e = TypeError.
Proof. destruct data; simpl; intros H; inversion H; reflexivity. Qed.

Lemma has_required_keys_raises data e :
  has_required_keys data = Raise e -> e = TypeError.
Proof.
  unfold has_required_keys.
  destruct (py_in "beamtimeId" data) as [a | e'] eqn:E; simpl.
  - destruct a; [apply py_in_raises | discriminate].
  - intros H; inversion H; subst. eapply py_in_raises; eassumption.
Qed.

Lemma dict_get_raises online k e :
  dict_get online k = Raise e -> e = AttributeError.
Proof. destruct online; simpl; intros H; inversion H; reflexivity. Qed.

Lemma all_strings_raises items e : all_strings items = Raise e -> e = TypeError.
Proof.
  induction items as [| v items IH]; simpl; [discriminate |].
  destruct v; try (intros H; inversion H; reflexivity).
  destruct (all_strings items); [discriminate |].
  intros H; inversion H; subst. apply IH. reflexivity.
Qed.

Lemma comma_join_raises v e : comma_join v = Raise e -> e = TypeError.
Proof.
  destruct v; simpl; try (intros H; inversion H; reflexivity).
  destruct (all_strings items) eqn:E; [discriminate |].
  intros H; inversion H; subst. eapply all_strings_raises; eassumption.
Qed.

Lemma has_required_keys_object items :
  has_required_keys (JObject items) = Ok true ->
  (exists v, get items "beamtimeId" = Some v)
  /\ (exists v, get items "onlineAnalysis" = Some v).
Proof.
  unfold has_required_keys. simpl.
  destruct (get items "beamtimeId") as [v |]; simpl; [| discriminate].
  destruct (get items "onlineAnalysis") as [v' |]; [| discriminate].
  intros _. split; eexists; reflexivity.
Qed.

Lemma build_result_raises json_file data e :
  has_required_keys data = Ok true ->
  build_result json_file data = Raise e -> escapes e.
Proof.
  intros Hk. unfold build_result, escapes.
  destruct data as [| b | z | x | s | items | items];
    try solve [simpl; intros H; inversion H; auto].
  destruct (has_required_keys_object _ Hk) as ([id Hid] & [online Hon]).
  simpl. rewrite Hon, Hid. simpl.
  destruct (get items "corePath") as [core |]; simpl;
    [| intros H; inversion H; auto].
  destruct (dict_get online "reservedNodes") as [nodes | e1] eqn:E1; simpl;
    [| intros H; inversion H; subst; right; right;
       eapply dict_get_raises; eassumption].
  destruct (if truthy nodes then comma_join nodes else Ok EmptyString)
    as [joined | e2] eqn:E2; simpl.
  2: { intros H; inversion H; subst. right; left.
       destruct (truthy nodes); [| discriminate].
       eapply comma_join_raises; eassumption. }
  destruct online; simpl in *; discriminate.
Qed.

Lemma try_file_loaded_raises json_file data e :
  try_file json_file (Loaded data) = Raise e -> escapes e.
Proof.
  unfold try_file. simpl.
  destruct (has_required_keys data) as [ok | e'] eqn:E; simpl.
  - destruct ok; [| discriminate].
    destruct (build_result json_file data) as [r | e'] eqn:B; simpl;
      [discriminate |].
    intros H; inversion H; subst. eapply build_result_raises; eassumption.
  - intros H; inversion H; subst. right; left.
    eapply has_required_keys_raises; eassumption.
Qed.

Lemma escapes_not_skipped e : escapes e -> is_skipped e = false.
Proof. intros [-> | [-> | ->]]; reflexivity. Qed.

Lemma build_result_file json_file data r :
  build_result json_file data = Ok r -> file r = json_file.
Proof.
  unfold build_result.
  destruct (subscript data "onlineAnalysis") as [online |]; simpl; [| discriminate].
  destruct (subscript data "beamtimeId") as [id |]; simpl; [| discriminate].
  destruct (subscript data "corePath") as [core |]; simpl; [| discriminate].
  destruct (dict_get online "reservedNodes") as [nodes |]; simpl; [| discriminate].
  destruct (if truthy nodes then comma_join nodes else Ok EmptyString);
    simpl; [| discriminate].
  destruct (dict_get online "sshPrivateKeyPath"); simpl; [| discriminate].
  destruct (dict_get online "sshPublicKeyPath"); simpl; [| discriminate].
  destruct (dict_get online "userAccount"); simpl; [| discriminate].
  destruct (dict_get online "slurmPartition"); simpl; [| discriminate].
  intros H; inversion H; reflexivity.
Qed.

Lemma scan_candidates_ok json_files r :
  scan_candidates json_files = Ok r <->
  exists before data after,
    json_files = (before ++ (file r, Loaded data) :: after)%list
    /\ Forall (fun jc => passed_over (snd jc)) before
    /\ has_required_keys data = Ok true
    /\ build_result (file r) data = Ok r.
Proof.
  split.
  - induction json_files as [| [json_file c] rest IH]; simpl; [discriminate |].
    destruct (try_file json_file c) as [[r' |] | e] eqn:T.
    + intros H; inversion H; subst r'. clear H.
      unfold try_file in T. destruct c as [| | data]; simpl in T; try discriminate.
      destruct (has_required_keys data) as [[|] |] eqn:K; simpl in T;
        try discriminate.
      destruct (build_result json_file data) as [r' |] eqn:B; simpl in T;
        [| discriminate].
      inversion T; subst r'.
      pose proof (build_result_file _ _ _ B) as F.
      exists [], data, rest. rewrite F. simpl. auto.
    + intros H. destruct (IH H) as (before & data & after & Hl & Hb & Hk & Hr).
      exists ((json_file, c) :: before), data, after.
      split; [rewrite Hl; reflexivity |]. split; [| auto].
      constructor; [| assumption]. simpl.
      unfold try_file in T. destruct c as [| | d]; simpl in *; try exact I.
      destruct (has_required_keys d) as [[|] |]; simpl in T;
        try discriminate; [| reflexivity].
      destruct (build_result json_file d); discriminate.
    + destruct (is_skipped e) eqn:Sk; [| discriminate].
      intros H. destruct (IH H) as (before & data & after & Hl & Hb & Hk & Hr).
      exists ((json_file, c) :: before), data, after.
      split; [rewrite Hl; reflexivity |]. split; [| auto].
      constructor; [| assumption]. simpl.
      destruct c as [| | d]; try exact I.
      rewrite (escapes_not_skipped _ (try_file_loaded_raises _ _ _ T)) in Sk.
      discriminate.
  - intros (before & data & after & -> & Hb & Hk & Hr).
    induction Hb as [| [json_file c] before Hc _ IH]; simpl.
    + unfold try_file. simpl. rewrite Hk. simpl. rewrite Hr. reflexivity.
    + rewrite <- IH. apply scan_candidates_skips. exact Hc.
Qed.

Lemma scan_candidates_raises json_files e :
  scan_candidates json_files = Raise e ->
  (e = FileNotFoundError /\ Forall (fun jc => passed_over (snd jc)) json_files)
  \/ escapes e.
Proof.
  induction json_files as [| [json_file c] rest IH]; simpl.
  - intros H; inversion H. left. split; [reflexivity | constructor].
  - destruct (try_file json_file c) as [[r' |] | e'] eqn:T; [discriminate | |].
    + intros H. destruct (IH H) as [[-> Hall] | He]; [left | right; assumption].
      split; [reflexivity |]. constructor; [| assumption]. simpl.
      unfold try_file in T. destruct c as [| | d]; simpl in *; try exact I.
      destruct (has_required_keys d) as [[|] |]; simpl in T;
        try discriminate; [| reflexivity].
      destruct (build_result json_file d); discriminate.
    + destruct c as [| | d].
      * unfold try_file in T. simpl in T. inversion T; subst e'. simpl.
        intros H. destruct (IH H) as [[-> Hall] | He]; [left | right; assumption].
        split; [reflexivity |]. constructor; [exact I | assumption].
      * unfold try_file in T. simpl in T. inversion T; subst e'. simpl.
        intros H. destruct (IH H) as [[-> Hall] | He]; [left | right; assumption].
        split; [reflexivity |]. constructor; [exact I | assumption].
      * pose proof (try_file_loaded_raises _ _ _ T) as He.
        rewrite (escapes_not_skipped _ He).
        intros H; inversion H; subst. right. assumption.
Qed.

Lemma build_result_read json_file data r :
  build_result json_file data = Ok r <-> file r = json_file /\ read_from data r.
Proof.
  unfold build_result, read_from. split.
  - destruct (subscript data "onlineAnalysis") as [online |]; simpl; [| discriminate].
    destruct (subscript data "beamtimeId") as [id |]; simpl; [| discriminate].
    destruct (subscript data "corePath") as [core |]; simpl; [| discriminate].
    destruct (dict_get online "reservedNodes") as [nodes |] eqn:N; simpl;
      [| discriminate].
    destruct (if truthy nodes then comma_join nodes else Ok EmptyString)
      as [joined |] eqn:J; simpl; [| discriminate].
    destruct (dict_get online "sshPrivateKeyPath") eqn:G1; simpl; [| discriminate].
    destruct (dict_get online "sshPublicKeyPath") eqn:G2; simpl; [| discriminate].
    destruct (dict_get online "userAccount") eqn:G3; simpl; [| discriminate].
    destruct (dict_get online "slurmPartition") eqn:G4; simpl; [| discriminate].
    intros H; inversion H; subst r; simpl. split; [reflexivity |].
    exists online, nodes. rewrite N. auto 10.
  - intros (F & online & nodes & -> & -> & -> & N & J & G1 & G2 & G3 & G4).
    simpl. rewrite N. simpl. rewrite J. simpl.
    rewrite G1, G2, G3, G4. simpl. subst json_file. destruct r; reflexivity.
Qed.

(** X4. The startup error, for every base path and set of candidates, each
    of which is gone, is not JSON, or loads. The function raises
    [FileNotFoundError] exactly when the base path does not exist or every
    candidate is passed over: it is gone, it is not JSON, or it lacks one of
    the two keys tested. Any other exception that leaves it is [KeyError]
    for the core path, [TypeError] or [AttributeError], raised by a record
    that has the two keys and from which the result cannot be built, or by
    JSON data in which the keys cannot be looked up. *)
Theorem find_and_parse_metadata_errors :
  forall (base_exists : bool) (json_files : list (string * candidate)),
    (find_and_parse_metadata base_exists json_files = Raise FileNotFoundError
     <-> base_exists = false
         \/ Forall (fun jc => passed_over (snd jc)) json_files)
    /\ (forall e,
           find_and_parse_metadata base_exists json_files = Raise e ->
           e = FileNotFoundError \/ escapes e).
Proof.
  intros base_exists json_files. unfold find_and_parse_metadata. split; [split |].
  - destruct base_exists; simpl; [| auto].
    intros H. right.
    destruct (scan_candidates_raises _ _ H) as [[_ Hall] | He]; [assumption |].
    destruct He as [He | [He | He]]; discriminate.
  - intros [-> | Hall]; [reflexivity |].
    destruct base_exists; [| reflexivity]. simpl.
    apply scan_candidates_all_passed_over. assumption.
  - intros e. destruct base_exists; simpl.
    + intros H. destruct (scan_candidates_raises _ _ H) as [[-> _] | He]; auto.
    + intros H; inversion H. auto.
Qed.

Lemma find_and_parse_metadata_errors_witness :
  TypeError = FileNotFoundError \/ escapes TypeError.
Proof.
  exact (proj2 (find_and_parse_metadata_errors true
                  [ ("beamtime-metadata-11016750.json", Loaded list_of_key_names) ])
           TypeError eq_refl).
Defined.

(** X5. The record returned is read from the first candidate that is not
    passed over, and that candidate has the two tested keys: the function
    returns [r] exactly when the base path exists, the candidates before
    the file of [r] are all passed over, and the fields of [r] are read from
    the record in that file. *)
Theorem find_and_parse_metadata_first_valid :
  forall (base_exists : bool) (json_files : list (string * candidate))
         (r : metadata),
    find_and_parse_metadata base_exists json_files = Ok r
    <-> base_exists = true
        /\ exists before data after,
             json_files = (before ++ (file r, Loaded data) :: after)%list
             /\ Forall (fun jc => passed_over (snd jc)) before
             /\ has_required_keys data = Ok true
             /\ read_from data r.
Proof.
  intros base_exists json_files r. unfold find_and_parse_metadata.
  destruct base_exists; simpl.
  - rewrite scan_candidates_ok. split.
    + intros (before & data & after & Hl & Hb & Hk & Hr).
      split; [reflexivity |]. exists before, data, after.
      apply build_result_read in Hr. destruct Hr as [_ Hr]. auto.
    + intros (_ & before & data & after & Hl & Hb & Hk & Hr).
      exists before, data, after. repeat split; auto.
      apply build_result_read. auto.
  - split; [discriminate | intros [H _]; discriminate].
Qed.

Lemma find_and_parse_metadata_first_valid_witness :
  find_and_parse_metadata true
    [ ("beamtime-metadata-old.json", Malformed);
      ("beamtime-metadata-11016750.json", Loaded record_with_core_path) ]
  = Ok {| beamtimeId := JString "11016750";
          corePath := JString "/asap3/petra3/gpfs/p09/2022/data/11016750";
          reservedNodes := "max-p3a020";
          sshPrivateKeyPath := JString "shared/id_rsa";
          sshPublicKeyPath := JString "shared/id_rsa.pub";
          userAccount := JString "bttest04";
          file := "beamtime-metadata-11016750.json";
          slurmPartition := JString "ponline_p09" |}.
Proof.
  apply (proj2 (find_and_parse_metadata_first_valid true _ _)).
  split; [reflexivity |].
  exists [ ("beamtime-metadata-old.json", Malformed) ], record_with_core_path, [].
  split; [reflexivity |]. split; [repeat constructor |]. split; [reflexivity |].
  exists online_analysis, (JArray [JString "max-p3a020"]).
  repeat split.
Defined.

End MetadataMore.

Section FlagProperties.
Import PyStr PyPath Shell Templates Autoprocessing.
Local Open Scope shell_scope.

Lemma flags_bind {A B : Type} sets (c : M A) (f : A -> M B) :
  flags_when false c -> (forall a, flags_when sets (f a)) ->
  flags_when sets (bindM c f).
Proof.
  intros Hc Hf s. specialize (Hc s). unfold bindM.
  destruct (c s) as [[[a | e] s'] ev]; simpl in *.
  - specialize (Hf a s'). destruct (f a s') as [[r s''] ev']; simpl in *.
    rewrite Hf, Hc. rewrite !orb_false_r. reflexivity.
  - rewrite Hc. reflexivity.
Qed.

Lemma flags_silent {A : Type} (c : M A) :
  (forall s, snd (fst (c s)) = s) -> flags_when false c.
Proof. intros H s. rewrite H, andb_false_r, orb_false_r. reflexivity. Qed.

Lemma flags_weaken {A : Type} (c : M A) :
  flags_when false c -> flags_when true c -> forall sets, flags_when sets c.
Proof. intros H0 H1 [|]; assumption. Qed.

Lemma flags_ret {A : Type} (a : A) : flags_when false (ret a).
Proof. apply flags_silent. reflexivity. Qed.

Lemma flags_raise {A : Type} e sets : flags_when sets (@raise A e).
Proof. intros s. simpl. rewrite orb_false_r. reflexivity. Qed.

Lemma flags_lift {A : Type} (r : result A) : flags_when false (lift r).
Proof. apply flags_silent. reflexivity. Qed.

Lemma flags_info msg : flags_when false (info msg).
Proof. apply flags_silent. reflexivity. Qed.

Lemma flags_exists name : flags_when false (exists_ name).
Proof. apply flags_silent. reflexivity. Qed.

Lemma flags_listdir : flags_when false listdir.
Proof. apply flags_silent. intros [entries |]; reflexivity. Qed.

Lemma flags_chdir : flags_when false chdir.
Proof. apply flags_silent. intros [entries |]; reflexivity. Qed.

Lemma flags_makedirs : flags_when false makedirs.
Proof.
  intros [entries |]; unfold flagged; simpl; rewrite ?orb_false_r; reflexivity.
Qed.

Lemma flags_run_check w command script :
  flags_when false (run_check w command script).
Proof.
  apply flags_silent. intros s. unfold run_check, bindM, emit.
  destruct (sbatch w command =? 0); reflexivity.
Qed.

Lemma flags_create k name :
  String.eqb name "flag.txt" = false -> flags_when false (create k name).
Proof.
  intros Hn [entries |]; unfold create, flagged; simpl; [| reflexivity].
  rewrite ?andb_false_r, ?orb_false_r.
  destruct (has_entry name entries); [reflexivity |].
  rewrite has_entry_app. simpl. rewrite Hn. rewrite !orb_false_r. reflexivity.
Qed.

(** The last statement of the rotational and of the serial pipeline. *)
Lemma flags_create_flag k : flags_when true (create k "flag.txt").
Proof.
  intros [entries |]; unfold create, flagged; simpl; [| reflexivity].
  rewrite ?andb_true_r, ?orb_true_r.
  destruct (has_entry "flag.txt" entries) eqn:E; [exact E |].
  rewrite has_entry_app. simpl. apply orb_true_r.
Qed.

Lemma has_entry_without name other entries :
  String.eqb other name = false ->
  has_entry name (without other entries) = has_entry name entries.
Proof.
  intros Hn. induction entries as [| e entries IH]; simpl; [reflexivity |].
  destruct (String.eqb (ename e) other) eqn:E; simpl.
  - rewrite IH. apply String.eqb_eq in E. rewrite E, Hn. reflexivity.
  - rewrite IH. reflexivity.
Qed.

Lemma flags_remove_entry path e :
  String.eqb (ename e) "flag.txt" = false ->
  flags_when false (remove_entry path e).
Proof.
  intros Hn [entries |]; unfold remove_entry, flagged; simpl; [| reflexivity].
  rewrite ?andb_false_r, ?orb_false_r.
  destruct (has_entry (ename e) entries); [| reflexivity].
  destruct (deletable e); [| reflexivity].
  simpl. apply has_entry_without. assumption.
Qed.

Lemma flags_for_each {A : Type} (l : list A) (body : A -> M unit) :
  (forall a, In a l -> flags_when false (body a)) ->
  flags_when false (for_each l body).
Proof.
  induction l as [| a l IH]; intros H; simpl; [apply flags_ret |].
  apply flags_bind; [apply H; left; reflexivity |].
  intros _. apply IH. intros b Hb. apply H. right. assumption.
Qed.

Create HintDb flag.
#[local] Hint Resolve flags_ret flags_raise flags_lift flags_info flags_exists
  flags_listdir flags_chdir flags_makedirs flags_run_check : flag.
#[local] Hint Extern 1 (flags_when false (create _ _)) =>
  (apply flags_create; reflexivity) : flag.

(** The steps of the proofs that a statement leaves the flag alone. *)
Ltac flags_step :=
  first
    [ solve [auto 1 with flag nocore]
    | apply flags_bind; [| intros ?]
    | match goal with
      | |- flags_when _ (if ?b then _ else _) => destruct b
      | |- flags_when _ (match ?x with _ => _ end) => destruct x eqn:?
      end ].

Ltac flags := cbv zeta; repeat (flags_step; cbv zeta).

Lemma flags_rotational_xds_start w a b c d e f g h :
  flags_when false (Rotational.xds_start w a b c d e f g h).
Proof. unfold Rotational.xds_start. flags. Qed.

Lemma flags_copy_template w template there :
  flags_when false (copy_template w template there).
Proof. unfold copy_template. flags. Qed.

#[local] Hint Resolve flags_rotational_xds_start flags_copy_template : flag.

Lemma flags_filling_template_rotational w folder a b :
  flags_when false (filling_template_rotational w folder a b).
Proof. unfold filling_template_rotational. flags. Qed.

#[local] Hint Resolve flags_filling_template_rotational flags_create_flag : flag.

Lemma sorted_empty l : Rotational.sorted l = [] -> l = [].
Proof.
  destruct l as [| x l]; [reflexivity |]. simpl.
  destruct (Rotational.sorted l) as [| y r]; simpl; [discriminate |].
  destruct (String.leb x y); discriminate.
Qed.

Lemma filter_empty_existsb {A : Type} (p : A -> bool) l :
  existsb p l = negb (match filter p l with [] => true | _ => false end).
Proof.
  induction l as [| a l IH]; simpl; [reflexivity |].
  destruct (p a); simpl; [reflexivity | exact IH].
Qed.


Lemma zero_padded_not_flag width z :
  String.eqb (Wedges.zero_padded width z) "flag.txt" = false.
Proof.
  unfold Wedges.zero_padded.
  destruct (width - String.length (str_of_Z z))%nat as [| k]; simpl.
  - unfold str_of_Z. destruct (Z.to_int z) as [u | u]; simpl; [| reflexivity].
    destruct u; reflexivity.
  - reflexivity.
Qed.

Lemma flags_wedges_xds_start w a b c d e f g h :
  flags_when false (Wedges.xds_start w a b c d e f g h).
Proof. unfold Wedges.xds_start. flags. Qed.

Lemma flags_filling_template_wedges w folder a b c d e f :
  flags_when false (filling_template_wedges w folder a b c d e f).
Proof. unfold filling_template_wedges. flags. Qed.

#[local] Hint Resolve flags_wedges_xds_start flags_filling_template_wedges : flag.

Lemma has_data_file_sorted folder :
  has_data_file folder
  = match Rotational.sorted
            (map (join (root folder))
               (filter Rotational.is_data_file (map fst (files folder)))) with
    | [] => false
    | _ :: _ => true
    end.
Proof.
  unfold has_data_file. rewrite filter_empty_existsb.
  destruct (filter Rotational.is_data_file (map fst (files folder)))
    as [| x l] eqn:F; [reflexivity |].
  destruct (Rotational.sorted (map (join (root folder)) (x :: l))) eqn:S;
    [| reflexivity].
  apply sorted_empty in S. discriminate.
Qed.

Lemma sh_not_flag x : String.eqb (x ++ ".sh") "flag.txt" = false.
Proof.
  apply String.eqb_neq. intros H.
  do 9 (destruct x as [| ? x]; [simpl in H; discriminate H |]).
  simpl in H. discriminate H.
Qed.

Lemma flags_filling_template_serial w folder a b c :
  flags_when false (filling_template_serial w folder a b c).
Proof.
  unfold filling_template_serial, unlink. flags.
  apply flags_remove_entry.
  match goal with
  | H : find _ _ = Some _ |- _ =>
      apply find_some in H; destruct H as [_ H];
      apply String.eqb_eq in H; rewrite H; reflexivity
  end.
Qed.

Lemma flags_serial_data_processing w folder a b c d e f g h i j k :
  flags_when false
    (Serial.serial_data_processing w folder a b c d e f g h i j k).
Proof.
  unfold Serial.serial_data_processing. cbv zeta.
  repeat (apply flags_bind; [solve [flags] | intros ?]).
  destruct (_ && _); [flags |].
  apply flags_bind.
  { apply flags_for_each. intros name Hin. unfold Serial.chunk_names in Hin.
    apply in_map_iff in Hin. destruct Hin as (n & <- & _).
    apply flags_create. reflexivity. }
  intros _. apply flags_bind; [apply flags_info | intros _].
  apply flags_bind; [apply flags_listdir | intros listing].
  apply flags_for_each. intros split_file _.
  apply flags_bind; [apply flags_info | intros _].
  apply flags_bind; [apply flags_create, sh_not_flag | intros _].
  flags.
Qed.

Lemma flags_chunk_loop todo :
  forall iteration NFRAMES body,
    (forall a b i, flags_when false (body a b i)) ->
    flags_when false (Serial.chunk_loop todo iteration NFRAMES body).
Proof.
  induction todo as [| todo IH]; intros iteration NFRAMES body H; simpl.
  - apply flags_ret.
  - apply flags_bind; [apply flags_info | intros _].
    apply flags_bind; [apply H | intros _]. apply IH, H.
Qed.

(** X6. The wedge pipeline never creates the completion flag that [run]
    tests (the flag that the source creates for a position lies in the
    folder of that position, below the output directory). Whatever it does,
    and whether it returns or raises, the flag is in the output directory
    afterwards exactly when it was there before. *)
Theorem wedges_processing_leaves_no_flag :
  forall (w : world) (folder : raw_folder)
         (current_data_processing_folder ORGX ORGY distance_offset
          command_for_data_processing XDS_INP_template REFERENCE_DATA_SET
          user reserved_nodes slurm_partition sshPrivateKeyPath
          sshPublicKeyPath : string) (out : outdir),
    flagged (snd (fst (Wedges.wedges_processing w folder
                         current_data_processing_folder ORGX ORGY distance_offset
                         command_for_data_processing XDS_INP_template
                         REFERENCE_DATA_SET user reserved_nodes slurm_partition
                         sshPrivateKeyPath sshPublicKeyPath out)))
    = flagged out.
Proof.
  intros w folder current ORGX ORGY offset command template reference user
    nodes partition priv pub out.
  rewrite <- (orb_false_r (flagged out)).
  rewrite <- (andb_false_r
                (returned (fst (fst (Wedges.wedges_processing w folder current
                                       ORGX ORGY offset command template
                                       reference user nodes partition priv pub
                                       out))))).
  revert out. change (flags_when false
                        (Wedges.wedges_processing w folder current ORGX ORGY
                           offset command template reference user nodes
                           partition priv pub)).
  unfold Wedges.wedges_processing. cbv zeta.
  repeat (apply flags_bind; [solve [auto 1 with flag nocore] | intros ?]).
  destruct (Wedges.group_cbf_by_position folder) as [| first rest] eqn:G;
    [apply flags_ret |].
  apply flags_bind; [apply flags_info | intros _].
  apply flags_for_each. intros data Hin. rewrite <- G in Hin.
  unfold Wedges.group_cbf_by_position in Hin. apply in_map_iff in Hin.
  destruct Hin as (grp & <- & _). cbn [Wedges.pos_str Wedges.start Wedges.end_
                                        Wedges.frame_template].
  apply flags_bind; [apply flags_create, zero_padded_not_flag | intros _].
  flags.
Qed.

(** X7. The rotational pipeline creates the flag as its last step: after
    it, the flag is in the output directory exactly when it was there before, or
    the pipeline returned normally and the raw folder holds a data file.
    So a pipeline that raises leaves no flag, and neither does one that
    finds no data file, although it returns normally. *)
Theorem rotational_processing_flag :
  forall (w : world) (folder : raw_folder)
         (current_data_processing_folder ORGX ORGY distance_offset
          command_for_data_processing XDS_INP_template user reserved_nodes
          slurm_partition sshPrivateKeyPath sshPublicKeyPath : string)
         (out : outdir),
    let done :=
      Rotational.rotational_processing w folder current_data_processing_folder
        ORGX ORGY distance_offset command_for_data_processing XDS_INP_template
        user reserved_nodes slurm_partition sshPrivateKeyPath sshPublicKeyPath
        out in
    flagged (snd (fst done))
    = flagged out || (returned (fst (fst done)) && has_data_file folder).
Proof.
  intros w folder current ORGX ORGY offset command template user nodes
    partition priv pub out done. unfold done. clear done. revert out.
  change (flags_when (has_data_file folder)
            (Rotational.rotational_processing w folder current ORGX ORGY offset
               command template user nodes partition priv pub)).
  rewrite has_data_file_sorted.
  unfold Rotational.rotational_processing. cbv zeta.
  repeat (apply flags_bind; [solve [auto 1 with flag nocore] | intros ?]).
  destruct (Rotational.sorted _) as [| first rest]; [apply flags_ret |].
  repeat (apply flags_bind; [solve [auto 1 with flag nocore] | intros ?]).
  apply flags_create_flag.
Qed.

(** X8. The serial pipeline creates the flag as its last step: after it,
    the flag is in the output directory exactly when it was there before or the
    pipeline returned normally. *)
Theorem serial_processing_flag :
  forall (w : world) (folder : raw_folder)
         (current_data_processing_folder ORGX ORGY distance_offset
          geometry_filename_template cell_file data_h5path user reserved_nodes
          slurm_partition sshPrivateKeyPath sshPublicKeyPath : string)
         (out : outdir),
    let done :=
      Serial.serial_processing w folder current_data_processing_folder
        ORGX ORGY distance_offset geometry_filename_template cell_file
        data_h5path user reserved_nodes slurm_partition sshPrivateKeyPath
        sshPublicKeyPath out in
    flagged (snd (fst done)) = flagged out || returned (fst (fst done)).
Proof.
  intros w folder current ORGX ORGY offset geometry cell h5path user nodes
    partition priv pub out done. unfold done. clear done.
  rewrite <- (andb_true_r
                (returned (fst (fst (Serial.serial_processing w folder current
                                       ORGX ORGY offset geometry cell h5path
                                       user nodes partition priv pub out))))).
  revert out.
  change (flags_when true
            (Serial.serial_processing w folder current ORGX ORGY offset geometry
               cell h5path user nodes partition priv pub)).
  unfold Serial.serial_processing. cbv zeta.
  repeat (apply flags_bind; [solve [auto 1 with flag nocore] | intros ?]).
  apply flags_bind; [apply flags_filling_template_serial | intros filled].
  destruct filled as [[[indexing_method cell_file] NFRAMES] |];
    [| apply flags_raise].
  apply flags_bind; [apply flags_info | intros _].
  apply flags_bind; [destruct (is_empty _); auto with flag | intros _].
  apply flags_bind; [| intros _; apply flags_create_flag].
  apply flags_chunk_loop. intros. apply flags_serial_data_processing.
Qed.

End FlagProperties.

Section SerialProperties.
Import PyStr PyNum PyPath Shell Templates Extract.
Local Open Scope shell_scope.

Lemma select_frames_ok start stop files :
  forallb (fun f => negb (without_frame_number f)) files = true ->
  Serial.select_frames start stop files
  = Ok (filter (in_data_range start stop) files).
Proof.
  induction files as [| file rest IH]; simpl; [reflexivity |].
  intros H. apply andb_true_iff in H. destruct H as [Hf Hr].
  unfold without_frame_number, in_data_range, frame_number in *.
  destruct (int_of_str _) as [n |]; [| discriminate].
  rewrite (IH Hr). destruct ((start <=? n) && (n <? stop)); reflexivity.
Qed.

Lemma select_frames_raises start stop files :
  existsb without_frame_number files = true ->
  Serial.select_frames start stop files = Raise ValueError.
Proof.
  induction files as [| file rest IH]; simpl; [discriminate |].
  unfold without_frame_number at 1. unfold frame_number.
  destruct (int_of_str _) as [n | e] eqn:E; simpl.
  - intros H. rewrite (IH H). reflexivity.
  - intros _. rewrite (int_of_str_raises _ _ E). reflexivity.
Qed.

(** X9. The selection of the files of a chunk reads a frame number in the
    path of every file, in range or not. When every path has one, the files
    selected are those whose number lies in the range, in the order of the
    listing; when one path has none, the selection raises [ValueError]. *)
Theorem select_frames_reads_every_name :
  forall (start stop : Z) (files : list string),
    (forallb (fun f => negb (without_frame_number f)) files = true ->
     Serial.select_frames start stop files
     = Ok (filter (in_data_range start stop) files))
    /\ (existsb without_frame_number files = true ->
        Serial.select_frames start stop files = Raise ValueError).
Proof.
  intros. split; [apply select_frames_ok | apply select_frames_raises].
Qed.

Lemma select_frames_reads_every_name_witness :
  Serial.select_frames 0 1000
    [ "/beamtime/raw/lyso/serial_001/lyso_000001.cbf";
      "/beamtime/raw/lyso/serial_001/lyso_001500.cbf" ]
  = Ok [ "/beamtime/raw/lyso/serial_001/lyso_000001.cbf" ]
  /\ Serial.select_frames 0 1000
       [ "/beamtime/raw/lyso/serial_001/lyso_data_000001.h5";
         "/beamtime/raw/lyso/serial_001/lyso_master.h5" ]
     = Raise ValueError.
Proof.
  split.
  - exact (proj1 (select_frames_reads_every_name 0 1000
                    [ "/beamtime/raw/lyso/serial_001/lyso_000001.cbf";
                      "/beamtime/raw/lyso/serial_001/lyso_001500.cbf" ])
             eq_refl).
  - exact (proj2 (select_frames_reads_every_name 0 1000
                    [ "/beamtime/raw/lyso/serial_001/lyso_data_000001.h5";
                      "/beamtime/raw/lyso/serial_001/lyso_master.h5" ])
             eq_refl).
Defined.










End SerialProperties.

Section ChunkProperties.
Import PyStr PyNum PyPath Shell Templates Extract.
Local Open Scope shell_scope.

Lemma bindM_assoc {A B C : Type} (c : M A) (f : A -> M B) (g : B -> M C) s :
  bindM (bindM c f) g s = bindM c (fun a => bindM (f a) g) s.
Proof.
  unfold bindM. destruct (c s) as [[[a | e] s1] ev1]; [| reflexivity].
  destruct (f a s1) as [[[b | e] s2] ev2]; [| reflexivity].
  destruct (g b s2) as [[r s3] ev3]. rewrite app_assoc. reflexivity.
Qed.

Lemma bindM_ext {A B : Type} (c : M A) (f f' : A -> M B) s :
  (forall a s', f a s' = f' a s') -> bindM c f s = bindM c f' s.
Proof.
  intros H. unfold bindM. destruct (c s) as [[[a | e] s1] ev1]; [| reflexivity].
  rewrite H. reflexivity.
Qed.

Lemma chunk_loop_for_each NFRAMES body todo :
  forall iteration s,
    Serial.chunk_loop todo iteration NFRAMES body s
    = for_each
        (map (fun i =>
                {| first_frame := Serial.chunk_size * Z.of_nat i;
                   frame_after :=
                     Z.min (Serial.chunk_size * Z.of_nat i + Serial.chunk_size)
                       NFRAMES;
                   number := i |})
             (seq iteration todo))
        (process_chunk body) s.
Proof.
  induction todo as [| todo IH]; intros iteration s; [reflexivity |].
  cbn [Serial.chunk_loop seq map for_each]. unfold process_chunk at 1.
  cbn [first_frame frame_after number].
  rewrite bindM_assoc. apply bindM_ext. intros _ s1.
  apply bindM_ext. intros _ s2. apply IH.
Qed.

Lemma in_chunks NFRAMES c :
  In c (chunks NFRAMES) <->
  first_frame c = 1000 * Z.of_nat (number c)
  /\ first_frame c < NFRAMES
  /\ frame_after c = Z.min (first_frame c + 1000) NFRAMES.
Proof.
  unfold chunks, Serial.chunk_size. rewrite in_map_iff. split.
  - intros (i & <- & Hi). apply in_seq in Hi. cbn [first_frame frame_after number].
    split; [reflexivity |]. split; [| reflexivity].
    assert (Z.of_nat i < (NFRAMES + 1000 - 1) / 1000) by lia.
    Z.to_euclidean_division_equations; lia.
  - intros (Ha & Hlt & Hb). exists (number c). split.
    + destruct c as [a b i]. cbn [first_frame frame_after number] in *.
      subst a b. reflexivity.
    + apply in_seq. split; [lia |]. simpl.
      assert (Z.of_nat (number c) < (NFRAMES + 1000 - 1) / 1000)
        by (Z.to_euclidean_division_equations; lia).
      lia.
Qed.

(** X13. The serial pipeline cuts the frames [0 .. NFRAMES - 1] into chunks
    of [chunk_size] frames, the last one shorter when the division leaves a
    rest: the loop is the processing of the chunks in order, every chunk
    holds at least one frame and at most [chunk_size], every frame lies in a
    chunk, and in one only. Without frames there is no chunk. *)
Theorem serial_processing_chunks :
  forall (NFRAMES : Z),
    (forall body s,
        Serial.chunk_loop
          (Z.to_nat ((NFRAMES + Serial.chunk_size - 1) / Serial.chunk_size))
          0 NFRAMES body s
        = for_each (chunks NFRAMES) (process_chunk body) s)
    /\ (forall c, In c (chunks NFRAMES) ->
          0 <= first_frame c < frame_after c
          /\ frame_after c <= NFRAMES
          /\ frame_after c - first_frame c <= Serial.chunk_size)
    /\ (forall frame, 0 <= frame < NFRAMES ->
          exists c, In c (chunks NFRAMES)
                    /\ first_frame c <= frame < frame_after c)
    /\ (forall c c' frame,
          In c (chunks NFRAMES) -> In c' (chunks NFRAMES) ->
          first_frame c <= frame < frame_after c ->
          first_frame c' <= frame < frame_after c' -> c = c')
    /\ (NFRAMES <= 0 -> chunks NFRAMES = []).
Proof.
  intros NFRAMES. split; [| split; [| split; [| split]]].
  - intros body s. apply chunk_loop_for_each.
  - intros c Hc. apply in_chunks in Hc. unfold Serial.chunk_size. lia.
  - intros frame Hf.
    exists {| first_frame := 1000 * Z.of_nat (Z.to_nat (frame / 1000));
              frame_after := Z.min (1000 * Z.of_nat (Z.to_nat (frame / 1000)) + 1000)
                               NFRAMES;
              number := Z.to_nat (frame / 1000) |}.
    rewrite in_chunks. cbn [first_frame frame_after number].
    assert (0 <= frame / 1000) by (Z.to_euclidean_division_equations; lia).
    rewrite Z2Nat.id by assumption.
    Z.to_euclidean_division_equations; lia.
  - intros c c' frame Hc Hc' Hf Hf'.
    apply in_chunks in Hc. apply in_chunks in Hc'.
    destruct c as [a b i], c' as [a' b' i'].
    cbn [first_frame frame_after number] in *.
    assert (i = i') by lia. subst i'. f_equal; lia.
  - intros Hn. unfold chunks, Serial.chunk_size.
    assert ((NFRAMES + 1000 - 1) / 1000 <= 0)
      by (Z.to_euclidean_division_equations; lia).
    replace (Z.to_nat ((NFRAMES + 1000 - 1) / 1000)) with 0%nat by lia.
    reflexivity.
Qed.

Lemma serial_processing_chunks_witness :
  chunks 2500
  = [ {| first_frame := 0; frame_after := 1000; number := 0 |};
      {| first_frame := 1000; frame_after := 2000; number := 1 |};
      {| first_frame := 2000; frame_after := 2500; number := 2 |} ]
  /\ chunks 0 = [].
Proof.
  split; [reflexivity |].
  exact (proj2 (proj2 (proj2 (proj2 (serial_processing_chunks 0)))) (Z.le_refl 0)).
Defined.

End ChunkProperties.

Section DispatcherMore.
Import PyStr PyPath Shell Templates Autoprocessing.
Local Open Scope shell_scope.

Lemma prepare_raises w folder c is_force out e :
  read_descriptor folder = Raise e ->
  prepare w folder c is_force out = (Raise e, out, []).
Proof.
  intros H. unfold prepare.
  erewrite bindM_raise by (unfold lift; rewrite H; reflexivity). reflexivity.
Qed.

Lemma run_when_prepare_raises w folder c is_force is_maxwell out e out1 before :
  usable folder = true ->
  prepare w folder c is_force out = (Raise e, out1, before) ->
  run w folder c is_force is_maxwell out
  = (Raise e, out1, Info ("We are here: " ++ root folder) :: before).
Proof.
  intros U E. unfold run.
  erewrite bindM_ok by reflexivity. cbv beta. rewrite U.
  change (negb true) with false. cbv iota.
  erewrite bindM_raise by exact E. reflexivity.
Qed.

Lemma run_unusable w folder c is_force is_maxwell out :
  usable folder = false ->
  run w folder c is_force is_maxwell out
  = (Ok tt, out,
     [ Info ("We are here: " ++ root folder);
       Info ("In " ++ root folder ++ " there is no usable info.txt file.") ]).
Proof. intros U. unfold run. rewrite U. reflexivity. Qed.

Lemma start_pipeline_ignores_force w folder proc c is_maxwell method fpp :
  start_pipeline w folder proc c true is_maxwell method fpp
  = start_pipeline w folder proc c false is_maxwell method fpp.
Proof. reflexivity. Qed.

(** X14. The force mode changes the run of a folder only when its output
    directory holds the flag: without the flag nothing is cleared, whatever
    an earlier run has left there, and the run is the run without the force
    mode. *)
Theorem force_matters_only_with_flag :
  forall (w : world) (folder : raw_folder) (c : configuration)
         (is_maxwell : bool) (out : outdir),
    has_entry "flag.txt" (listing_of out) = false ->
    run w folder c true is_maxwell out = run w folder c false is_maxwell out.
Proof.
  intros w folder c is_maxwell out Hflag.
  destruct (usable folder) eqn:U; [| rewrite !run_unusable by assumption; reflexivity].
  destruct (read_descriptor folder) as [[m fpp] | e] eqn:R.
  - assert (P : forall is_force,
               prepare w folder c is_force out
               = (Ok (proc_subpath_of c (root folder), m, fpp),
                  Some (listing_of out),
                  (Info ("Processing " ++ proc_subpath_of c (root folder)
                         ++ " with method: " ++ m)
                   :: [] ++ skip_notice w c (proc_subpath_of c (root folder))
                                (listing_of out))%list)).
    { intros is_force. apply prepare_run; [assumption |].
      rewrite Hflag, andb_false_r. reflexivity. }
    rewrite (run_after_prepare _ _ _ _ _ _ _ _ _ _ _ U (P true)).
    rewrite (run_after_prepare _ _ _ _ _ _ _ _ _ _ _ U (P false)).
    rewrite start_pipeline_ignores_force. reflexivity.
  - rewrite (run_when_prepare_raises _ _ _ _ _ _ _ _ _ U
               (prepare_raises w folder c true out e R)).
    rewrite (run_when_prepare_raises _ _ _ _ _ _ _ _ _ U
               (prepare_raises w folder c false out e R)).
    reflexivity.
Qed.

Lemma force_matters_only_with_flag_witness :
  run beamtime lyso_1 p09 true false
    (Some [ {| ename := "xds"; ekind := Directory; deletable := true |} ])
  = run beamtime lyso_1 p09 false false
      (Some [ {| ename := "xds"; ekind := Directory; deletable := true |} ]).
Proof.
  exact (force_matters_only_with_flag beamtime lyso_1 p09 false
           (Some [ {| ename := "xds"; ekind := Directory; deletable := true |} ])
           eq_refl).
Defined.

Lemma overloaded_with_pending_jobs w c answer nodes :
  Nodes.are_the_reserved_nodes_overloaded (squeue (with_pending_jobs w c answer)) nodes
  = Nodes.are_the_reserved_nodes_overloaded (squeue w) nodes.
Proof. reflexivity. Qed.

Lemma start_pipeline_with_pending_jobs w c answer folder proc is_force is_maxwell
    method fpp :
  start_pipeline (with_pending_jobs w c answer) folder proc c is_force is_maxwell
    method fpp
  = start_pipeline w folder proc c is_force is_maxwell method fpp.
Proof. reflexivity. Qed.

Lemma cleanup_when_due c folder is_force out :
  exists cleaned trace,
    (if is_force && has_entry "flag.txt" (listing_of out)
     then clear_old_results (proc_subpath_of c (root folder)) (Some (listing_of out))
     else (Ok tt, Some (listing_of out), []))
    = (Ok tt, Some cleaned, trace)
    /\ submissions trace = [].
Proof.
  destruct (is_force && has_entry "flag.txt" (listing_of out)).
  - apply clear_old_results_total.
  - eexists; eexists; split; reflexivity.
Qed.

Lemma submissions_of_run here line trace notice ev :
  submissions notice = [] ->
  submissions (Info here :: (Info line :: trace ++ notice) ++ ev)%list
  = (submissions trace ++ submissions ev)%list.
Proof.
  unfold submissions. intros H. simpl. rewrite !filter_app, H, app_nil_r.
  reflexivity.
Qed.

(** X15. The limit on the pending jobs of the user has no effect on what
    [run] does. Whatever the scheduler answers to the query of the pending jobs,
    [run] returns or raises the same, leaves the same output directory and
    submits the same jobs; above the limit it writes the log line that the
    folder is skipped, and goes on. *)
Theorem pending_jobs_limit_has_no_effect :
  forall (w : world) (c : configuration) (answer : completed)
         (folder : raw_folder) (is_force is_maxwell : bool) (out : outdir),
    let busy := with_pending_jobs w c answer in
    fst (run busy folder c is_force is_maxwell out)
    = fst (run w folder c is_force is_maxwell out)
    /\ submissions (snd (run busy folder c is_force is_maxwell out))
       = submissions (snd (run w folder c is_force is_maxwell out))
    /\ (usable folder = true ->
        (exists d, read_descriptor folder = Ok d) ->
        returncode answer = 0 ->
        MAX_PENDING_JOBS < Z.of_nat (length (splitlines (stdout answer))) ->
        In (Info (proc_subpath_of c (root folder) ++ " is skipped"))
           (snd (run busy folder c is_force is_maxwell out))).
Proof.
  intros w c answer folder is_force is_maxwell out busy.
  destruct (usable folder) eqn:U.
  2: { rewrite !run_unusable by assumption. repeat split. discriminate. }
  destruct (read_descriptor folder) as [[m fpp] | e] eqn:R.
  2: { rewrite (run_when_prepare_raises _ _ _ _ _ _ _ _ _ U
                  (prepare_raises busy folder c is_force out e R)).
       rewrite (run_when_prepare_raises _ _ _ _ _ _ _ _ _ U
                  (prepare_raises w folder c is_force out e R)).
       repeat split. intros _ [d Hd]. discriminate. }
  destruct (cleanup_when_due c folder is_force out) as (cleaned & trace & E & Q).
  rewrite (run_after_prepare _ _ _ _ _ _ _ _ _ _ _ U
             (prepare_run busy folder c is_force out m fpp cleaned trace R E)).
  rewrite (run_after_prepare _ _ _ _ _ _ _ _ _ _ _ U
             (prepare_run w folder c is_force out m fpp cleaned trace R E)).
  unfold busy at 1 3 5. rewrite start_pipeline_with_pending_jobs.
  destruct (start_pipeline w folder (proc_subpath_of c (root folder)) c is_force
              is_maxwell m fpp (Some cleaned)) as [[r out2] ev].
  split; [reflexivity |]. split.
  - cbn [snd].
    rewrite !submissions_of_run by apply submissions_skip_notice. reflexivity.
  - intros _ _ Hcode Hmany. cbn [snd]. right. right.
    apply in_or_app. left. apply in_or_app. right.
    unfold skip_notice, pending_jobs_of, busy, check_output. cbn [squeue with_pending_jobs].
    rewrite String.eqb_refl, Hcode. cbn [Z.eqb].
    apply Z.ltb_lt in Hmany. rewrite Hmany, orb_true_r. simpl. left. reflexivity.
Qed.

Lemma pending_jobs_limit_has_no_effect_witness :
  In (Info ("/beamtime/processed/lyso/rotational_001" ++ " is skipped"))
     (snd (run (with_pending_jobs beamtime p09 (pending 201)) lyso_1 p09
             false false None)).
Proof.
  apply (proj2 (proj2 (pending_jobs_limit_has_no_effect beamtime p09 (pending 201)
                         lyso_1 false false None))).
  - reflexivity.
  - eexists. reflexivity.
  - reflexivity.
  - vm_compute. reflexivity.
Defined.

End DispatcherMore.

Section JobsProperties.
Import PyStr PyPath Shell Templates Autoprocessing.
Local Open Scope shell_scope.

Lemma submits_bind {A B : Type} n1 n2 (c : M A) (f : A -> M B) :
  submits n1 c -> (forall a, submits n2 (f a)) ->
  submits (n1 + n2) (bindM c f).
Proof.
  intros Hc Hf s. specialize (Hc s). unfold bindM.
  destruct (c s) as [[[a | e] s'] ev]; simpl in *.
  - specialize (Hf a s'). destruct (f a s') as [[r s''] ev']; simpl in *.
    unfold submissions in *. rewrite filter_app, length_app.
    destruct Hc as [Hc1 Hc2], Hf as [Hf1 Hf2]. specialize (Hc2 eq_refl).
    split; [lia |]. intros Hr. rewrite Hc2, (Hf2 Hr). reflexivity.
  - destruct Hc as [Hc1 _]. split; [lia | discriminate].
Qed.

Lemma submits_after {A B : Type} n (c : M A) (f : A -> M B) :
  submits 0 c -> (forall a, submits n (f a)) -> submits n (bindM c f).
Proof. apply (submits_bind 0 n). Qed.

Lemma submits_then {A B : Type} n (c : M A) (f : A -> M B) :
  submits n c -> (forall a, submits 0 (f a)) -> submits n (bindM c f).
Proof. intros Hc Hf. rewrite <- (Nat.add_0_r n). apply submits_bind; assumption. Qed.

Lemma submits_silent {A : Type} (c : M A) :
  (forall s, submissions (snd (c s)) = []) -> submits 0 c.
Proof. intros H s. rewrite H. split; [apply Nat.le_refl | reflexivity]. Qed.

Lemma submits_ret {A : Type} (a : A) : submits 0 (ret a).
Proof. apply submits_silent. reflexivity. Qed.

Lemma submits_raise {A : Type} e n : submits n (@raise A e).
Proof. intros s. simpl. split; [lia | discriminate]. Qed.

Lemma submits_lift {A : Type} (r : result A) : submits 0 (lift r).
Proof. apply submits_silent. reflexivity. Qed.

Lemma submits_info msg : submits 0 (info msg).
Proof. apply submits_silent. reflexivity. Qed.

Lemma submits_exists name : submits 0 (exists_ name).
Proof. apply submits_silent. reflexivity. Qed.

Lemma submits_makedirs : submits 0 makedirs.
Proof. apply submits_silent. reflexivity. Qed.

Lemma submits_create k name : submits 0 (create k name).
Proof. apply submits_silent. intros [entries |]; reflexivity. Qed.

Lemma submits_run_check w command script :
  submits 1 (run_check w command script).
Proof.
  intros s. unfold run_check, bindM, emit.
  destruct (sbatch w command =? 0); simpl; split; auto.
Qed.


Create HintDb jobs.
#[local] Hint Resolve submits_ret submits_raise submits_lift submits_info
  submits_exists submits_makedirs submits_create submits_run_check : jobs.

(** The steps of the proofs that count the jobs of a statement. *)
Ltac jobs_step :=
  first
    [ solve [auto 1 with jobs nocore]
    | apply submits_after; [solve [auto 1 with jobs nocore] | intros ?]
    | match goal with
      | |- submits _ (if ?b then _ else _) => destruct b
      | |- submits _ (match ?x with _ => _ end) => destruct x
      end ].

Ltac jobs := cbv zeta; repeat (jobs_step; cbv zeta).

Lemma submits_rotational_xds_start w a b c d e f g h :
  submits 1 (Rotational.xds_start w a b c d e f g h).
Proof.
  unfold Rotational.xds_start. cbv zeta.
  apply submits_after; [| intros ?; apply submits_run_check].
  destruct (negb _); [| apply submits_ret].
  apply submits_after; [apply submits_lift | intros ?].
  destruct (negb _); apply submits_ret.
Qed.

Lemma submits_copy_template w template there :
  submits 0 (copy_template w template there).
Proof. unfold copy_template. jobs. Qed.

#[local] Hint Resolve submits_copy_template : jobs.

Lemma submits_filling_template_rotational w folder a b :
  submits 0 (filling_template_rotational w folder a b).
Proof. unfold filling_template_rotational. jobs. Qed.

#[local] Hint Resolve submits_filling_template_rotational : jobs.


Lemma submits_filling_template_wedges w folder a b c d e f :
  submits 0 (filling_template_wedges w folder a b c d e f).
Proof. unfold filling_template_wedges. jobs. Qed.

#[local] Hint Resolve submits_filling_template_wedges : jobs.

(** X16. The rotational pipeline submits two jobs when the raw folder holds
    a data file and nothing fails; it submits at most two when it raises,
    and none when there is no data file. *)
Theorem rotational_processing_submits_two_jobs :
  forall (w : world) (folder : raw_folder)
         (current_data_processing_folder ORGX ORGY distance_offset
          command_for_data_processing XDS_INP_template user reserved_nodes
          slurm_partition sshPrivateKeyPath sshPublicKeyPath : string)
         (out : outdir),
    let done :=
      Rotational.rotational_processing w folder current_data_processing_folder
        ORGX ORGY distance_offset command_for_data_processing XDS_INP_template
        user reserved_nodes slurm_partition sshPrivateKeyPath sshPublicKeyPath
        out in
    let jobs := if has_data_file folder then 2%nat else 0%nat in
    (length (submissions (snd done)) <= jobs)%nat
    /\ (returned (fst (fst done)) = true ->
        length (submissions (snd done)) = jobs).
Proof.
  intros w folder current ORGX ORGY offset command template user nodes
    partition priv pub out done jobs. unfold done, jobs. clear done jobs.
  revert out.
  change (submits (if has_data_file folder then 2 else 0)%nat
            (Rotational.rotational_processing w folder current ORGX ORGY offset
               command template user nodes partition priv pub)).
  rewrite has_data_file_sorted.
  unfold Rotational.rotational_processing. cbv zeta.
  repeat (apply submits_after; [solve [auto 1 with jobs nocore] | intros ?]).
  destruct (Rotational.sorted _) as [| first rest]; [apply submits_ret |].
  repeat (apply submits_after; [solve [auto 1 with jobs nocore] | intros ?]).
  apply (submits_bind 1 1); [apply submits_rotational_xds_start | intros ?].
  apply submits_after; [apply submits_info | intros ?].
  apply submits_then; [apply submits_rotational_xds_start | intros ?].
  apply submits_create.
Qed.

Lemma rotational_processing_submits_two_jobs_witness :
  length (submissions
            (snd (Rotational.rotational_processing beamtime lyso_1
                    "/beamtime/processed/lyso/rotational_001" "None" "None" "0"
                    "xds_par" "/opt/autoprocessing/templates/XDS.INP" "bttest04"
                    "max-p3a020" "ponline_p09" "/beamtime/shared/id_rsa"
                    "shared/id_rsa.pub" None)))
  = 2%nat.
Proof.
  exact (proj2 (rotational_processing_submits_two_jobs beamtime lyso_1
                  "/beamtime/processed/lyso/rotational_001" "None" "None" "0"
                  "xds_par" "/opt/autoprocessing/templates/XDS.INP" "bttest04"
                  "max-p3a020" "ponline_p09" "/beamtime/shared/id_rsa"
                  "shared/id_rsa.pub" None) eq_refl).
Defined.



End JobsProperties.

Section WorklistProperties.
Import PyStr Autoprocessing.

Lemma existsb_eqb_In (x : string) (l : list string) :
  existsb (String.eqb x) l = true <-> In x l.
Proof.
  rewrite existsb_exists. split.
  - intros (y & Hy & E). apply String.eqb_eq in E. subst. assumption.
  - intros H. exists x. split; [assumption | apply String.eqb_refl].
Qed.

Lemma is_empty_false (s : string) : is_empty s = false <-> s <> EmptyString.
Proof. destruct s; simpl; split; congruence. Qed.

Lemma worklist_spec lines :
  forall seen,
    NoDup seen ->
    NoDup (worklist lines seen)
    /\ forall x, In x (worklist lines seen)
                 <-> In x seen
                     \/ (x <> EmptyString
                         /\ exists line, In line lines /\ strip line = x).
Proof.
  induction lines as [| line rest IH]; intros seen Hseen; simpl.
  - split; [assumption |]. intros x. split; [auto |].
    intros [H | (_ & l & [] & _)]. assumption.
  - destruct (is_empty (strip line)) eqn:E; simpl.
    + destruct (IH seen Hseen) as [Hd Hin]. split; [assumption |].
      intros x. rewrite Hin. split.
      * intros [H | (Hx & l & Hl & Hs)]; [auto |]. right. split; [assumption |].
        exists l. auto.
      * intros [H | (Hx & l & [Hl | Hl] & Hs)]; [auto | |].
        -- subst. destruct (strip l); [contradiction | discriminate].
        -- right. split; [assumption |]. exists l. auto.
    + destruct (existsb (String.eqb (strip line)) seen) eqn:X; simpl.
      * apply existsb_eqb_In in X.
        destruct (IH seen Hseen) as [Hd Hin]. split; [assumption |].
        intros x. rewrite Hin. split.
        -- intros [H | (Hx & l & Hl & Hs)]; [auto |]. right. split; [assumption |].
           exists l. auto.
        -- intros [H | (Hx & l & [Hl | Hl] & Hs)]; [auto | |].
           ++ subst. auto.
           ++ right. split; [assumption |]. exists l. auto.
      * assert (Hnew : ~ In (strip line) seen).
        { intros H. apply existsb_eqb_In in H. congruence. }
        assert (Hseen' : NoDup (seen ++ [strip line])).
        { apply NoDup_app; [assumption | repeat constructor; auto |].
          intros y Hy [<- | []]. contradiction. }
        destruct (IH _ Hseen') as [Hd Hin]. split; [assumption |].
        intros x. rewrite Hin, in_app_iff. simpl. split.
        -- intros [[H | [H | []]] | (Hx & l & Hl & Hs)]; [auto | |].
           ++ right. subst x. split; [apply is_empty_false, E |].
              exists line. auto.
           ++ right. split; [assumption |]. exists l. auto.
        -- intros [H | (Hx & l & [Hl | Hl] & Hs)]; [auto | |].
           ++ subst. auto.
           ++ right. split; [assumption |]. exists l. auto.
Qed.

(** X18. The worklist read from the file of blocks holds every line of the
    file, trimmed, that is not blank, and holds it once. *)
Theorem worklist_has_every_pattern_once :
  forall (lines : list string),
    NoDup (worklist lines [])
    /\ forall pattern,
         In pattern (worklist lines [])
         <-> pattern <> EmptyString
             /\ exists line, In line lines /\ strip line = pattern.
Proof.
  intros lines. destruct (worklist_spec lines [] (NoDup_nil _)) as [Hd Hin].
  split; [assumption |]. intros pattern. rewrite Hin. split.
  - intros [[] | H]. assumption.
  - auto.
Qed.

Lemma worklist_has_every_pattern_once_witness :
  In "lyso/rotational_001"
     (worklist [ "  lyso/rotational_001" ++ Shell.NL; Shell.NL;
                 "lyso/rotational_001" ++ Shell.NL ] []).
Proof.
  apply (proj2 (proj2 (worklist_has_every_pattern_once
                         [ "  lyso/rotational_001" ++ Shell.NL; Shell.NL;
                           "lyso/rotational_001" ++ Shell.NL ])
                  "lyso/rotational_001")).
  split; [discriminate |].
  exists ("  lyso/rotational_001" ++ Shell.NL). split; [left |]; reflexivity.
Defined.

End WorklistProperties.

Section TemplateMore.
Import PyStr PyPath PyTemplate.

Lemma convert_accepted m t :
  refused m t = false -> convert m t = Ok (safe_convert m t).
Proof.
  destruct t as [c | | n | n |]; simpl; try reflexivity; try discriminate;
    destruct (lookup m n); (reflexivity || discriminate).
Qed.

Lemma convert_refused m t :
  refused m t = true -> exists e, convert m t = Raise e.
Proof.
  destruct t as [c | | n | n |]; simpl; try discriminate;
    try (destruct (lookup m n); [discriminate |]); eexists; reflexivity.
Qed.

Lemma substitute_tokens_accepted m ts :
  forallb (fun t => negb (refused m t)) ts = true ->
  substitute_tokens m ts = Ok (join_all (map (safe_convert m) ts)).
Proof.
  induction ts as [| t ts IH]; simpl; [reflexivity |].
  intros H. apply andb_true_iff in H. destruct H as [Ht Hts].
  apply negb_true_iff in Ht. rewrite (convert_accepted _ _ Ht), (IH Hts).
  reflexivity.
Qed.

Lemma substitute_tokens_refused m ts :
  existsb (refused m) ts = true -> exists e, substitute_tokens m ts = Raise e.
Proof.
  induction ts as [| t ts IH]; simpl; [discriminate |].
  destruct (refused m t) eqn:Ht; simpl.
  - intros _. destruct (convert_refused _ _ Ht) as [e ->]. eexists; reflexivity.
  - intros H. rewrite (convert_accepted _ _ Ht).
    destruct (IH H) as [e ->]. eexists; reflexivity.
Qed.

(** X19. The strict substitution, which fills the templates of the
    pipelines, and the safe one, which fills the configuration file, give the same
    text whenever the strict one gives a text. It does so exactly when every
    placeholder of the template has an entry in the mapping and no
    delimiter stands alone; otherwise it raises. *)
Theorem substitute_agrees_with_safe_substitute :
  forall (m : mapping) (text : string),
    (forallb (fun t => negb (refused m t)) (tokenize text) = true ->
     substitute m text = Ok (safe_substitute m text))
    /\ (existsb (refused m) (tokenize text) = true ->
        exists e, substitute m text = Raise e)
    /\ (forall rendered, substitute m text = Ok rendered ->
                         rendered = safe_substitute m text).
Proof.
  intros m text. unfold substitute, safe_substitute.
  split; [apply substitute_tokens_accepted |].
  split; [apply substitute_tokens_refused |].
  intros rendered H.
  destruct (existsb (refused m) (tokenize text)) eqn:E.
  - destruct (substitute_tokens_refused _ _ E) as [e He]. congruence.
  - assert (A : forallb (fun t => negb (refused m t)) (tokenize text) = true).
    { apply forallb_forall. intros t Ht. apply negb_true_iff.
      destruct (refused m t) eqn:R; [| reflexivity].
      assert (X : existsb (refused m) (tokenize text) = true)
        by (apply existsb_exists; eauto).
      congruence. }
    rewrite (substitute_tokens_accepted _ _ A) in H. congruence.
Qed.

Lemma substitute_agrees_with_safe_substitute_witness :
  substitute [("ORGX", "1231.5")] "ORGX= $ORGX $$" = Ok "ORGX= 1231.5 $"
  /\ exists e, substitute [("ORGX", "1231.5")] "ORGX= $ORGX $ ${ORGY}" = Raise e.
Proof.
  split.
  - exact (proj1 (substitute_agrees_with_safe_substitute
                    [("ORGX", "1231.5")] "ORGX= $ORGX $$") eq_refl).
  - exact (proj1 (proj2 (substitute_agrees_with_safe_substitute
                           [("ORGX", "1231.5")] "ORGX= $ORGX $ ${ORGY}")) eq_refl).
Defined.







End TemplateMore.

Section WedgeProperties.
Import PyStr PyNum PyPath Shell.












End WedgeProperties.

Section SubmissionProperties.
Import PyStr PyPath Shell Templates Autoprocessing.
Local Open Scope shell_scope.

Lemma every_bind {A B : Type} P (c : M A) (f : A -> M B) :
  every_submission P c -> (forall a, every_submission P (f a)) ->
  every_submission P (bindM c f).
Proof.
  intros Hc Hf s command script. specialize (Hc s command script).
  unfold bindM. destruct (c s) as [[[a | e] s'] ev]; simpl in *; [| exact Hc].
  specialize (Hf a s' command script).
  destruct (f a s') as [[r s''] ev']; simpl in *.
  intros Hin. apply in_app_or in Hin. destruct Hin; auto.
Qed.

Lemma every_silent {A : Type} P (c : M A) :
  (forall s, submissions (snd (c s)) = []) -> every_submission P c.
Proof.
  intros H s command script Hin. exfalso.
  assert (I : In (Submitted command script) (submissions (snd (c s)))).
  { apply filter_In. split; [assumption | reflexivity]. }
  rewrite H in I. exact I.
Qed.

Lemma every_ret {A : Type} P (a : A) : every_submission P (ret a).
Proof. apply every_silent. reflexivity. Qed.

Lemma every_raise {A : Type} P e : every_submission P (@raise A e).
Proof. apply every_silent. reflexivity. Qed.

Lemma every_lift {A : Type} P (r : result A) : every_submission P (lift r).
Proof. apply every_silent. reflexivity. Qed.

Lemma every_info P msg : every_submission P (info msg).
Proof. apply every_silent. reflexivity. Qed.

Lemma every_exists P name : every_submission P (exists_ name).
Proof. apply every_silent. reflexivity. Qed.

Lemma every_listdir P : every_submission P listdir.
Proof. apply every_silent. intros [entries |]; reflexivity. Qed.

Lemma every_makedirs P : every_submission P makedirs.
Proof. apply every_silent. reflexivity. Qed.

Lemma every_chdir P : every_submission P chdir.
Proof. apply every_silent. intros [entries |]; reflexivity. Qed.

Lemma every_create P k name : every_submission P (create k name).
Proof. apply every_silent. intros [entries |]; reflexivity. Qed.

Lemma every_remove_entry P path e : every_submission P (remove_entry path e).
Proof.
  apply every_silent. intros [entries |]; unfold remove_entry; [| reflexivity].
  destruct (has_entry (ename e) entries); [| reflexivity].
  destruct (deletable e); reflexivity.
Qed.

Lemma every_delete_entry P proc f : every_submission P (delete_entry proc f).
Proof.
  apply every_silent. intros s.
  destruct (delete_entry_total proc f s) as (s' & ev & E & Q & _).
  rewrite E. exact Q.
Qed.

Lemma every_run_check (P : string -> list string -> Prop) w command script :
  P command script -> every_submission P (run_check w command script).
Proof.
  intros H s command' script'. unfold run_check, bindM, emit.
  destruct (sbatch w command =? 0); simpl;
    intros [E | []]; inversion E; subst; exact H.
Qed.

Lemma every_for_each {A : Type} P (l : list A) (body : A -> M unit) :
  (forall a, every_submission P (body a)) -> every_submission P (for_each l body).
Proof.
  intros H. induction l as [| a l IH]; simpl; [apply every_ret |].
  apply every_bind; [apply H | intros _; exact IH].
Qed.

Create HintDb submission.
#[local] Hint Resolve every_ret every_raise every_lift every_info every_exists
  every_listdir every_makedirs every_chdir every_create every_remove_entry
  every_delete_entry : submission.

(** The steps of the proofs about every submission of a statement. *)
Ltac every_step :=
  first
    [ solve [auto 1 with submission nocore]
    | match goal with
      | |- every_submission _ (run_check _ _ _) => apply every_run_check
      | |- every_submission _ (Serial.chunk_loop _ _ _ _) => fail 2
      end
    | apply every_for_each; intros ?
    | apply every_bind; [| intros ?]
    | match goal with
      | |- every_submission _ (if ?b then _ else _) => destruct b
      | |- every_submission _ (match ?x with _ => _ end) => destruct x
      end ].

Ltac every := cbv zeta; repeat (every_step; cbv zeta).

Lemma local_copy_template w template there :
  every_submission local_submission (copy_template w template there).
Proof. unfold copy_template. every. Qed.

#[local] Hint Resolve local_copy_template : submission.

Lemma local_filling_template_rotational w folder a b :
  every_submission local_submission (filling_template_rotational w folder a b).
Proof. unfold filling_template_rotational. every. Qed.

Lemma local_filling_template_wedges w folder a b c d e f :
  every_submission local_submission (filling_template_wedges w folder a b c d e f).
Proof. unfold filling_template_wedges. every. Qed.

Lemma local_filling_template_serial w folder a b c :
  every_submission local_submission (filling_template_serial w folder a b c).
Proof. unfold filling_template_serial, unlink. every. Qed.

#[local] Hint Resolve local_filling_template_rotational
  local_filling_template_wedges local_filling_template_serial : submission.

Lemma local_rotational_xds_start w a b c e f g :
  every_submission local_submission
    (Rotational.xds_start w a b c "maxwell" e f g None).
Proof.
  unfold Rotational.xds_start.
  change (contains "maxwell" "maxwell") with true. cbv zeta. cbn [negb].
  every. unfold local_submission, Rotational.submit_command. simpl.
  apply prefix_empty.
Qed.

Lemma local_wedges_xds_start w a b c e f g h :
  every_submission local_submission
    (Wedges.xds_start w a b c "maxwell" e f g h).
Proof.
  unfold Wedges.xds_start.
  change (contains "maxwell" "maxwell") with true. cbv zeta. cbv iota.
  every. unfold local_submission, Rotational.submit_command. simpl.
  apply prefix_empty.
Qed.

#[local] Hint Resolve local_rotational_xds_start local_wedges_xds_start
  : submission.

Lemma local_rotational_processing w folder a b c d e f h i j k :
  every_submission local_submission
    (Rotational.rotational_processing w folder a b c d e f h "maxwell" i j k).
Proof.
  unfold Rotational.rotational_processing.
  change (Rotational.login_node_of "maxwell") with (@None string).
  every.
Qed.

Lemma local_wedges_processing w folder a b c d e f g h i j k :
  every_submission local_submission
    (Wedges.wedges_processing w folder a b c d e f g h "maxwell" i j k).
Proof. unfold Wedges.wedges_processing. every. Qed.

Lemma local_serial_data_processing w folder a b c d f g h i j k :
  every_submission local_submission
    (Serial.serial_data_processing w folder a b c d "maxwell" f g h i j k).
Proof.
  unfold Serial.serial_data_processing.
  change (contains "maxwell" "maxwell") with true. cbn [negb]. cbv iota.
  every. unfold local_submission, Rotational.submit_command. simpl.
  apply prefix_empty.
Qed.

Lemma local_chunk_loop P todo :
  forall iteration NFRAMES body,
    (forall a b i, every_submission P (body a b i)) ->
    every_submission P (Serial.chunk_loop todo iteration NFRAMES body).
Proof.
  induction todo as [| todo IH]; intros iteration NFRAMES body H; simpl.
  - apply every_ret.
  - every; first [apply H | apply IH, H].
Qed.

Lemma local_serial_processing w folder a b c d e f g h i j k :
  every_submission local_submission
    (Serial.serial_processing w folder a b c d e f g h "maxwell" i j k).
Proof.
  unfold Serial.serial_processing. cbv zeta.
  do 4 (apply every_bind; [apply every_info | intros _]).
  apply every_bind; [apply local_filling_template_serial | intros filled].
  destruct filled as [[[indexing_method cell_file] NFRAMES] |];
    [| apply every_raise].
  apply every_bind; [apply every_info | intros _].
  apply every_bind;
    [destruct (is_empty _); [apply every_info | apply every_ret] | intros _].
  apply every_bind; [| intros _; apply every_create].
  apply local_chunk_loop. intros. apply local_serial_data_processing.
Qed.

#[local] Hint Resolve local_rotational_processing local_wedges_processing
  local_serial_processing : submission.

Lemma every_clear_old_results P proc :
  every_submission P (clear_old_results proc).
Proof. unfold clear_old_results. every. Qed.

#[local] Hint Resolve every_clear_old_results : submission.

Lemma every_prepare P w folder c is_force :
  every_submission P (prepare w folder c is_force).
Proof. unfold prepare. every. Qed.

#[local] Hint Resolve every_prepare : submission.

Lemma local_start_pipeline w folder proc c is_force method fpp :
  every_submission local_submission
    (start_pipeline w folder proc c is_force true method fpp).
Proof.
  unfold start_pipeline, xds_start, wedges_xds_start, serial_start.
  change (nodes_for c true) with "maxwell". every.
Qed.

#[local] Hint Resolve local_start_pipeline : submission.

(** X22. With the option for the shared cluster no job goes through [ssh]:
    every command line that [run] hands to the shell is the call of
    [sbatch] on the script, whatever the pipeline. *)
Theorem run_on_maxwell_submits_locally :
  forall (w : world) (folder : raw_folder) (c : configuration)
         (is_force : bool) (out : outdir) (command : string)
         (script : list string),
    In (Submitted command script) (snd (run w folder c is_force true out)) ->
    String.prefix "sbatch " command = true.
Proof.
  intros w folder c is_force out command script.
  assert (L : every_submission local_submission (run w folder c is_force true))
    by (unfold run; every).
  apply L.
Qed.

Lemma run_on_maxwell_submits_locally_witness :
  String.prefix "sbatch "
    "sbatch /beamtime/processed/lyso/rotational_001/xds/xds_XDS.sh" = true.
Proof.
  eapply (run_on_maxwell_submits_locally beamtime lyso_1 p09 false None).
  vm_compute. right. right. right. right. right. right. right. right. right.
  right. right. left. reflexivity.
Defined.

End SubmissionProperties.

Section MirrorProperties.
Import PyStr PyPath Shell Autoprocessing.

Lemma lstrip_char_other sep s :
  String.prefix (String sep EmptyString) s = false -> lstrip_char sep s = s.
Proof.
  destruct s as [| c t]; [reflexivity |]. simpl.
  destruct (Ascii.eqb c sep) eqn:E; [| reflexivity].
  apply Ascii.eqb_eq in E. subst c.
  destruct (ascii_dec sep sep) as [_ | N]; [| contradiction].
  rewrite prefix_empty. discriminate.
Qed.

(** X23. The output directory mirrors the raw folder: a folder below the raw
    directory gets the directory of the same relative path below the
    processed directory. The raw directory is cut off by its length, so it
    does not matter whether it is written with a slash at its end. *)
Theorem proc_subpath_of_mirrors :
  forall (c : configuration) (relative : string),
    String.prefix "/" relative = false ->
    is_empty (processed_directory (cryst c)) = false ->
    ends_with_slash (processed_directory (cryst c)) = false ->
    proc_subpath_of c (raw_directory (cryst c) ++ "/" ++ relative)
    = processed_directory (cryst c) ++ "/" ++ relative
    /\ proc_subpath_of c (raw_directory (cryst c) ++ relative)
       = processed_directory (cryst c) ++ "/" ++ relative.
Proof.
  intros c relative Hrel Hne Hslash. unfold proc_subpath_of, join.
  rewrite !drop_length_append, Hne, Hslash. simpl.
  destruct (Ascii.eqb "/" "/") eqn:E; [| discriminate].
  rewrite (lstrip_char_other "/" relative Hrel). split; reflexivity.
Qed.

Lemma proc_subpath_of_mirrors_witness :
  proc_subpath_of p09 ("/beamtime/raw" ++ "/" ++ "lyso/rotational_001")
  = "/beamtime/processed" ++ "/" ++ "lyso/rotational_001".
Proof.
  exact (proj1 (proc_subpath_of_mirrors p09 "lyso/rotational_001"
                  eq_refl eq_refl eq_refl)).
Defined.

End MirrorProperties.
